(** * FileBot: client-side access layer for MUMPS globals

    A shallow embedding of the Python sources of the FileBot adapters
    ([filebot-python/filebot/adapters/iris_native_adapter.py],
    [python/base_adapter.py], [python/adapters/iris_native_adapter.py])
    together with the properties stated about them.

    Text is modelled as [string] restricted to ASCII: [upper] and [isdigit]
    act on the ASCII letters and digits only. *)

From Stdlib Require Import String Ascii List ZArith NArith Lia Bool.
From Stdlib Require Import DecimalString DecimalN OrdersEx QArith.
Import ListNotations.

Open Scope string_scope.
Open Scope Z_scope.

(** ** Python string and integer primitives used by the sources *)

Module Py.

Definition is_digit (c : ascii) : bool :=
  let n := N_of_ascii c in ((48 <=? n) && (n <=? 57))%N.

Fixpoint all_digits (s : string) : bool :=
  match s with
  | EmptyString => true
  | String c r => is_digit c && all_digits r
  end.

(** [str.isdigit()]: false on the empty string. *)
Definition isdigit (s : string) : bool :=
  negb (s =? "")%string && all_digits s.

Fixpoint int_acc (acc : N) (s : string) : option N :=
  match s with
  | EmptyString => Some acc
  | String c r =>
      if is_digit c then int_acc (10 * acc + (N_of_ascii c - 48))%N r else None
  end.

(** [int(s)] on a string of decimal digits; [None] stands for [ValueError].
    The sources only reach [int] with slices of an [isdigit] string. *)
Definition int (s : string) : option Z :=
  if (s =? "")%string then None else option_map Z.of_N (int_acc 0 s).

(** [s[i:j]] for [0 <= i <= j]; like Python, it clamps at the end of [s]. *)
Definition slice (i j : nat) (s : string) : string := substring i (j - i) s.

Definition str_of_N (n : N) : string := NilEmpty.string_of_uint (N.to_uint n).

(** [str(z)] for an integer. *)
Definition str (z : Z) : string :=
  if z <? 0 then "-" ++ str_of_N (Z.abs_N z) else str_of_N (Z.to_N z).

Fixpoint zeros (n : nat) : string :=
  match n with
  | O => ""
  | S k => String "0" (zeros k)
  end.

Definition pad0 (width : nat) (s : string) : string :=
  zeros (width - String.length s) ++ s.

(** [f"{z:0{width}d}"]: the sign, when there is one, counts in the width. *)
Definition format_d (width : nat) (z : Z) : string :=
  if z <? 0 then "-" ++ pad0 (width - 1) (str_of_N (Z.abs_N z))
  else pad0 width (str_of_N (Z.to_N z)).

Definition upper_char (c : ascii) : ascii :=
  let n := N_of_ascii c in
  if ((97 <=? n) && (n <=? 122))%N then ascii_of_N (n - 32) else c.

(** [str.upper()] on ASCII text. *)
Fixpoint upper (s : string) : string :=
  match s with
  | EmptyString => ""
  | String c r => String (upper_char c) (upper r)
  end.

(** [s.replace(c, t)] for a one-character pattern [c]. *)
Fixpoint replace_char (c : ascii) (t : string) (s : string) : string :=
  match s with
  | EmptyString => ""
  | String a r =>
      if Ascii.eqb a c then t ++ replace_char c t r
      else String a (replace_char c t r)
  end.

(** [s.startswith(p)] *)
Definition startswith (s p : string) : bool := prefix p s.

(** [sub in s] *)
Fixpoint contains (sub s : string) : bool :=
  prefix sub s ||
  match s with
  | EmptyString => false
  | String _ r => contains sub r
  end.

(** [s.split(sep)] for a one-character separator: never the empty list. *)
Fixpoint split_on (sep : ascii) (s : string) : list string :=
  match s with
  | EmptyString => [""]
  | String c r =>
      if Ascii.eqb c sep then "" :: split_on sep r
      else match split_on sep r with
           | [] => [String c ""]
           | w :: ws => String c w :: ws
           end
  end.

(** [sep.join(parts)] *)
Fixpoint join (sep : string) (parts : list string) : string :=
  match parts with
  | [] => ""
  | [p] => p
  | p :: ps => p ++ sep ++ join sep ps
  end.

(** [c in s] for a character [c]. *)
Fixpoint has_char (c : ascii) (s : string) : bool :=
  match s with
  | EmptyString => false
  | String a r => Ascii.eqb a c || has_char c r
  end.

End Py.

(** ** FileMan date codec ([IrisNativeAdapter._parse_fileman_date],
       [IrisNativeAdapter._format_fileman_date]) *)

Module FileManDate.

Record date := mkdate { year : Z; month : Z; day : Z }.

Definition is_leap (y : Z) : bool :=
  ((y mod 4 =? 0) && negb (y mod 100 =? 0)) || (y mod 400 =? 0).

Definition days_in_month (y m : Z) : Z :=
  if m =? 2 then (if is_leap y then 29 else 28)
  else if (m =? 4) || (m =? 6) || (m =? 9) || (m =? 11) then 30
  else 31.

(** The dates [datetime] can hold: years 1..9999 of the proleptic Gregorian
    calendar. *)
Definition valid_dateb (d : date) : bool :=
  (1 <=? year d) && (year d <=? 9999) &&
  (1 <=? month d) && (month d <=? 12) &&
  (1 <=? day d) && (day d <=? days_in_month (year d) (month d)).

Definition valid_date (d : date) : Prop := valid_dateb d = true.

(** [date.isoformat()] : YYYY-MM-DD *)
Definition isoformat (d : date) : string :=
  Py.format_d 4 (year d) ++ "-" ++ Py.format_d 2 (month d) ++ "-" ++
  Py.format_d 2 (day d).

(** [datetime.fromisoformat] on the date-only extended form YYYY-MM-DD, the
    form [isoformat] produces; [None] stands for [ValueError].  The time part
    and the other forms the library accepts are not modelled. *)
Definition fromisoformat (s : string) : option date :=
  if (String.length s =? 10)%nat
     && (Py.slice 4 5 s =? "-")%string && (Py.slice 7 8 s =? "-")%string
     && Py.all_digits (Py.slice 0 4 s) && Py.all_digits (Py.slice 5 7 s)
     && Py.all_digits (Py.slice 8 10 s)
  then
    match Py.int (Py.slice 0 4 s), Py.int (Py.slice 5 7 s),
          Py.int (Py.slice 8 10 s) with
    | Some y, Some m, Some d =>
        let dt := mkdate y m d in
        if valid_dateb dt then Some dt else None
    | _, _, _ => None
    end
  else None.

(** [_parse_fileman_date]: the [None] of [int] is the [ValueError] the
    source catches; every path returns a string. *)
Definition _parse_fileman_date (fileman_date : string) : string :=
  if (fileman_date =? "")%string || negb (Py.isdigit fileman_date) then ""
  else if (7 <=? String.length fileman_date)%nat then
    match Py.int (Py.slice 0 3 fileman_date),
          Py.int (Py.slice 3 5 fileman_date),
          Py.int (Py.slice 5 7 fileman_date) with
    | Some y, Some m, Some d =>
        Py.format_d 4 (1700 + y) ++ "-" ++ Py.format_d 2 m ++ "-" ++
        Py.format_d 2 d
    | _, _, _ => ""
    end
  else "".

(** [_format_fileman_date]: [fromisoformat] failing is the caught
    [ValueError]. *)
Definition _format_fileman_date (iso_date : string) : string :=
  if (iso_date =? "")%string then ""
  else
    match fromisoformat (Py.replace_char "Z" "+00:00" iso_date) with
    | Some dt =>
        let fileman_year := year dt - 1700 in
        Py.format_d 3 fileman_year ++ Py.format_d 2 (month dt) ++
        Py.format_d 2 (day dt)
    | None => ""
    end.

(** The encoding in the words of the specification: exactly [w] decimal
    digits of [n], most significant first. *)
Fixpoint zero_padded (w : nat) (n : Z) : string :=
  match w with
  | O => ""
  | S k => zero_padded k (n / 10) ++
           String (ascii_of_N (48 + Z.to_N (n mod 10))) ""
  end.

(** Month and day of the 3/2/2 split lie in 1..12 and 1..31. *)
Definition month_day_in_range (s : string) : bool :=
  match Py.int (Py.slice 3 5 s), Py.int (Py.slice 5 7 s) with
  | Some m, Some d => (1 <=? m) && (m <=? 12) && (1 <=? d) && (d <=? 31)
  | _, _ => false
  end.

(** What [format_d] gives on the ranges the codec uses: [w] decimal digits
    that read back as [n] and are the zero-padded form of [n]. *)
Definition digits_check (w : nat) (n : Z) : bool :=
  let s := Py.format_d w n in
  (String.length s =? w)%nat && Py.all_digits s &&
  match Py.int s with Some z => z =? n | None => false end &&
  (s =? zero_padded w n)%string.

Record digits_of (w : nat) (n : Z) (s : string) : Prop := {
  digits_length : String.length s = w;
  digits_all : Py.all_digits s = true;
  digits_int : Py.int s = Some n;
  digits_padded : s = zero_padded w n
}.

End FileManDate.

(** ** Exceptions and results *)

(** Modelled from the spec: the exception classes of [filebot/exceptions.py],
    which is not among the sources; the taxonomy of the error-handling
    section, all of them ordinary [Exception] subclasses, none a subclass of
    another one listed here. *)
Inductive exn_kind :=
  | QueryError | ConnectionError | FileBotException
  | ValueError | RuntimeError | IndexError.

Record exn := mkexn { kind : exn_kind; msg : string }.

Definition is_QueryError (e : exn) : bool :=
  match kind e with QueryError => true | _ => false end.

Inductive result (A : Type) :=
  | Ok (a : A)
  | Raise (e : exn).
Arguments Ok {A} a.
Arguments Raise {A} e.

(** ** Python dictionaries, in insertion order *)

Module Dict.

Section WithValue.
Context {V : Type}.

Definition t := list (string * V).

Fixpoint get (k : string) (d : t) : option V :=
  match d with
  | [] => None
  | (k', v) :: r => if (k' =? k)%string then Some v else get k r
  end.

(** [d[k] = v]: an existing key keeps its place, a new one goes last. *)
Fixpoint set (k : string) (v : V) (d : t) : t :=
  match d with
  | [] => [(k, v)]
  | (k', v') :: r =>
      if (k' =? k)%string then (k, v) :: r else (k', v') :: set k v r
  end.

(** [d.pop(k, None)] *)
Fixpoint pop (k : string) (d : t) : t :=
  match d with
  | [] => []
  | (k', v') :: r =>
      if (k' =? k)%string then pop k r else (k', v') :: pop k r
  end.

Definition keys (d : t) : list string := map fst d.

Definition mem (k : string) (d : t) : bool :=
  match get k d with Some _ => true | None => false end.
End WithValue.
Arguments t : clear implicits.

End Dict.

(** ** [python/base_adapter.py]: [BaseAdapter] helpers and [MockAdapter] *)

Module BaseAdapter.

Definition _normalize_global_name (global_name : string) : result string :=
  if (global_name =? "")%string
  then Raise (mkexn ValueError "Global name cannot be empty")
  else Ok (if Py.startswith global_name "^" then global_name
           else "^" ++ global_name).

(** Subscripts are strings already: [str(sub)] leaves them as they are. *)
Definition _validate_subscripts (subscripts : list string) : list string :=
  subscripts.

(** [ConnectionResult]; [details] holds the latency entry when there is
    one, times are in milliseconds. *)
Record ConnectionResult := mkConnectionResult {
  success : bool;
  message : string;
  details : option Z;
  timestamp : option Z
}.

End BaseAdapter.

Module MockAdapter.

(** [MockAdapter._build_key] *)
Definition _build_key (global_name : string) (subscripts : list string)
  : result string :=
  match BaseAdapter._normalize_global_name global_name with
  | Raise e => Raise e
  | Ok normalized =>
      match subscripts with
      | [] => Ok normalized
      | _ :: _ => Ok (normalized ++ "(" ++ Py.join "," subscripts ++ ")")
      end
  end.

(** [self.data] *)
Definition data := Dict.t string.

Definition get_global (d : data) (global_name : string)
    (subscripts : list string) : result (option string) :=
  match _build_key global_name subscripts with
  | Raise e => Raise e
  | Ok key => Ok (Dict.get key d)
  end.

(** Returns the updated [self.data] with the [True] the method returns. *)
Definition set_global (value : string) (global_name : string)
    (subscripts : list string) (d : data) : result (data * bool) :=
  match _build_key global_name subscripts with
  | Raise e => Raise e
  | Ok key =>
      if negb (value =? "")%string
      then Ok (Dict.set key value d, true)
      else Ok (Dict.pop key d, true)
  end.

Definition order_global (d : data) (global_name : string)
    (subscripts : list string) : result (option string) :=
  match _build_key global_name subscripts with
  | Raise e => Raise e
  | Ok key_prefix =>
      let matching_keys :=
        filter (fun k => Py.startswith k key_prefix) (Dict.keys d) in
      Ok (match matching_keys with
          | k :: _ => Some k
          | [] => None
          end)
  end.

Definition data_global (d : data) (global_name : string)
    (subscripts : list string) : result Z :=
  match _build_key global_name subscripts with
  | Raise e => Raise e
  | Ok key => Ok (if Dict.mem key d then 1 else 0)
  end.

(** The walk of the specification over the mock: call [order_global] with
    the previous answer as last subscript, [n] times, starting from the
    empty subscript; the answers in order. *)
Fixpoint order_walk (n : nat) (d : data) (global_name : string)
    (parent : list string) (current : string) : list (option string) :=
  match n with
  | O => []
  | S k =>
      match order_global d global_name (parent ++ [current]) with
      | Ok (Some next) =>
          Some next :: order_walk k d global_name parent next
      | _ => [None]
      end
  end.

Definition test_key (now_s : Z) : string := "^FILEBOT_TEST_" ++ Py.str now_s.

(** [BaseAdapter.test_connection] as [MockAdapter] inherits it; [now_s] is
    [int(datetime.now().timestamp())].  Returns the result with the
    [self.data] left. *)
Definition test_connection (connected : bool) (now_s : Z) (d : data)
  : BaseAdapter.ConnectionResult * data :=
  let failed e d' :=
    (BaseAdapter.mkConnectionResult false
       ("Connection test failed: " ++ msg e) None None, d') in
  if negb connected
  then (BaseAdapter.mkConnectionResult false "Adapter not connected"
          None None, d)
  else
    let test_global := test_key now_s in
    match set_global "test" test_global ["connection"] d with
    | Raise e => failed e d
    | Ok (d1, _) =>
        match get_global d1 test_global ["connection"] with
        | Raise e => failed e d1
        | Ok result =>
            match set_global "" test_global ["connection"] d1 with
            | Raise e => failed e d1
            | Ok (d2, _) =>
                match result with
                | Some "test" =>
                    (BaseAdapter.mkConnectionResult true
                       "Connection successful" None None, d2)
                | _ =>
                    (BaseAdapter.mkConnectionResult false
                       "Global operation test failed" None None, d2)
                end
            end
        end
    end.

End MockAdapter.

(** ** [python/base_adapter.py]: [AdapterRegistry] *)

Module AdapterRegistry.

Record adapter_info := mkinfo {
  class : string;          (* the adapter class, by name *)
  description : string;
  version : string;
  priority : Z;
  auto_detect : bool
}.

(** [self._adapters] *)
Definition adapters := Dict.t adapter_info.

Definition register_adapter (name class_name description version : string)
    (priority : Z) (auto_detect : bool) (a : adapters) : adapters :=
  Dict.set name (mkinfo class_name description version priority auto_detect) a.

(** [list.sort(key=priority, reverse=True)]: the sort is stable, entries of
    equal priority keep their order. *)
Fixpoint insert_desc (x : string * adapter_info)
    (l : list (string * adapter_info)) : list (string * adapter_info) :=
  match l with
  | [] => [x]
  | y :: r =>
      if priority (snd x) <? priority (snd y) then y :: insert_desc x r
      else x :: y :: r
  end.

Definition sort_desc (l : list (string * adapter_info))
  : list (string * adapter_info) :=
  fold_right insert_desc [] l.

Definition _auto_detect_adapter (a : adapters) : result string :=
  let available := filter (fun ni => auto_detect (snd ni)) a in
  match available with
  | [] => Raise (mkexn RuntimeError "No adapters available for auto-detection")
  | _ :: _ =>
      match sort_desc available with
      | (name, _) :: _ => Ok name
      | [] => Raise (mkexn IndexError "list index out of range")
      end
  end.

Definition get_adapter_class (name : string) (a : adapters)
  : option string :=
  match Dict.get name a with
  | Some adapter_info => Some (class adapter_info)
  | None => None
  end.

(** [str(list(keys))] for names without quotes or escapes. *)
Definition repr_names (names : list string) : string :=
  "[" ++ Py.join ", " (map (fun n => "'" ++ n ++ "'") names) ++ "]".

(** [create_adapter]; [instantiate cls] stands for the call
    [adapter_class(config)] of the class found, which may raise. *)
Definition create_adapter {A : Type} (instantiate : string -> result A)
    (name : string) (a : adapters) : result A :=
  let resolved :=
    if (name =? "auto_detect")%string then _auto_detect_adapter a
    else Ok name in
  match resolved with
  | Raise e => Raise e
  | Ok name =>
      match get_adapter_class name a with
      | Some adapter_class => instantiate adapter_class
      | None =>
          Raise (mkexn ValueError
                   ("Unknown adapter: " ++ name ++ ". Available: " ++
                    repr_names (Dict.keys a)))
      end
  end.

(** [list_adapters], each entry as name, description, version, priority. *)
Definition list_adapters (a : adapters)
  : list (string * string * string * Z) :=
  map (fun ni => (fst ni, description (snd ni), version (snd ni),
                  priority (snd ni))) a.

End AdapterRegistry.

(** ** The remote store *)

Module Globals.

(** A node address: the global name followed by its subscripts.  The integer
    subscript [0] of the sources is the subscript ["0"]. *)
Definition path := list string.

Definition path_eqb (p q : path) : bool :=
  if list_eq_dec string_dec p q then true else false.

(** Modelled from the spec: the hierarchical sparse store behind the Native
    SDK, which the sources reach only through its calls; here the list of
    the nodes that hold a value. *)
Definition store := list (path * string).

Inductive ckey :=
  | CNum (q : Q)
  | CStr (s : string).

(** Integer part and, when there is a point, the fractional part. *)
Fixpoint split_point (s : string) : string * option string :=
  match s with
  | EmptyString => ("", None)
  | String c r =>
      if Ascii.eqb c "." then ("", Some r)
      else let (a, b) := split_point r in (String c a, b)
  end.

Fixpoint pow10 (n : nat) : positive :=
  match n with
  | O => 1%positive
  | S k => (10 * pow10 k)%positive
  end.

Definition digits_value (s : string) : Z :=
  match Py.int_acc 0 s with Some n => Z.of_N n | None => 0 end.

(** Value of an unsigned canonical number: integer or decimal, the integer
    part without leading zero. *)
Definition unsigned_value (allow_zero : bool) (s : string) : option Q :=
  let (ip, fp) := split_point s in
  match fp with
  | None =>
      if Py.isdigit ip
         && (negb (Py.startswith ip "0") || (allow_zero && (ip =? "0")%string))
      then Some (digits_value ip # 1) else None
  | Some f =>
      if Py.all_digits ip && Py.isdigit f && negb (Py.startswith ip "0")
      then Some (digits_value (ip ++ f) # pow10 (String.length f)) else None
  end.

(** Modelled from the spec: the collation rule of the store, which the
    Native SDK enforces on the server and the sources do not contain.  A
    subscript is canonical-numeric if it parses as a base-10 integer or
    decimal with no leading zeros (other than "0" itself) and no leading
    "+". *)
Definition canonical_numeric (s : string) : option Q :=
  match s with
  | String "-" r => option_map Qopp (unsigned_value false r)
  | _ => unsigned_value true s
  end.

Definition collation_key (s : string) : ckey :=
  match canonical_numeric s with
  | Some q => CNum q
  | None => CStr s
  end.

Definition ckey_ltb (a b : ckey) : bool :=
  match a, b with
  | CNum x, CNum y => match (x ?= y)%Q with Lt => true | _ => false end
  | CNum _, CStr _ => true
  | CStr _, CNum _ => false
  | CStr x, CStr y =>
      match String_as_OT.compare x y with Lt => true | _ => false end
  end.

(** Modelled from the spec: all canonical-numeric subscripts first, in
    ascending numeric value, followed by all non-numeric subscripts, in
    ascending byte-wise lexicographic order. *)
Definition coll_ltb (a b : string) : bool :=
  ckey_ltb (collation_key a) (collation_key b).

Fixpoint child_of (parent key : path) : option string :=
  match parent, key with
  | [], s :: _ => Some s
  | p :: ps, k :: ks => if (p =? k)%string then child_of ps ks else None
  | _, [] => None
  end.

(** The subscripts below [parent], one for every node that holds a value at
    or below it. *)
Definition children (st : store) (parent : path) : list string :=
  flat_map (fun kv => match child_of parent (fst kv) with
                      | Some s => [s]
                      | None => []
                      end) st.

Definition after (x c : string) : bool := (x =? "")%string || coll_ltb x c.

Fixpoint minimum (best : string) (cs : list string) : string :=
  match cs with
  | [] => best
  | c :: r => minimum (if coll_ltb c best then c else best) r
  end.

(** Modelled from the spec: "next subscript after X" returns the smallest
    subscript strictly greater than X in collation order, or "no more" (the
    empty string) if none exists; "from the beginning" uses X = empty. *)
Definition order (st : store) (parent : path) (x : string) : string :=
  match filter (after x) (children st parent) with
  | [] => ""
  | c :: cs => minimum c cs
  end.

Fixpoint get (st : store) (p : path) : option string :=
  match st with
  | [] => None
  | (k, v) :: r => if path_eqb k p then Some v else get r p
  end.

Definition remove (p : path) (st : store) : store :=
  filter (fun kv => negb (path_eqb (fst kv) p)) st.

(** Modelled from the spec: set stores or overwrites the value at path;
    storing an empty value is a distinct write, not a deletion. *)
Definition set (value : string) (p : path) (st : store) : store :=
  (p, value) :: remove p st.

(** Modelled from the spec: [Undefined] 0, [ValueOnly] 1, [ChildrenOnly] 10,
    [ValueAndChildren] 11. *)
Definition isDefined (st : store) (p : path) : Z :=
  (match get st p with Some _ => 1 | None => 0 end) +
  (match children st p with [] => 0 | _ :: _ => 10 end).

(** How many children lie after [x]: what a walk that is at [x] has left. *)
Definition rank (st : store) (parent : path) (x : string) : nat :=
  List.length (filter (after x) (children st parent)).

(** The walk of the specification: [order] called [n] times from the empty
    subscript, each answer fed back in. *)
Fixpoint order_walk (n : nat) (st : store) (parent : path) (x : string)
  : list string :=
  match n with
  | O => []
  | S k =>
      let y := order st parent x in
      if (y =? "")%string then [y] else y :: order_walk k st parent y
  end.

End Globals.

(** ** Calls on a session: state, exceptions and loop fuel *)

Module Exec.

(** A computation on a session state [S]: [None] when the fuel that bounds
    a [while] loop of the model is exhausted (not a behaviour of the
    program), otherwise the value returned or the exception raised, with the
    state reached. *)
Definition M (S A : Type) : Type := S -> option (result A * S).

Section Ops.
Context {S : Type}.

Definition ret {A} (a : A) : M S A := fun s => Some (Ok a, s).

Definition raise {A} (k : exn_kind) (m : string) : M S A :=
  fun s => Some (Raise (mkexn k m), s).

Definition reraise {A} (e : exn) : M S A := fun s => Some (Raise e, s).

Definition out_of_fuel {A} : M S A := fun _ => None.

Definition bind {A B} (c : M S A) (k : A -> M S B) : M S B :=
  fun s =>
    match c s with
    | None => None
    | Some (Ok a, s') => k a s'
    | Some (Raise e, s') => Some (Raise e, s')
    end.

(** [try: c  except Exception as e: h e] *)
Definition try_except {A} (c : M S A) (h : exn -> M S A) : M S A :=
  fun s =>
    match c s with
    | Some (Raise e, s') => h e s'
    | r => r
    end.

(** The outcome of [c] as a value, for handlers that look at it. *)
Definition attempt {A} (c : M S A) : M S (result A) :=
  fun s =>
    match c s with
    | None => None
    | Some (r, s') => Some (Ok r, s')
    end.

Definition lift {A} (r : result A) : M S A := fun s => Some (r, s).
End Ops.

End Exec.

Declare Scope exec_scope.
Delimit Scope exec_scope with exec.
Notation "x <- c ;; k" := (Exec.bind c (fun x => k))
  (at level 61, c at next level, right associativity) : exec_scope.
Notation "c ;;; k" := (Exec.bind c (fun _ => k))
  (at level 61, right associativity) : exec_scope.

(** The Native SDK object ([self._iris], [self.iris_native]) and the clock,
    as functions of the session state: every call returns or raises.
    [sdk_order parent x] is the SDK's [order] with the subscripts [parent]
    then [x]; at the end of the level it answers the empty string (the
    sources test it with [not], which [None] satisfies as well). *)
Record backend (S : Type) := mkbackend {
  sdk_isDefined : Globals.path -> S -> result Z * S;
  sdk_get : Globals.path -> S -> result (option string) * S;
  sdk_order : Globals.path -> string -> S -> result string * S;
  sdk_set : string -> Globals.path -> S -> result unit * S;
  clock_ms : S -> Z      (* int(time.time() * 1000) *)
}.
Arguments sdk_isDefined {S} _ _ _.
Arguments sdk_get {S} _ _ _.
Arguments sdk_order {S} _ _ _ _.
Arguments sdk_set {S} _ _ _ _.
Arguments clock_ms {S} _ _.

(** The calls as computations. *)
Module Sdk.

Definition isDefined {S} (b : backend S) (p : Globals.path) : Exec.M S Z :=
  fun s => Some (sdk_isDefined b p s).

Definition get {S} (b : backend S) (p : Globals.path)
  : Exec.M S (option string) :=
  fun s => Some (sdk_get b p s).

Definition order {S} (b : backend S) (p : Globals.path) (x : string)
  : Exec.M S string :=
  fun s => Some (sdk_order b p x s).

Definition set {S} (b : backend S) (v : string) (p : Globals.path)
  : Exec.M S unit :=
  fun s => Some (sdk_set b v p s).

Definition time_ms {S} (b : backend S) : Exec.M S Z :=
  fun s => Some (Ok (clock_ms b s), s).

End Sdk.

(** A session on a store: the connection may be lost after a number of
    calls, every later call raising [ConnectionError]. *)
Module Session.

Record world := mkworld {
  globals : Globals.store;
  now_ms : Z;
  calls_left : option nat     (* [None]: the connection never drops *)
}.

Definition call {A} (f : Globals.store -> A)
    (upd : Globals.store -> Globals.store) (w : world) : result A * world :=
  match calls_left w with
  | Some O => (Raise (mkexn ConnectionError "connection lost"), w)
  | Some (S n) =>
      (Ok (f (globals w)), mkworld (upd (globals w)) (now_ms w) (Some n))
  | None =>
      (Ok (f (globals w)), mkworld (upd (globals w)) (now_ms w) None)
  end.

Definition iris : backend world := {|
  sdk_isDefined :=
    fun p => call (fun st => Globals.isDefined st p) (fun st => st);
  sdk_get := fun p => call (fun st => Globals.get st p) (fun st => st);
  sdk_order :=
    fun p x => call (fun st => Globals.order st p x) (fun st => st);
  sdk_set := fun v p => call (fun _ => tt) (Globals.set v p);
  clock_ms := now_ms
|}.

Definition reliable (st : Globals.store) : world := mkworld st 0 None.

End Session.

(** ** [python/adapters/iris_native_adapter.py]: [IRISNativeAdapter] *)

Module IRISNativeAdapter.

Record adapter := mkadapter {
  connected : bool;
  has_iris_native : bool      (* [self.iris_native] is not [None] *)
}.

Section WithBackend.
Context {S : Type} (iris_native : backend S).
Local Open Scope exec_scope.

Definition get_global (self : adapter) (global_name : string)
    (subscripts : list string) : Exec.M S (option string) :=
  if negb (connected self) || negb (has_iris_native self)
  then Exec.raise RuntimeError "Adapter not connected"
  else
    Exec.try_except
      (normalized_global <-
         Exec.lift (BaseAdapter._normalize_global_name global_name);;
       let validated_subscripts :=
         BaseAdapter._validate_subscripts subscripts in
       value <-
         Sdk.get iris_native (normalized_global :: validated_subscripts);;
       Exec.ret (match value with
                 | Some v => if (v =? "")%string then None else Some v
                 | None => None
                 end))
      (fun e => Exec.reraise e).

Definition set_global (self : adapter) (value global_name : string)
    (subscripts : list string) : Exec.M S bool :=
  if negb (connected self) || negb (has_iris_native self)
  then Exec.raise RuntimeError "Adapter not connected"
  else
    Exec.try_except
      (normalized_global <-
         Exec.lift (BaseAdapter._normalize_global_name global_name);;
       let validated_subscripts :=
         BaseAdapter._validate_subscripts subscripts in
       Sdk.set iris_native value (normalized_global :: validated_subscripts);;;
       Exec.ret true)
      (fun _ => Exec.ret false).

Definition data_global (self : adapter) (global_name : string)
    (subscripts : list string) : Exec.M S Z :=
  if negb (connected self) || negb (has_iris_native self)
  then Exec.raise RuntimeError "Adapter not connected"
  else
    Exec.try_except
      (normalized_global <-
         Exec.lift (BaseAdapter._normalize_global_name global_name);;
       let validated_subscripts :=
         BaseAdapter._validate_subscripts subscripts in
       Sdk.isDefined iris_native (normalized_global :: validated_subscripts))
      (fun _ => Exec.ret 0).
(** [order_global]: the last subscript is the one [order] advances from;
    without subscripts the call is made on the global name alone. *)
Definition order_global (self : adapter) (global_name : string)
    (subscripts : list string) : Exec.M S (option string) :=
  if negb (connected self) || negb (has_iris_native self)
  then Exec.raise RuntimeError "Adapter not connected"
  else
    Exec.try_except
      (normalized_global <-
         Exec.lift (BaseAdapter._normalize_global_name global_name);;
       let validated_subscripts :=
         BaseAdapter._validate_subscripts subscripts in
       let args := normalized_global :: validated_subscripts in
       next_sub <- Sdk.order iris_native (removelast args) (last args "");;
       Exec.ret (if (next_sub =? "")%string then None else Some next_sub))
      (fun _ => Exec.ret None).

(** [test_connection]; the clock is read in milliseconds, the name of the
    test global takes its seconds. *)
Definition test_connection (self : adapter)
  : Exec.M S BaseAdapter.ConnectionResult :=
  if negb (connected self)
  then
    now <- Sdk.time_ms iris_native;;
    Exec.ret (BaseAdapter.mkConnectionResult false "Adapter not connected"
                None (Some now))
  else
    Exec.try_except
      (now <- Sdk.time_ms iris_native;;
       let test_global := "^FILEBOT_TEST_" ++ Py.str (now / 1000) in
       start_time <- Sdk.time_ms iris_native;;
       set_global self "native_api_test" test_global ["connection"];;;
       result <- get_global self test_global ["connection"];;
       set_global self "" test_global ["connection"];;;
       end_time <- Sdk.time_ms iris_native;;
       let latency_ms := end_time - start_time in
       match result with
       | Some "native_api_test" =>
           Exec.ret (BaseAdapter.mkConnectionResult true
                       ("Native API connection successful (latency: " ++
                        Py.str latency_ms ++ "ms)")
                       (Some latency_ms) (Some end_time))
       | _ =>
           now <- Sdk.time_ms iris_native;;
           Exec.ret (BaseAdapter.mkConnectionResult false
                       "Global operation test failed" None (Some now))
       end)
      (fun e =>
         now <- Sdk.time_ms iris_native;;
         Exec.ret (BaseAdapter.mkConnectionResult false
                     ("Connection test failed: " ++ msg e) None (Some now))).
End WithBackend.

(** Values of the loosely typed configuration dictionary. *)
Inductive pyval :=
  | PInt (z : Z)
  | PBool (b : bool)
  | PStr (s : string)
  | POther.

Definition is_alnum_char (c : ascii) : bool :=
  let n := N_of_ascii c in
  (((48 <=? n) && (n <=? 57)) || ((65 <=? n) && (n <=? 90))
   || ((97 <=? n) && (n <=? 122)))%N.

Fixpoint all_alnum (s : string) : bool :=
  match s with
  | EmptyString => true
  | String c r => is_alnum_char c && all_alnum r
  end.

(** [str.isalnum()] on ASCII text: false on the empty string. *)
Definition isalnum (s : string) : bool :=
  negb (s =? "")%string && all_alnum s.

(** [isinstance(port, int)] holds of booleans too, which count as 0 and
    1. *)
Definition port_ok (port : pyval) : bool :=
  match port with
  | PInt z => (1 <=? z) && (z <=? 65535)
  | PBool b => b
  | _ => false
  end.

Definition namespace_ok (namespace : pyval) : bool :=
  match namespace with
  | PStr s => isalnum (Py.replace_char "-" "" (Py.replace_char "_" "" s))
  | _ => false
  end.

Definition namespace_message : string :=
  "Namespace must be alphanumeric with optional underscores/hyphens".

(** [validate_config]; [BaseAdapter.validate_config] adds nothing, the
    constructor having replaced a missing configuration by an empty one. *)
Definition validate_config (config : Dict.t pyval) : list string :=
  let errors : list string := [] in
  let errors :=
    fold_left
      (fun (errors : list string) (field : string) =>
         if negb (Dict.mem field config)
         then (errors ++ [("Missing required field: " ++ field)%string])%list
         else errors)
      ["username"; "password"] errors in
  let errors :=
    match Dict.get "port" config with
    | Some port =>
        if negb (port_ok port)
        then (errors ++ ["Port must be between 1 and 65535"])%list
        else errors
    | None => errors
    end in
  let errors :=
    match Dict.get "namespace" config with
    | Some namespace =>
        if negb (namespace_ok namespace)
        then (errors ++ [namespace_message])%list
        else errors
    | None => errors
    end in
  errors.

End IRISNativeAdapter.

(** ** [filebot-python/filebot/adapters/iris_native_adapter.py]:
       [IrisNativeAdapter] *)

Module IrisNativeAdapter.

(** Modelled from the spec: the [Patient] class of [filebot/models.py], which
    is not among the sources; a record of DFN, name, sex, date of birth,
    social-security identifier and the street/city/state/postal fields. *)
Record Patient := mkPatient {
  dfn : string;
  name : string;
  ssn : string;
  dob : string;
  sex : string;
  street : string;
  city : string;
  state : string;
  zip_code : string
}.

Record Allergy := mkAllergy {
  allergy_name : string;
  severity : string;
  reaction : string
}.

Record Medication := mkMedication {
  medication_name : string;
  dosage : string;
  frequency : string
}.

Record LabResult := mkLabResult {
  test : string;
  lab_value : string;         (* the "result" entry *)
  lab_date : string
}.

(** Modelled from the spec: the [ClinicalSummary] class of
    [filebot/models.py], which is not among the sources; demographics with
    the three lists and the time of the summary. *)
Record ClinicalSummary := mkClinicalSummary {
  summary_patient : Patient;
  summary_allergies : list Allergy;
  summary_medications : list Medication;
  summary_lab_results : list LabResult;
  last_updated : Z
}.

(** The dictionary [medication_ordering_workflow] returns; its lists hold
    the pairs allergy/severity and medication/dosage. *)
Record Workflow := mkWorkflow {
  workflow_dfn : string;
  workflow : string;
  workflow_allergies : list (string * string);
  current_medications : list (string * string);
  status : string;
  performance : string
}.

(** Truth value of a string: non-empty. *)
Definition truthy (s : string) : bool := negb (s =? "")%string.

(** Truth value of what [get] answers: a non-empty string. *)
Definition truthy_value (v : option string) : bool :=
  match v with Some d => truthy d | None => false end.

Definition value_or_empty (v : option string) : string :=
  match v with Some d => d | None => "" end.

Definition lab_limit : nat := 10.

(** [fields[k] if len(fields) > k else default] *)
Definition field (k : nat) (fields : list string) (default : string) : string :=
  if (k <? List.length fields)%nat then nth k fields "" else default.

(** [patient_data.get(k, "")] *)
Definition data_get (patient_data : Dict.t string) (k : string) : string :=
  match Dict.get k patient_data with Some v => v | None => "" end.

Definition limit : nat := 50.

(** The record [get_patient_demographics] builds from the demographic node
    and the address node it read. *)
Definition decode_patient (dfn patient_node : string)
    (address : option string) : Patient :=
  let patient_fields := Py.split_on "^" patient_node in
  let address_fields := Py.split_on "^" (value_or_empty address) in
  mkPatient dfn
    (field 0 patient_fields "")
    (field 1 patient_fields "")
    (if (2 <? List.length patient_fields)%nat
     then FileManDate._parse_fileman_date (nth 2 patient_fields "")
     else "")
    (field 3 patient_fields "")
    (field 0 address_fields "")
    (field 1 address_fields "")
    (field 2 address_fields "")
    (field 3 address_fields "").

(** The nodes [create_patient] writes for the data it is given. *)
Definition patient_node_of (data : Dict.t string) : string :=
  Py.join "^"
    [ data_get data "name"; data_get data "ssn";
      FileManDate._format_fileman_date (data_get data "dob");
      data_get data "sex"; ""; ""; "" ].

Definition address_node_of (data : Dict.t string) : string :=
  Py.join "^"
    [ data_get data "street"; data_get data "city";
      data_get data "state"; data_get data "zip_code" ].

(** [any(patient_data.get(field) for field in ...)] of the address. *)
Definition address_given (data : Dict.t string) : bool :=
  existsb (fun f => truthy (data_get data f))
    ["street"; "city"; "state"; "zip_code"].

(** The value of [data] at [f] holds no caret. *)
Definition caret_free (data : Dict.t string) (f : string) : Prop :=
  Py.has_char "^" (data_get data f) = false.

(** The name index holds the DFN [d] under the name [key]. *)
Definition indexed (st : Globals.store) (key d : string) : Prop :=
  In d (Globals.children st ["^DPT"; "B"; key]).

(** What the search guarantees of a returned record: its DFN is held under
    an index key that is a name of the index, starts with the pattern and
    lies after the pattern in collation order. *)
Definition found (st : Globals.store) (pattern : string) (p : Patient)
  : Prop :=
  exists key,
    key <> "" /\
    Py.startswith key pattern = true /\
    Globals.after pattern key = true /\
    In key (Globals.children st ["^DPT"; "B"]) /\
    indexed st key (dfn p).

(** What the outer walk of the search needs of the name it is at. *)
Definition at_name (st : Globals.store) (pattern current : string) : Prop :=
  current = "" \/
  (In current (Globals.children st ["^DPT"; "B"]) /\
   Globals.after pattern current = true).

(** The entries of the workflow dictionary that correspond to an entry of
    the allergy list and of the medication list of the clinical summary. *)
Definition allergy_pair (a : Allergy) : string * string :=
  (allergy_name a, severity a).

Definition medication_pair (m : Medication) : string * string :=
  (medication_name m, dosage m).

(** What the lab walk guarantees of an entry: a result that is not empty,
    and a date decoded from the subscript when the subscript is a digit
    string. *)
Definition lab_entry_ok (r : LabResult) : Prop :=
  lab_value r <> "" /\
  lab_date r = if Py.isdigit (test r)
               then FileManDate._parse_fileman_date (test r) else "".

(** The record the store holds for a DFN: none when its demographic node is
    absent or empty. *)
Definition stored_patient (st : Globals.store) (d : string)
  : option Patient :=
  match Globals.get st ["^DPT"; d; "0"] with
  | Some node =>
      if truthy node
      then Some (decode_patient d node (Globals.get st ["^DPT"; d; ".11"]))
      else None
  | None => None
  end.

Definition on_file (st : Globals.store) (d : string) : list Patient :=
  match stored_patient st d with Some p => [p] | None => [] end.

Section WithBackend.
Context {W : Type} (_iris : backend W).
Local Open Scope exec_scope.

Definition get_patient_demographics (dfn : string) : Exec.M W Patient :=
  Exec.try_except
    (defined <- Sdk.isDefined _iris ["^DPT"; dfn; "0"];;
     if defined =? 0
     then Exec.raise QueryError ("Patient " ++ dfn ++ " not found")
     else
       patient_node <- Sdk.get _iris ["^DPT"; dfn; "0"];;
       match patient_node with
       | Some patient_node =>
           if truthy patient_node then
             let patient_fields := Py.split_on "^" patient_node in
             address <- Sdk.get _iris ["^DPT"; dfn; ".11"];;
             let address_node :=
               match address with
               | Some a => if truthy a then a else ""
               | None => ""
               end in
             let address_fields := Py.split_on "^" address_node in
             Exec.ret
               (mkPatient dfn
                  (field 0 patient_fields "")
                  (field 1 patient_fields "")
                  (if (2 <? List.length patient_fields)%nat
                   then FileManDate._parse_fileman_date
                          (nth 2 patient_fields "")
                   else "")
                  (field 3 patient_fields "")
                  (field 0 address_fields "")
                  (field 1 address_fields "")
                  (field 2 address_fields "")
                  (field 3 address_fields ""))
           else
             Exec.raise QueryError
               ("Patient " ++ dfn ++ " has no demographic data")
       | None =>
           Exec.raise QueryError
             ("Patient " ++ dfn ++ " has no demographic data")
       end)
    (fun e =>
       if Py.contains "not found" (msg e)
       then Exec.raise QueryError (msg e)
       else Exec.raise QueryError
              ("Failed to get patient demographics: " ++ msg e)).

(** The inner [while True] of the search: the DFNs under one name. *)
Fixpoint dfn_walk (fuel : nat) (current_name dfn : string)
    (patients : list Patient) (count : nat)
  : Exec.M W (list Patient * nat) :=
  match fuel with
  | O => Exec.out_of_fuel
  | S fuel' =>
      dfn <- Sdk.order _iris ["^DPT"; "B"; current_name] dfn;;
      if negb (truthy dfn) then Exec.ret (patients, count)
      else
        r <- Exec.attempt (get_patient_demographics dfn);;
        match r with
        | Ok patient =>
            let patients := (patients ++ [patient])%list in
            let count := S count in
            if (limit <=? count)%nat then Exec.ret (patients, count)
            else dfn_walk fuel' current_name dfn patients count
        | Raise e =>
            if is_QueryError e
            then dfn_walk fuel' current_name dfn patients count
            else Exec.reraise e
        end
  end.

(** The outer [while] of the search: the names of the index. *)
Fixpoint name_walk (fuel inner_fuel : nat)
    (search_pattern current_name : string)
    (patients : list Patient) (count : nat) : Exec.M W (list Patient) :=
  match fuel with
  | O => Exec.out_of_fuel
  | S fuel' =>
      if truthy current_name
         && Py.startswith current_name search_pattern
         && (count <? limit)%nat
      then
        pc <- dfn_walk inner_fuel current_name "" patients count;;
        current_name <- Sdk.order _iris ["^DPT"; "B"] current_name;;
        name_walk fuel' inner_fuel search_pattern current_name
          (fst pc) (snd pc)
      else Exec.ret patients
  end.

Definition search_pattern_of (name_pattern : string) : string :=
  Py.replace_char "*" "" (Py.upper name_pattern).

Definition search_patients_by_name (fuel : nat) (name_pattern : string)
  : Exec.M W (list Patient) :=
  Exec.try_except
    (let search_pattern := search_pattern_of name_pattern in
     current_name <- Sdk.order _iris ["^DPT"; "B"] search_pattern;;
     name_walk fuel fuel search_pattern current_name [] 0%nat)
    (fun e =>
       Exec.raise QueryError ("Failed to search patients: " ++ msg e)).

(** The [while True] of [_get_next_dfn]: walk to the last subscript. *)
Fixpoint last_subscript (fuel : nat) (last_dfn : string)
  : Exec.M W string :=
  match fuel with
  | O => Exec.out_of_fuel
  | S fuel' =>
      next_dfn <- Sdk.order _iris ["^DPT"] last_dfn;;
      if negb (truthy next_dfn) then Exec.ret last_dfn
      else last_subscript fuel' next_dfn
  end.

Definition _get_next_dfn (fuel : nat) : Exec.M W Z :=
  Exec.try_except
    (last_dfn <- Sdk.order _iris ["^DPT"] "";;
     last_dfn <- last_subscript fuel last_dfn;;
     if truthy last_dfn && Py.isdigit last_dfn then
       match Py.int last_dfn with
       | Some n => Exec.ret (n + 1)
       | None => Exec.raise ValueError "invalid literal for int()"
       end
     else Exec.ret 1)
    (fun _ => t <- Sdk.time_ms _iris;; Exec.ret (t mod 1000000)).
Definition create_patient (fuel : nat) (patient_data : Dict.t string)
  : Exec.M W Patient :=
  Exec.try_except
    (next_dfn <- _get_next_dfn fuel;;
     let patient_node :=
       Py.join "^"
         [ data_get patient_data "name";
           data_get patient_data "ssn";
           FileManDate._format_fileman_date (data_get patient_data "dob");
           data_get patient_data "sex";
           ""; ""; "" ] in
     Sdk.set _iris patient_node ["^DPT"; Py.str next_dfn; "0"];;;
     let patient_name := Py.upper (data_get patient_data "name") in
     (if truthy patient_name
      then Sdk.set _iris "" ["^DPT"; "B"; patient_name; Py.str next_dfn]
      else Exec.ret tt);;;
     (if existsb (fun f => truthy (data_get patient_data f))
           ["street"; "city"; "state"; "zip_code"]
      then
        let address_node :=
          Py.join "^"
            [ data_get patient_data "street";
              data_get patient_data "city";
              data_get patient_data "state";
              data_get patient_data "zip_code" ] in
        Sdk.set _iris address_node ["^DPT"; Py.str next_dfn; ".11"]
      else Exec.ret tt);;;
     get_patient_demographics (Py.str next_dfn))
    (fun e =>
       Exec.raise QueryError ("Failed to create patient: " ++ msg e)).

(** The [for] of the batch lookup. *)
Fixpoint batch_loop (dfn_list : list string) (patients : list Patient)
  : Exec.M W (list Patient) :=
  match dfn_list with
  | [] => Exec.ret patients
  | dfn :: rest =>
      r <- Exec.attempt (get_patient_demographics dfn);;
      match r with
      | Ok patient => batch_loop rest (patients ++ [patient])%list
      | Raise e =>
          if is_QueryError e then batch_loop rest patients
          else Exec.reraise e
      end
  end.

Definition get_patients_batch (dfn_list : list string)
  : Exec.M W (list Patient) :=
  Exec.try_except
    (batch_loop dfn_list [])
    (fun e =>
       Exec.raise QueryError ("Failed to get patients batch: " ++ msg e)).

(** The [while True] of [_get_patient_allergies].  The [try] of the source
    encloses the loop and its handler is [pass]: an exception raised by
    either call ends the walk with the list as appended to so far. *)
Fixpoint allergy_walk (fuel : nat) (dfn allergy_ptr : string)
    (allergies : list Allergy) : Exec.M W (list Allergy) :=
  match fuel with
  | O => Exec.out_of_fuel
  | S fuel' =>
      r <- Exec.attempt (Sdk.order _iris ["^PS"; "55"; dfn; "AL"] allergy_ptr);;
      match r with
      | Raise _ => Exec.ret allergies
      | Ok allergy_ptr =>
          if negb (truthy allergy_ptr) then Exec.ret allergies
          else
            r <- Exec.attempt
                   (Sdk.get _iris ["^PS"; "55"; dfn; "AL"; allergy_ptr; "0"]);;
            match r with
            | Raise _ => Exec.ret allergies
            | Ok allergy_data =>
                let allergies :=
                  match allergy_data with
                  | Some d =>
                      if truthy d then
                        let fields := Py.split_on "^" d in
                        (allergies ++
                         [mkAllergy (field 0 fields "")
                                    (field 1 fields "Unknown")
                                    (field 2 fields "")])%list
                      else allergies
                  | None => allergies
                  end in
                allergy_walk fuel' dfn allergy_ptr allergies
            end
      end
  end.

Definition _get_patient_allergies (fuel : nat) (dfn : string)
  : Exec.M W (list Allergy) :=
  allergy_walk fuel dfn "" [].
(** The [while True] of [_get_patient_medications]; like the allergy walk,
    an exception of either call ends it with the list as it is. *)
Fixpoint medication_walk (fuel : nat) (dfn med_ptr : string)
    (medications : list Medication) : Exec.M W (list Medication) :=
  match fuel with
  | O => Exec.out_of_fuel
  | S fuel' =>
      r <- Exec.attempt (Sdk.order _iris ["^PS"; "55"; dfn; "P"] med_ptr);;
      match r with
      | Raise _ => Exec.ret medications
      | Ok med_ptr =>
          if negb (truthy med_ptr) then Exec.ret medications
          else
            r <- Exec.attempt
                   (Sdk.get _iris ["^PS"; "55"; dfn; "P"; med_ptr; "0"]);;
            match r with
            | Raise _ => Exec.ret medications
            | Ok med_data =>
                let medications :=
                  if truthy_value med_data then
                    let fields := Py.split_on "^" (value_or_empty med_data) in
                    (medications ++
                     [mkMedication (field 0 fields "") (field 1 fields "")
                                   (field 2 fields "")])%list
                  else medications in
                medication_walk fuel' dfn med_ptr medications
            end
      end
  end.

Definition _get_patient_medications (fuel : nat) (dfn : string)
  : Exec.M W (list Medication) :=
  medication_walk fuel dfn "" [].

(** The [while True] of [_get_patient_lab_results], with its cap. *)
Fixpoint lab_walk (fuel : nat) (dfn result_ptr : string)
    (lab_results : list LabResult) : Exec.M W (list LabResult) :=
  match fuel with
  | O => Exec.out_of_fuel
  | S fuel' =>
      r <- Exec.attempt (Sdk.order _iris ["^LR"; dfn] result_ptr);;
      match r with
      | Raise _ => Exec.ret lab_results
      | Ok result_ptr =>
          if negb (truthy result_ptr) then Exec.ret lab_results
          else
            r <- Exec.attempt (Sdk.get _iris ["^LR"; dfn; result_ptr]);;
            match r with
            | Raise _ => Exec.ret lab_results
            | Ok result_data =>
                let lab_results :=
                  if truthy_value result_data then
                    (lab_results ++
                     [mkLabResult result_ptr (value_or_empty result_data)
                        (if Py.isdigit result_ptr
                         then FileManDate._parse_fileman_date result_ptr
                         else "")])%list
                  else lab_results in
                if (lab_limit <=? List.length lab_results)%nat
                then Exec.ret lab_results
                else lab_walk fuel' dfn result_ptr lab_results
            end
      end
  end.

Definition _get_patient_lab_results (fuel : nat) (dfn : string)
  : Exec.M W (list LabResult) :=
  lab_walk fuel dfn "" [].

Definition get_patient_clinical_summary (fuel : nat) (dfn : string)
  : Exec.M W ClinicalSummary :=
  Exec.try_except
    (patient <- get_patient_demographics dfn;;
     allergies <- _get_patient_allergies fuel dfn;;
     medications <- _get_patient_medications fuel dfn;;
     lab_results <- _get_patient_lab_results fuel dfn;;
     now <- Sdk.time_ms _iris;;
     Exec.ret (mkClinicalSummary patient allergies medications lab_results
                 now))
    (fun e =>
       Exec.raise QueryError ("Failed to get clinical summary: " ++ msg e)).

(** The two [while True] of [medication_ordering_workflow]: the second
    piece is read only when the node holds a caret; here the exceptions of
    the calls are not caught in the loop. *)
Fixpoint workflow_walk (fuel : nat) (level : Globals.path)
    (default ptr : string) (entries : list (string * string))
  : Exec.M W (list (string * string)) :=
  match fuel with
  | O => Exec.out_of_fuel
  | S fuel' =>
      ptr <- Sdk.order _iris level ptr;;
      if negb (truthy ptr) then Exec.ret entries
      else
        data <- Sdk.get _iris (level ++ [ptr; "0"])%list;;
        let entries :=
          if truthy_value data then
            let d := value_or_empty data in
            (entries ++
             [(nth 0 (Py.split_on "^" d) "",
               if Py.contains "^" d then nth 1 (Py.split_on "^" d) ""
               else default)])%list
          else entries in
        workflow_walk fuel' level default ptr entries
  end.

Definition medication_ordering_workflow (fuel : nat) (dfn : string)
  : Exec.M W Workflow :=
  Exec.try_except
    (allergies <- workflow_walk fuel ["^PS"; "55"; dfn; "AL"] "Unknown" "" [];;
     medications <- workflow_walk fuel ["^PS"; "55"; dfn; "P"] "" "" [];;
     Exec.ret (mkWorkflow dfn "medication_ordering" allergies medications
                 "ready_for_ordering" "native_sdk"))
    (fun e => Exec.raise QueryError ("Medication workflow failed: " ++ msg e)).

(** The records of the DFNs whose individual lookup succeeds, the lookups
    made one after the other, with the session state they leave. *)
Fixpoint successful_lookups (dfn_list : list string) (w : W)
  : list Patient * W :=
  match dfn_list with
  | [] => ([], w)
  | dfn :: rest =>
      match get_patient_demographics dfn w with
      | Some (Ok p, w') =>
          (p :: fst (successful_lookups rest w'),
           snd (successful_lookups rest w'))
      | Some (Raise _, w') => successful_lookups rest w'
      | None => ([], w)
      end
  end.
End WithBackend.

End IrisNativeAdapter.


(** ** [filebot-python/filebot/adapters/__init__.py]:
       [DatabaseAdapterFactory] *)

Module DatabaseAdapterFactory.

Record adapter_entry := mkentry {
  entry_class : string;
  available : bool;
  performance_tier : Z;
  entry_description : string;
  requirements : list string
}.

(** [_ADAPTERS]; the three flags are what the imports at the top of the
    module found. *)
Definition _ADAPTERS (iris_native_available yottadb_available
                      gtm_available : bool) : Dict.t adapter_entry :=
  [ ("iris_native",
     mkentry "IrisNativeAdapter" iris_native_available 1
       "InterSystems IRIS via official Native SDK (irisnative)"
       ["irisnative"; "InterSystems IRIS Community Edition"]);
    ("yottadb",
     mkentry "YottaDBAdapter" yottadb_available 2
       "YottaDB via native Python bindings"
       ["yottadb"; "YottaDB installation"]);
    ("gtm",
     mkentry "GTMAdapter" gtm_available 3
       "GT.M via Python bindings"
       ["gtm"; "GT.M installation"]) ].

(** [list.sort(key=tier)]: stable, ascending. *)
Fixpoint insert_asc (x : string * Z) (l : list (string * Z))
  : list (string * Z) :=
  match l with
  | [] => [x]
  | y :: r =>
      if snd y <? snd x then y :: insert_asc x r else x :: y :: r
  end.

Definition sort_asc (l : list (string * Z)) : list (string * Z) :=
  fold_right insert_asc [] l.

Definition _auto_detect_best_adapter (adapters : Dict.t adapter_entry)
  : result string :=
  let available_adapters :=
    flat_map (fun ti => if available (snd ti)
                        then [(fst ti, performance_tier (snd ti))]
                        else []) adapters in
  match available_adapters with
  | [] =>
      Raise (mkexn FileBotException
               ("No database adapters available. " ++
                "Please install required dependencies."))
  | _ :: _ =>
      match sort_asc available_adapters with
      | (best_adapter, _) :: _ => Ok best_adapter
      | [] => Raise (mkexn IndexError "list index out of range")
      end
  end.

Definition get_available_adapters (adapters : Dict.t adapter_entry)
  : list string :=
  map fst (filter (fun ti => available (snd ti)) adapters).

(** [create_adapter]; [construct t] stands for the constructor call of the
    adapter class of type [t], which may raise. *)
Definition create_adapter {A : Type} (construct : string -> result A)
    (adapter_type : string) (adapters : Dict.t adapter_entry) : result A :=
  let resolved :=
    if (adapter_type =? "auto_detect")%string
    then _auto_detect_best_adapter adapters
    else Ok adapter_type in
  match resolved with
  | Raise e => Raise e
  | Ok adapter_type =>
      match Dict.get adapter_type adapters with
      | None =>
          Raise (mkexn FileBotException
                   ("Unknown adapter type '" ++ adapter_type ++ "'. " ++
                    "Available: " ++
                    Py.join ", " (get_available_adapters adapters)))
      | Some adapter_info =>
          if negb (available adapter_info)
          then
            Raise (mkexn FileBotException
                     ("Adapter '" ++ adapter_type ++ "' not available. " ++
                      "Missing requirements: " ++
                      Py.join ", " (requirements adapter_info)))
          else
            let attempt :=
              if (adapter_type =? "iris_native")%string
                 || (adapter_type =? "yottadb")%string
                 || (adapter_type =? "gtm")%string
              then construct adapter_type
              else Raise (mkexn FileBotException
                            ("Adapter creation not implemented: " ++
                             adapter_type)) in
            match attempt with
            | Ok adapter => Ok adapter
            | Raise e =>
                Raise (mkexn FileBotException
                         ("Failed to create " ++ adapter_type ++
                          " adapter: " ++ msg e))
            end
      end
  end.

End DatabaseAdapterFactory.

(** ** Outcomes of computations *)

Module Outcome.

(** The computation ends, with a value or an exception, from every state. *)
Definition total {S A : Type} (c : Exec.M S A) : Prop :=
  forall s, exists r s', c s = Some (r, s').

(** The computation returns a value from every state: it never raises. *)
Definition safe {S A : Type} (c : Exec.M S A) : Prop :=
  forall s, exists a s', c s = Some (Ok a, s').

(** Whatever the computation raises is a [QueryError] whose message starts
    with [prefix]. *)
Definition raises_only_query {S A : Type} (prefix : string)
    (c : Exec.M S A) : Prop :=
  forall s e s',
    c s = Some (Raise e, s') ->
    kind e = QueryError /\ Py.startswith (msg e) prefix = true.

End Outcome.

(** ** Stores and registries of the examples *)

Module Scenario.

(** The mock after [set_global] of the subscripts 1, 2, 10 and "A" of
    [^G]. *)
Definition mock_1_2_10_A : MockAdapter.data :=
  [("^G(1)", "a"); ("^G(2)", "b"); ("^G(10)", "c"); ("^G(A)", "d")].

(** The same four children in the remote store, written in another order. *)
Definition store_1_2_10_A : Globals.store :=
  [(["^G"; "A"], "d"); (["^G"; "10"], "c"); (["^G"; "2"], "b");
   (["^G"; "1"], "a")].

(** A(priority 10) and C(priority 100), both open to auto-detection. *)
Definition registry_A_C : AdapterRegistry.adapters :=
  AdapterRegistry.register_adapter "C" "CAdapter" "" "1.0.0" 100 true
    (AdapterRegistry.register_adapter "A" "AAdapter" "" "1.0.0" 10 true []).

(** Two adapters of equal priority, then one that is not open to
    auto-detection. *)
Definition registry_tie : AdapterRegistry.adapters :=
  AdapterRegistry.register_adapter "Z" "ZAdapter" "" "1.0.0" 900 false
    (AdapterRegistry.register_adapter "second" "B" "" "1.0.0" 50 true
       (AdapterRegistry.register_adapter "first" "A" "" "1.0.0" 50 true [])).

(** The registry once [base_adapter.py] and the IRIS adapter module are
    imported: the mock, then the native adapter. *)
Definition registry_imported : AdapterRegistry.adapters :=
  AdapterRegistry.register_adapter "iris_native" "IRISNativeAdapter"
    "InterSystems IRIS Native API adapter for high-performance global access"
    "1.0.0" 100 true
    (AdapterRegistry.register_adapter "mock" "MockAdapter"
       "Mock adapter for testing" "1.0.0" 1000 true []).

Definition connected_adapter : IRISNativeAdapter.adapter :=
  IRISNativeAdapter.mkadapter true true.

(** Patients 1 and 3 on file, with the name index. *)
Definition store_1_3 : Globals.store :=
  [(["^DPT"; "1"; "0"], "DOE,JOHN^123456789^2950115^M");
   (["^DPT"; "B"; "DOE,JOHN"; "1"], "");
   (["^DPT"; "3"; "0"], "ROE,JANE^987654321^2801231^F");
   (["^DPT"; "B"; "ROE,JANE"; "3"], "");
   (["^PS"; "55"; "1"; "AL"; "1"; "0"], "PENICILLIN^SEVERE^RASH");
   (["^PS"; "55"; "1"; "AL"; "2"; "0"], "LATEX")].

Definition doe_john : IrisNativeAdapter.Patient :=
  IrisNativeAdapter.mkPatient "1" "DOE,JOHN" "123456789" "1995-01-15" "M"
    "" "" "" "".


(** Sixty patients named SMITH,01 to SMITH,60 with their index entries. *)
Definition smith_name (i : nat) : string :=
  "SMITH," ++ Py.format_d 2 (Z.of_nat i).

Definition smith_nodes (i : nat) : Globals.store :=
  [ (["^DPT"; Py.str (Z.of_nat i); "0"],
     smith_name i ++ "^000000001^2950115^M");
    (["^DPT"; "B"; smith_name i; Py.str (Z.of_nat i)], "") ].

Definition smith_store : Globals.store := flat_map smith_nodes (seq 1 60).

(** A patient named exactly SMITH and one named SMITHSON. *)
Definition store_smith_smithson : Globals.store :=
  [(["^DPT"; "1"; "0"], "SMITH^111111111^2950115^M");
   (["^DPT"; "B"; "SMITH"; "1"], "");
   (["^DPT"; "2"; "0"], "SMITHSON^222222222^2801231^F");
   (["^DPT"; "B"; "SMITHSON"; "2"], "")].

Definition smithson : IrisNativeAdapter.Patient :=
  IrisNativeAdapter.mkPatient "2" "SMITHSON" "222222222" "1980-12-31" "F"
    "" "" "" "".

(** The data of two patients to create. *)
Definition doe_data : Dict.t string :=
  [("name", "Doe,John"); ("ssn", "123456789"); ("dob", "1995-01-15");
   ("sex", "M")].

Definition roe_data : Dict.t string :=
  [("name", "Roe,Jane"); ("ssn", "987654321"); ("dob", "1980-12-31");
   ("sex", "F")].

(** The store after the first of them was created in an empty store. *)
Definition store_after_doe : Globals.store :=
  [(["^DPT"; "B"; "DOE,JOHN"; "1"], "");
   (["^DPT"; "1"; "0"], "Doe,John^123456789^2950115^M^^^")].

(** Two patients on file and no name index. *)
Definition store_no_index : Globals.store :=
  [(["^DPT"; "1"; "0"], "^^^^^^"); (["^DPT"; "2"; "0"], "^^^^^^")].

Definition doe_created : IrisNativeAdapter.Patient :=
  IrisNativeAdapter.mkPatient "1" "Doe,John" "123456789" "1995-01-15" "M"
    "" "" "" "".

Definition roe_created : IrisNativeAdapter.Patient :=
  IrisNativeAdapter.mkPatient "1" "Roe,Jane" "987654321" "1980-12-31" "F"
    "" "" "" "".

(** Twelve lab results of patient 1, filed under the FileMan dates of the
    first twelve days of January 1995. *)
Definition store_labs : Globals.store :=
  map (fun i => (["^LR"; "1"; "29501" ++ Py.format_d 2 (Z.of_nat i)], "7.4"))
    (seq 1 12).

End Scenario.
(** * Properties *)

(** ** Strings and decimal formatting *)

Lemma forallb_below (P : Z -> bool) (b : Z) :
  forallb P (map Z.of_nat (seq 0 (Z.to_nat b))) = true ->
  forall z, 0 <= z < b -> P z = true.
Proof.
  intros H z Hz.
  rewrite forallb_forall in H. apply H.
  apply in_map_iff. exists (Z.to_nat z). split.
  - lia.
  - apply in_seq. lia.
Qed.

Lemma string_length_append (a b : string) :
  String.length (a ++ b) = (String.length a + String.length b)%nat.
Proof. induction a as [|c a IH]; simpl; [reflexivity | now rewrite IH]. Qed.

Lemma string_length2 (s : string) :
  String.length s = 2%nat -> exists a b, s = String a (String b "").
Proof.
  destruct s as [|a [|b [|c s]]]; simpl; try discriminate.
  intros _. now exists a, b.
Qed.

Lemma string_length3 (s : string) :
  String.length s = 3%nat ->
  exists a b c, s = String a (String b (String c "")).
Proof.
  destruct s as [|a [|b [|c [|d s]]]]; simpl; try discriminate.
  intros _. now exists a, b, c.
Qed.

Lemma string_length4 (s : string) :
  String.length s = 4%nat ->
  exists a b c d, s = String a (String b (String c (String d ""))).
Proof.
  destruct s as [|a [|b [|c [|d [|e s]]]]]; simpl; try discriminate.
  intros _. now exists a, b, c, d.
Qed.


Lemma all_digits_substring (s : string) :
  Py.all_digits s = true ->
  forall n m, Py.all_digits (substring n m s) = true.
Proof.
  induction s as [|c s IH]; intros H n m.
  - destruct n, m; reflexivity.
  - simpl in H. apply andb_true_iff in H as [Hc Hs].
    destruct n as [|n]; simpl.
    + destruct m as [|m]; simpl; [reflexivity|].
      now rewrite Hc, IH.
    + now apply IH.
Qed.

Lemma length_substring (s : string) :
  forall n m, (n + m <= String.length s)%nat ->
  String.length (substring n m s) = m.
Proof.
  induction s as [|c s IH]; intros n m H; simpl in H.
  - assert (n = 0%nat) by lia. assert (m = 0%nat) by lia. now subst.
  - destruct n as [|n]; simpl.
    + destruct m as [|m]; simpl; [reflexivity|].
      f_equal. apply (IH 0%nat). lia.
    + apply IH. lia.
Qed.

Lemma int_acc_all_digits (s : string) :
  Py.all_digits s = true -> forall acc, exists n, Py.int_acc acc s = Some n.
Proof.
  induction s as [|c s IH]; intros H acc; simpl.
  - now exists acc.
  - simpl in H. apply andb_true_iff in H as [Hc Hs].
    rewrite Hc. now apply IH.
Qed.

Lemma int_all_digits (s : string) :
  Py.all_digits s = true -> s <> "" -> exists z, Py.int s = Some z.
Proof.
  intros H Hne. unfold Py.int.
  destruct (String.eqb_spec s "") as [He|_]; [contradiction|].
  destruct (int_acc_all_digits s H 0%N) as [k Hk].
  rewrite Hk. now exists (Z.of_N k).
Qed.

Lemma all_digits_no_Z (t s : string) :
  Py.all_digits s = true -> Py.replace_char "Z" t s = s.
Proof.
  induction s as [|c s IH]; simpl; [reflexivity|].
  intros H. apply andb_true_iff in H as [Hc Hs].
  destruct (Ascii.eqb_spec c "Z") as [->|_].
  - discriminate Hc.
  - now rewrite IH.
Qed.

Lemma string_append_assoc (a b c : string) : (a ++ b) ++ c = a ++ b ++ c.
Proof. induction a as [|x a IH]; simpl; [reflexivity | now rewrite IH]. Qed.

Lemma replace_char_append (c : ascii) (t a b : string) :
  Py.replace_char c t (a ++ b) =
  Py.replace_char c t a ++ Py.replace_char c t b.
Proof.
  induction a as [|x a IH]; simpl; [reflexivity|].
  destruct (Ascii.eqb x c); simpl; rewrite IH; [|reflexivity].
  now rewrite string_append_assoc.
Qed.

Lemma digits_check_sound (w : nat) (n : Z) :
  FileManDate.digits_check w n = true ->
  FileManDate.digits_of w n (Py.format_d w n).
Proof.
  unfold FileManDate.digits_check. intros H.
  repeat (apply andb_true_iff in H as [H ?]).
  split.
  - now apply Nat.eqb_eq.
  - assumption.
  - destruct (Py.int (Py.format_d w n)) as [z|]; [|discriminate].
    f_equal. now apply Z.eqb_eq.
  - now apply String.eqb_eq.
Qed.

Lemma format_d_2 (n : Z) :
  0 <= n <= 99 -> FileManDate.digits_of 2 n (Py.format_d 2 n).
Proof.
  intros H. apply digits_check_sound.
  apply (forallb_below (FileManDate.digits_check 2) 100);
    [vm_compute; reflexivity | lia].
Qed.

Lemma format_d_3 (n : Z) :
  0 <= n <= 999 -> FileManDate.digits_of 3 n (Py.format_d 3 n).
Proof.
  intros H. apply digits_check_sound.
  apply (forallb_below (FileManDate.digits_check 3) 1000);
    [vm_compute; reflexivity | lia].
Qed.

Lemma format_d_4 (n : Z) :
  0 <= n <= 9999 -> FileManDate.digits_of 4 n (Py.format_d 4 n).
Proof.
  intros H. apply digits_check_sound.
  apply (forallb_below (FileManDate.digits_check 4) 10000);
    [vm_compute; reflexivity | lia].
Qed.

(** ** FileMan date codec *)

Module FileManDateProps.
Import FileManDate.

Lemma days_in_month_le (y m : Z) : days_in_month y m <= 31.
Proof.
  unfold days_in_month.
  destruct (m =? 2); [destruct (is_leap y); lia|].
  destruct ((m =? 4) || (m =? 6) || (m =? 9) || (m =? 11)); lia.
Qed.

Lemma valid_date_bounds (d : date) :
  valid_date d ->
  1 <= year d <= 9999 /\ 1 <= month d <= 12 /\ 1 <= day d <= 31.
Proof.
  unfold valid_date, valid_dateb. intros H.
  repeat (apply andb_true_iff in H as [H ?]).
  pose proof (days_in_month_le (year d) (month d)). lia.
Qed.

(** Replace a string known to be [w] digits by its characters. *)
Ltac explode_digits H A I :=
  let L := fresh "L" in
  destruct H as [L A I _];
  first [ apply string_length4 in L as (? & ? & ? & ? & L)
        | apply string_length3 in L as (? & ? & ? & L)
        | apply string_length2 in L as (? & ? & L) ];
  rewrite L in *; clear L.

Ltac run_slices :=
  cbn [Py.slice substring append String.length Nat.sub Nat.eqb Nat.leb
       String.eqb Ascii.eqb Bool.eqb andb orb negb].

Lemma fromisoformat_isoformat (d : date) :
  valid_date d -> fromisoformat (isoformat d) = Some d.
Proof.
  intros Hv. pose proof (valid_date_bounds d Hv) as (Hy & Hm & Hd).
  pose proof (format_d_4 (year d) ltac:(lia)) as Dy.
  pose proof (format_d_2 (month d) ltac:(lia)) as Dm.
  pose proof (format_d_2 (day d) ltac:(lia)) as Dd.
  unfold isoformat.
  explode_digits Dy Ay Iy. explode_digits Dm Am Im. explode_digits Dd Ad Id.
  unfold fromisoformat. run_slices.
  rewrite Ay, Am, Ad, Iy, Im, Id. cbn [andb].
  destruct d as [y m dd]; cbn [year month day] in *.
  unfold valid_date in Hv. now rewrite Hv.
Qed.

Lemma isoformat_no_Z (d : date) :
  valid_date d -> Py.replace_char "Z" "+00:00" (isoformat d) = isoformat d.
Proof.
  intros Hv. pose proof (valid_date_bounds d Hv) as (Hy & Hm & Hd).
  unfold isoformat.
  rewrite !replace_char_append.
  rewrite (all_digits_no_Z _ (Py.format_d 4 (year d)))
    by (apply format_d_4; lia).
  rewrite (all_digits_no_Z _ (Py.format_d 2 (month d)))
    by (apply format_d_2; lia).
  rewrite (all_digits_no_Z _ (Py.format_d 2 (day d)))
    by (apply format_d_2; lia).
  reflexivity.
Qed.

Lemma isoformat_nonempty (d : date) : (isoformat d =? "")%string = false.
Proof.
  apply String.eqb_neq. intros H.
  apply (f_equal String.length) in H. unfold isoformat in H.
  rewrite !string_length_append in H. simpl in H. lia.
Qed.

(** The encoder on the ISO form of a date, whatever its year. *)
Lemma format_fileman_date_isoformat (d : date) :
  valid_date d ->
  _format_fileman_date (isoformat d) =
  Py.format_d 3 (year d - 1700) ++ Py.format_d 2 (month d) ++
  Py.format_d 2 (day d).
Proof.
  intros Hv. unfold _format_fileman_date.
  rewrite isoformat_nonempty, isoformat_no_Z, fromisoformat_isoformat
    by assumption.
  reflexivity.
Qed.

Lemma parse_fileman_date_digits (s : string) :
  Py.isdigit s = true -> (7 <= String.length s)%nat ->
  exists y m d,
    _parse_fileman_date s =
    Py.format_d 4 (1700 + y) ++ "-" ++ Py.format_d 2 m ++ "-" ++
    Py.format_d 2 d.
Proof.
  intros Hd Hl. unfold _parse_fileman_date.
  pose proof Hd as Hd'. unfold Py.isdigit in Hd'.
  apply andb_true_iff in Hd' as [Hne Hall].
  rewrite Hd. apply negb_true_iff in Hne. rewrite Hne. cbn [negb orb].
  apply Nat.leb_le in Hl as Hl'. rewrite Hl'.
  assert (Hs : forall i j, (i < j)%nat -> (j <= 7)%nat ->
                 exists z, Py.int (Py.slice i j s) = Some z).
  { intros i j Hij Hj. apply int_all_digits.
    - now apply all_digits_substring.
    - intros E. apply (f_equal String.length) in E.
      unfold Py.slice in E. rewrite length_substring in E by lia.
      simpl in E. lia. }
  destruct (Hs 0%nat 3%nat) as [y Ey]; [lia | lia |].
  destruct (Hs 3%nat 5%nat) as [m Em]; [lia | lia |].
  destruct (Hs 5%nat 7%nat) as [d Ed]; [lia | lia |].
  rewrite Ey, Em, Ed. now exists y, m, d.
Qed.

(** C4, as the code has it: the decoder returns the empty string exactly
    when the input is not all digits or is shorter than 7 characters; it is
    a total function, so it never raises; the month and the day of the 3/2/2
    split are not checked against the calendar. *)
Theorem parse_fileman_date_absent_iff (s : string) :
  _parse_fileman_date s = "" <->
  (Py.isdigit s = false \/ (String.length s < 7)%nat).
Proof.
  split.
  - intros H.
    destruct (Py.isdigit s) eqn:Hd; [right | now left].
    destruct (Nat.lt_ge_cases (String.length s) 7) as [Hl|Hl]; [assumption|].
    destruct (parse_fileman_date_digits s Hd Hl) as (y & m & d & E).
    rewrite E in H. apply (f_equal String.length) in H.
    rewrite !string_length_append in H. simpl in H. lia.
  - intros [Hd|Hl]; unfold _parse_fileman_date.
    + rewrite Hd. cbn [negb]. now rewrite orb_true_r.
    + destruct ((s =? "")%string || negb (Py.isdigit s)); [reflexivity|].
      apply Nat.leb_gt in Hl. now rewrite Hl.
Qed.

(** C4 fails as stated: the all-digit string 2951399 has month 13 and day 99
    and is decoded to a non-empty date string. *)
Lemma parse_fileman_date_month_13 :
  month_day_in_range "2951399" = false /\
  _parse_fileman_date "2951399" = "1995-13-99" /\
  _parse_fileman_date "2951399" <> "".
Proof.
  split; [reflexivity | split; [reflexivity|]].
  vm_compute. discriminate.
Qed.

(** C5, as the code has it: for a date with year in [1700, 2699] the encoder
    returns year - 1700 as 3 digits, the month as 2 digits and the day as 2
    digits; for a year outside that range it does not return the empty
    string, it formats year - 1700 by the same rule (a sign or a fourth
    digit appears). *)
Theorem format_fileman_date_spec (d : date) :
  valid_date d ->
  (1700 <= year d <= 2699 ->
   _format_fileman_date (isoformat d) =
   zero_padded 3 (year d - 1700) ++ zero_padded 2 (month d) ++
   zero_padded 2 (day d)) /\
  (year d < 1700 \/ 2699 < year d ->
   _format_fileman_date (isoformat d) =
   Py.format_d 3 (year d - 1700) ++ zero_padded 2 (month d) ++
   zero_padded 2 (day d) /\
   _format_fileman_date (isoformat d) <> "").
Proof.
  intros Hv. pose proof (valid_date_bounds d Hv) as (Hy & Hm & Hd).
  rewrite format_fileman_date_isoformat by assumption.
  pose proof (digits_padded _ _ _ (format_d_2 (month d) ltac:(lia))) as Em.
  pose proof (digits_padded _ _ _ (format_d_2 (day d) ltac:(lia))) as Ed.
  rewrite Em, Ed. split.
  - intros Hr.
    pose proof (format_d_3 (year d - 1700) ltac:(lia)) as Dy.
    now rewrite (digits_padded _ _ _ Dy).
  - intros _. split; [reflexivity|].
    intros H. apply (f_equal String.length) in H.
    rewrite !string_length_append in H. simpl in H. lia.
Qed.

Lemma format_fileman_date_spec_witness :
  _format_fileman_date (isoformat (mkdate 1995 1 15)) = "2950115" /\
  _format_fileman_date (isoformat (mkdate 2700 1 15)) <> "".
Proof.
  pose proof (format_fileman_date_spec (mkdate 1995 1 15) eq_refl) as [H _].
  pose proof (format_fileman_date_spec (mkdate 2700 1 15) eq_refl) as [_ H'].
  split.
  - rewrite H by (simpl; lia). reflexivity.
  - apply H'. simpl. lia.
Defined.

(** C5 fails as stated: 1699-12-31 and 2700-01-15 are dates with a year
    outside [1700, 2699] and are not encoded as the empty string. *)
Lemma format_fileman_date_out_of_range :
  valid_date (mkdate 1699 12 31) /\
  _format_fileman_date (isoformat (mkdate 1699 12 31)) = "-011231" /\
  _format_fileman_date (isoformat (mkdate 1699 12 31)) <> "" /\
  valid_date (mkdate 2700 1 15) /\
  _format_fileman_date (isoformat (mkdate 2700 1 15)) = "10000115" /\
  _format_fileman_date (isoformat (mkdate 2700 1 15)) <> "".
Proof.
  split; [reflexivity|]. split; [reflexivity|].
  split; [vm_compute; discriminate|].
  split; [reflexivity|]. split; [reflexivity|].
  vm_compute. discriminate.
Qed.

(** C6: for every valid calendar date with year in [1700, 2699], decoding
    the encoding of the date gives the date back (in the ISO form the
    adapter exchanges dates in). *)
Theorem parse_format_fileman_date (d : date) :
  valid_date d -> 1700 <= year d <= 2699 ->
  _parse_fileman_date (_format_fileman_date (isoformat d)) = isoformat d.
Proof.
  intros Hv Hr. pose proof (valid_date_bounds d Hv) as (Hy & Hm & Hd).
  rewrite format_fileman_date_isoformat by assumption.
  pose proof (format_d_3 (year d - 1700) ltac:(lia)) as Dy.
  pose proof (format_d_2 (month d) ltac:(lia)) as Dm.
  pose proof (format_d_2 (day d) ltac:(lia)) as Dd.
  unfold isoformat.
  remember (Py.format_d 3 (year d - 1700)) as a eqn:Ea.
  remember (Py.format_d 2 (month d)) as b eqn:Eb.
  remember (Py.format_d 2 (day d)) as c eqn:Ec.
  explode_digits Dy Ay Iy. explode_digits Dm Am Im. explode_digits Dd Ad Id.
  unfold _parse_fileman_date, Py.isdigit. run_slices.
  cbn [Py.all_digits] in *.
  repeat match goal with
         | H : _ && _ = true |- _ => apply andb_true_iff in H as [? ?]
         end.
  repeat match goal with
         | H : Py.is_digit _ = true |- _ => rewrite H; clear H
         end.
  cbn [andb negb orb].
  rewrite Iy, Im, Id.
  replace (1700 + (year d - 1700)) with (year d) by lia.
  rewrite <- Eb, <- Ec. reflexivity.
Qed.

Lemma parse_format_fileman_date_witness :
  _parse_fileman_date (_format_fileman_date (isoformat (mkdate 1995 1 15)))
  = isoformat (mkdate 1995 1 15).
Proof.
  apply (parse_format_fileman_date (mkdate 1995 1 15)).
  - reflexivity.
  - simpl. lia.
Defined.

End FileManDateProps.

(** ** Dictionaries *)

Lemma dict_get_pop {V : Type} (k : string) (d : Dict.t V) :
  Dict.get k (Dict.pop k d) = None.
Proof.
  induction d as [|[k' v] d IH]; simpl; [reflexivity|].
  destruct (String.eqb_spec k' k) as [->|Hne]; [assumption|].
  simpl. apply String.eqb_neq in Hne. now rewrite Hne.
Qed.

Lemma dict_get_set {V : Type} (k : string) (v : V) (d : Dict.t V) :
  Dict.get k (Dict.set k v d) = Some v.
Proof.
  induction d as [|[k' v'] d IH]; simpl.
  - now rewrite String.eqb_refl.
  - destruct (String.eqb k' k) eqn:E; simpl.
    + now rewrite String.eqb_refl.
    + now rewrite E.
Qed.

(** A name registered for the first time goes after those registered
    before it. *)
Lemma dict_set_new {V : Type} (k : string) (v : V) (d : Dict.t V) :
  Dict.get k d = None -> Dict.set k v d = (d ++ [(k, v)])%list.
Proof.
  induction d as [|[k' v'] d IH]; simpl; [reflexivity|].
  destruct (String.eqb k' k); [discriminate|].
  intros H. now rewrite IH.
Qed.

(** ** The stored empty value ([MockAdapter], [IRISNativeAdapter]) *)

Module EmptyValueProps.

Lemma path_eqb_refl (p : Globals.path) : Globals.path_eqb p p = true.
Proof.
  unfold Globals.path_eqb.
  destruct (list_eq_dec string_dec p p); [reflexivity | contradiction].
Qed.

Lemma globals_get_set (v : string) (p : Globals.path) (st : Globals.store) :
  Globals.get (Globals.set v p st) p = Some v.
Proof. unfold Globals.set. simpl. now rewrite path_eqb_refl. Qed.

(** C3, as the code has it: after [set(p, "")] succeeds, [get(p)] answers
    absent.  The mock deletes the node on an empty write (its data status
    becomes 0); the IRIS adapter leaves the empty string in the store, where
    the node stays defined, and its [get_global] reports a stored empty
    string as absent. *)
Theorem set_empty_then_get_absent :
  (forall (d d' : MockAdapter.data) g subs b,
      MockAdapter.set_global "" g subs d = Ok (d', b) ->
      MockAdapter.get_global d' g subs = Ok None /\
      MockAdapter.data_global d' g subs = Ok 0) /\
  (forall (st : Globals.store) g subs w',
      IRISNativeAdapter.set_global Session.iris Scenario.connected_adapter
        "" g subs (Session.reliable st) = Some (Ok true, w') ->
      IRISNativeAdapter.get_global Session.iris Scenario.connected_adapter
        g subs w' = Some (Ok None, w') /\
      exists normalized,
        BaseAdapter._normalize_global_name g = Ok normalized /\
        Globals.get (Session.globals w') (normalized :: subs) = Some "").
Proof.
  split.
  - intros d d' g subs b H.
    unfold MockAdapter.set_global in H.
    unfold MockAdapter.get_global, MockAdapter.data_global.
    destruct (MockAdapter._build_key g subs) as [key|e]; [|discriminate].
    simpl in H. injection H as <- <-.
    unfold Dict.mem. now rewrite dict_get_pop.
  - intros st g subs w' H.
    unfold IRISNativeAdapter.set_global, IRISNativeAdapter.get_global in *.
    cbn [Scenario.connected_adapter IRISNativeAdapter.connected
         IRISNativeAdapter.has_iris_native negb orb] in *.
    unfold Exec.try_except, Exec.bind, Exec.lift, Exec.ret,
      BaseAdapter._validate_subscripts in *.
    destruct (BaseAdapter._normalize_global_name g) as [n|e];
      [|discriminate].
    cbn in H. injection H as <-.
    cbn. rewrite path_eqb_refl. cbn. split; [reflexivity|].
    exists n. split; [reflexivity|]. now rewrite path_eqb_refl.
Qed.

Lemma set_empty_then_get_absent_witness :
  MockAdapter.get_global [] "^G" ["1"] = Ok None /\
  IRISNativeAdapter.get_global Session.iris Scenario.connected_adapter
    "^G" ["1"] (Session.reliable [(["^G"; "1"], "")])
  = Some (Ok None, Session.reliable [(["^G"; "1"], "")]).
Proof.
  destruct set_empty_then_get_absent as [HM HI]. split.
  - apply (HM [("^G(1)", "x")] [] "^G" ["1"] true). reflexivity.
  - apply (HI [(["^G"; "1"], "x")] "^G" ["1"]). reflexivity.
Defined.

(** C3 fails as stated: after writing "x" and then the empty string at
    [^G(1)], the mock has no node there and [get] answers absent. *)
Lemma mock_set_empty_deletes :
  MockAdapter.set_global "" "^G" ["1"] [("^G(1)", "x")] = Ok ([], true) /\
  MockAdapter.get_global [] "^G" ["1"] = Ok None /\
  MockAdapter.data_global [] "^G" ["1"] = Ok 0.
Proof. repeat split. Qed.

End EmptyValueProps.

(** ** The mock's [order_global] *)

Module MockOrderProps.

(** The four nodes are what four [set_global] calls leave in the mock. *)
Lemma mock_1_2_10_A_built :
  let put v s r :=
    match r with
    | Ok d => match MockAdapter.set_global v "^G" [s] d with
              | Ok (d', _) => Ok d'
              | Raise e => Raise e
              end
    | Raise e => Raise e
    end in
  put "d" "A" (put "c" "10" (put "b" "2" (put "a" "1" (Ok [])))) =
  Ok Scenario.mock_1_2_10_A.
Proof. reflexivity. Qed.

(** C8 on the code: over the children 1, 2, 10, "A" of [^G] the mock's
    [order_global] answers absent to the first call from the empty
    subscript, so the walk is the single answer absent and not 1, 2, 10,
    "A", absent; asked without a subscript or with the subscript 1 it
    answers the stored key [^G(1)], which is no subscript and, for 1, is the
    node it was asked from. *)
Theorem mock_order_walk_from_empty :
  MockAdapter.order_walk 5 Scenario.mock_1_2_10_A "^G" [] "" = [None] /\
  MockAdapter.order_global Scenario.mock_1_2_10_A "^G" [] = Ok (Some "^G(1)") /\
  MockAdapter.order_global Scenario.mock_1_2_10_A "^G" ["1"]
  = Ok (Some "^G(1)").
Proof. repeat split. Qed.

(** The walk the claim describes, on the store modelled from the collation
    rule: 1, 2, 10, "A", then the end. *)
Lemma store_order_walk_1_2_10_A :
  Globals.order_walk 5 Scenario.store_1_2_10_A ["^G"] ""
  = ["1"; "2"; "10"; "A"; ""].
Proof. vm_compute. reflexivity. Qed.

End MockOrderProps.

(** ** Auto-detection in the registry *)

Module RegistryProps.
Import AdapterRegistry.

(** The head of the stable descending sort: the first entry of greatest
    priority. *)
Lemma sort_desc_head (l : list (string * adapter_info)) :
  l <> [] ->
  exists x r pre post,
    sort_desc l = x :: r /\ l = (pre ++ x :: post)%list /\
    Forall (fun y => priority (snd y) < priority (snd x)) pre /\
    Forall (fun y => priority (snd y) <= priority (snd x)) post.
Proof.
  induction l as [|y l IH]; [contradiction|]. intros _.
  destruct l as [|z l'].
  - exists y, [], [], []. simpl. repeat split; constructor.
  - destruct IH as (x & r & pre & post & Hs & Hl & Hpre & Hpost);
      [discriminate|].
    change (sort_desc (y :: z :: l'))
      with (insert_desc y (sort_desc (z :: l'))).
    rewrite Hs. simpl.
    destruct (priority (snd y) <? priority (snd x)) eqn:E.
    + apply Z.ltb_lt in E.
      exists x, (insert_desc y r), (y :: pre), post.
      rewrite Hl. repeat split; [|assumption].
      constructor; assumption.
    + apply Z.ltb_ge in E.
      exists y, (x :: r), [], (z :: l').
      repeat split; [constructor|].
      rewrite Hl. apply Forall_app. split.
      * eapply Forall_impl; [|exact Hpre]. intros a Ha.
        simpl in Ha. lia.
      * constructor; [exact E|].
        eapply Forall_impl; [|exact Hpost]. intros a Ha.
        simpl in Ha. lia.
Qed.

Lemma filter_split {A : Type} (f : A -> bool) (l pre post : list A) (x : A) :
  filter f l = (pre ++ x :: post)%list ->
  exists pre' post',
    l = (pre' ++ x :: post')%list /\
    filter f pre' = pre /\ filter f post' = post.
Proof.
  revert pre. induction l as [|a l IH]; intros pre H; simpl in H.
  - destruct pre; discriminate.
  - destruct (f a) eqn:Fa.
    + destruct pre as [|p pre]; simpl in H.
      * injection H as -> Hpost. exists [], l. now split.
      * injection H as -> Hrest.
        destruct (IH pre Hrest) as (pre' & post' & -> & Hp & Hq).
        exists (p :: pre'), post'. simpl. rewrite Fa, Hp. now split.
    + destruct (IH pre H) as (pre' & post' & -> & Hp & Hq).
      exists (a :: pre'), post'. simpl. rewrite Fa. now split.
Qed.

Lemma Forall_filter_elim {A : Type} (f : A -> bool) (P : A -> Prop)
    (l : list A) :
  Forall P (filter f l) -> Forall (fun a => f a = true -> P a) l.
Proof.
  induction l as [|a l IH]; simpl; intros H; [constructor|].
  destruct (f a) eqn:Fa.
  - inversion H; subst. constructor; [auto | now apply IH].
  - constructor; [congruence | now apply IH].
Qed.

(** C9: auto-detection answers the name of the entry open to
    auto-detection that has the greatest priority, the first registered
    among those of that priority: every such entry registered before it has
    a strictly smaller priority, every one registered after it has at most
    its priority.  When no entry is open to auto-detection it raises the
    error that no adapter is available. *)
Theorem auto_detect_adapter_spec (a : adapters) :
  match _auto_detect_adapter a with
  | Ok name =>
      exists info before later,
        a = (before ++ (name, info) :: later)%list /\
        auto_detect info = true /\
        Forall (fun ni => auto_detect (snd ni) = true ->
                          priority (snd ni) < priority info) before /\
        Forall (fun ni => auto_detect (snd ni) = true ->
                          priority (snd ni) <= priority info) later
  | Raise e =>
      e = mkexn RuntimeError "No adapters available for auto-detection" /\
      Forall (fun ni => auto_detect (snd ni) = false) a
  end.
Proof.
  unfold _auto_detect_adapter.
  destruct (filter (fun ni => auto_detect (snd ni)) a) as [|h t] eqn:Hf.
  - split; [reflexivity|].
    apply Forall_forall. intros ni Hin.
    destruct (auto_detect (snd ni)) eqn:E; [|reflexivity].
    assert (In ni (filter (fun ni => auto_detect (snd ni)) a))
      by (apply filter_In; now split).
    rewrite Hf in H. contradiction.
  - destruct (sort_desc_head (h :: t)) as
      (x & r & pre & post & Hs & Hl & Hpre & Hpost); [discriminate|].
    rewrite Hs. destruct x as [name info].
    rewrite Hl in Hf.
    destruct (filter_split _ _ _ _ _ Hf) as (pre' & post' & -> & Hp & Hq).
    exists info, pre', post'. split; [reflexivity|].
    split.
    + assert (In (name, info)
                (filter (fun ni => auto_detect (snd ni))
                   (pre' ++ (name, info) :: post')%list))
        by (rewrite Hf; apply in_elt).
      apply filter_In in H. apply H.
    + subst pre post. split.
      * apply Forall_filter_elim in Hpre. exact Hpre.
      * apply Forall_filter_elim in Hpost. exact Hpost.
Qed.

(** The registries of the specification: the greater priority wins, a tie
    goes to the adapter registered first, an adapter closed to
    auto-detection is never chosen, the empty registry has no adapter. *)
Lemma auto_detect_adapter_examples :
  _auto_detect_adapter Scenario.registry_A_C = Ok "C" /\
  _auto_detect_adapter Scenario.registry_tie = Ok "first" /\
  _auto_detect_adapter [] =
  Raise (mkexn RuntimeError "No adapters available for auto-detection").
Proof. repeat split. Qed.

End RegistryProps.

(** ** Collation and the walk over siblings *)

Module GlobalsProps.
Import Globals.

Lemma string_compare_refl (x : string) : String_as_OT.compare x x = Eq.
Proof.
  destruct (String_as_OT.compare_spec x x) as [_|H|H]; [reflexivity | |];
    exfalso; revert H; apply (StrictOrder_Irreflexive x).
Qed.

Lemma ckey_ltb_irrefl (k : ckey) : ckey_ltb k k = false.
Proof.
  destruct k as [q|s]; simpl.
  - assert (E : (q ?= q)%Q = Eq) by (apply Qeq_alt; reflexivity).
    now rewrite E.
  - now rewrite string_compare_refl.
Qed.

Lemma ckey_ltb_trans (a b c : ckey) :
  ckey_ltb a b = true -> ckey_ltb b c = true -> ckey_ltb a c = true.
Proof.
  destruct a as [x|x], b as [y|y], c as [z|z]; simpl; try congruence.
  - destruct (x ?= y)%Q eqn:Exy; try discriminate.
    destruct (y ?= z)%Q eqn:Eyz; try discriminate.
    intros _ _.
    assert (Hxy : (x < y)%Q) by (apply Qlt_alt; exact Exy).
    assert (Hyz : (y < z)%Q) by (apply Qlt_alt; exact Eyz).
    assert (H : (x ?= z)%Q = Lt)
      by (apply Qlt_alt; eapply Qlt_trans; eassumption).
    now rewrite H.
  - destruct (String_as_OT.compare x y) eqn:Exy; try discriminate.
    destruct (String_as_OT.compare y z) eqn:Eyz; try discriminate.
    intros _ _.
    assert (H : String_as_OT.lt x z).
    { eapply (StrictOrder_Transitive x y z); assumption. }
    unfold String_as_OT.lt in H. now rewrite H.
Qed.

Lemma coll_ltb_irrefl (x : string) : coll_ltb x x = false.
Proof. apply ckey_ltb_irrefl. Qed.

Lemma coll_ltb_trans (x y z : string) :
  coll_ltb x y = true -> coll_ltb y z = true -> coll_ltb x z = true.
Proof. apply ckey_ltb_trans. Qed.

Lemma minimum_In (cs : list string) :
  forall best, In (minimum best cs) (best :: cs).
Proof.
  induction cs as [|c cs IH]; intros best; simpl; [now left|].
  destruct (IH (if coll_ltb c best then c else best)) as [H|H].
  - destruct (coll_ltb c best); rewrite <- H; auto.
  - auto.
Qed.

(** What [order] answers, when it is not the end, is a child that lies
    after the subscript it was asked from. *)
Lemma order_In (st : store) (p : path) (x : string) :
  order st p x <> "" ->
  In (order st p x) (children st p) /\ after x (order st p x) = true.
Proof.
  unfold order.
  destruct (filter (after x) (children st p)) as [|c cs] eqn:Hf;
    [contradiction|].
  intros _. apply filter_In. rewrite Hf. apply minimum_In.
Qed.

Lemma after_nonempty (x c : string) :
  x <> "" -> after x c = coll_ltb x c.
Proof.
  intros H. unfold after. apply String.eqb_neq in H. now rewrite H.
Qed.

(** A step of the walk keeps it after where it started. *)
Lemma after_trans (x y z : string) :
  y <> "" -> after x y = true -> after y z = true -> after x z = true.
Proof.
  intros Hy Hxy Hyz. unfold after in *.
  destruct (String.eqb_spec x "") as [|Hx]; [reflexivity|].
  apply String.eqb_neq in Hy. rewrite Hy in Hyz. simpl in *.
  eapply coll_ltb_trans; eassumption.
Qed.

Lemma after_neq (x y : string) : y <> "" -> after x y = true -> y <> x.
Proof.
  intros Hy H ->. unfold after in H.
  apply String.eqb_neq in Hy. rewrite Hy, coll_ltb_irrefl in H.
  discriminate.
Qed.

Lemma filter_length_lt {A : Type} (f g : A -> bool) (l : list A) (y : A) :
  (forall a, f a = true -> g a = true) ->
  In y l -> g y = true -> f y = false ->
  (List.length (filter f l) < List.length (filter g l))%nat.
Proof.
  intros Hfg. 
  assert (Hle : forall l', (List.length (filter f l') <=
                            List.length (filter g l'))%nat).
  { induction l' as [|a l' IH]; simpl; [lia|].
    destruct (f a) eqn:Fa.
    - rewrite (Hfg a Fa). simpl. lia.
    - destruct (g a); simpl; lia. }
  induction l as [|a l IH]; intros Hin Hg Hf; [contradiction|].
  simpl. destruct Hin as [->|Hin].
  - rewrite Hf, Hg. simpl. specialize (Hle l). lia.
  - specialize (IH Hin Hg Hf).
    destruct (f a) eqn:Fa.
    + rewrite (Hfg a Fa). simpl. lia.
    + destruct (g a); simpl; lia.
Qed.

(** Every answer of [order] that is not the end leaves strictly fewer
    children to visit: a walk that feeds each answer back in ends. *)
Lemma rank_order_lt (st : store) (p : path) (x : string) :
  order st p x <> "" ->
  (rank st p (order st p x) < rank st p x)%nat.
Proof.
  intros Hne. destruct (order_In st p x Hne) as [Hin Haft].
  unfold rank. apply filter_length_lt with (y := order st p x).
  - intros a Ha. eapply after_trans; eassumption.
  - assumption.
  - assumption.
  - rewrite after_nonempty by assumption. apply coll_ltb_irrefl.
Qed.

Lemma children_length (st : store) (p : path) :
  (List.length (children st p) <= List.length st)%nat.
Proof.
  unfold children. induction st as [|kv st IH]; simpl; [lia|].
  rewrite length_app. destruct (child_of p (fst kv)); simpl; lia.
Qed.

Lemma rank_le (st : store) (p : path) (x : string) :
  (rank st p x <= List.length st)%nat.
Proof.
  unfold rank. etransitivity; [apply filter_length_le | apply children_length].
Qed.

End GlobalsProps.

(** ** Running the adapter *)

(** Case analysis on the innermost scrutinee first. *)
Ltac break_inner :=
  match goal with
  | |- context [match ?x with _ => _ end] =>
      lazymatch x with
      | context [match _ with _ => _ end] => fail
      | _ => destruct x eqn:?
      end
  end.

Ltac unfold_exec :=
  unfold Exec.try_except, Exec.bind, Exec.attempt, Exec.raise, Exec.reraise,
    Exec.ret, Exec.lift, Exec.out_of_fuel, Sdk.isDefined, Sdk.get,
    Sdk.order, Sdk.set, Sdk.time_ms in *.

(** Run the calls of a session whose connection never drops. *)
Ltac run_session :=
  progress cbn [Session.iris sdk_isDefined sdk_get sdk_order sdk_set clock_ms
                Session.call Session.calls_left Session.globals
                Session.now_ms].

Module LookupProps.
Import IrisNativeAdapter.

Lemma truthy_true (s : string) : truthy s = true -> s <> "".
Proof.
  unfold truthy. intros H. apply negb_true_iff in H.
  now apply String.eqb_neq.
Qed.


(** An individual lookup returns the record of the DFN asked for or raises
    [QueryError], whatever the calls of the SDK raise. *)
Lemma demographics_outcome {W : Type} (iris : backend W) (d : string)
    (w : W) :
  exists r w',
    get_patient_demographics iris d w = Some (r, w') /\
    match r with
    | Ok p => dfn p = d
    | Raise e => kind e = QueryError
    end.
Proof.
  unfold get_patient_demographics. unfold_exec.
  repeat break_inner;
    (eexists; eexists; split; [reflexivity|]; reflexivity).
Qed.

(** On a connection that never drops the lookup leaves the session as it
    was. *)
Lemma demographics_reliable (st : Globals.store) (t : Z) (d : string) :
  exists r,
    get_patient_demographics Session.iris d (Session.mkworld st t None)
    = Some (r, Session.mkworld st t None) /\
    match r with
    | Ok p => dfn p = d
    | Raise e => is_QueryError e = true
    end.
Proof.
  unfold get_patient_demographics. unfold_exec.
  repeat first [ run_session | break_inner ];
    (eexists; split; [reflexivity|]; reflexivity).
Qed.

Lemma batch_loop_spec {W : Type} (iris : backend W) (dfn_list : list string) :
  forall acc w,
    batch_loop iris dfn_list acc w =
    Some (Ok (acc ++ fst (successful_lookups iris dfn_list w))%list,
          snd (successful_lookups iris dfn_list w)).
Proof.
  induction dfn_list as [|d rest IH]; intros acc w; simpl.
  - unfold Exec.ret. now rewrite app_nil_r.
  - unfold Exec.bind, Exec.attempt.
    destruct (demographics_outcome iris d w) as (r & w' & E & Hr).
    rewrite E. destruct r as [p|e].
    + rewrite IH. simpl. now rewrite <- app_assoc.
    + unfold is_QueryError. rewrite Hr. apply IH.
Qed.

Lemma allergy_walk_no_raise {W : Type} (iris : backend W) (fuel : nat) :
  forall d ptr acc w,
    match allergy_walk iris fuel d ptr acc w with
    | Some (Raise _, _) => False
    | _ => True
    end.
Proof.
  induction fuel as [|fuel IH]; intros d ptr acc w; simpl; [exact I|].
  unfold_exec.
  destruct (sdk_order iris _ ptr w) as [[ptr'|e] w1]; [|exact I].
  destruct (negb (truthy ptr')); [exact I|].
  destruct (sdk_get iris _ w1) as [[data|e] w2]; [|exact I].
  apply IH.
Qed.

(** Over a session, dropped or not, the allergy walk ends. *)
Lemma allergy_walk_returns (st : Globals.store) (t : Z) (d : string)
    (fuel : nat) :
  forall ptr acc cl,
    (Globals.rank st ["^PS"; "55"; d; "AL"] ptr < fuel)%nat ->
    exists l w',
      allergy_walk Session.iris fuel d ptr acc (Session.mkworld st t cl)
      = Some (Ok l, w').
Proof.
  induction fuel as [|fuel IH]; intros ptr acc cl Hr; [lia|].
  simpl. unfold_exec.
  assert (Hstep : truthy (Globals.order st ["^PS"; "55"; d; "AL"] ptr) = true ->
                  (Globals.rank st ["^PS"; "55"; d; "AL"]
                     (Globals.order st ["^PS"; "55"; d; "AL"] ptr) < fuel)%nat).
  { intros Ht. apply truthy_true in Ht.
    pose proof (GlobalsProps.rank_order_lt st _ ptr Ht). lia. }
  destruct cl as [[|n]|]; cbn; eauto;
    destruct (truthy (Globals.order st ["^PS"; "55"; d; "AL"] ptr));
    cbn; eauto.
  destruct n as [|n]; cbn; eauto.
Qed.

(** C2, as the code has it: the batch lookup always returns, with the
    records of exactly the DFNs whose individual lookup succeeds, in order;
    an individual lookup turns every exception of its calls, a lost
    connection included, into [QueryError], which the batch omits, so no
    [ConnectionError] is propagated; the allergy walk never raises either
    (it ends with the entries read so far), and over a session it ends. *)
Theorem batch_and_walk_swallow_errors :
  (forall (W : Type) (iris : backend W) dfn_list w,
      get_patients_batch iris dfn_list w =
      Some (Ok (fst (successful_lookups iris dfn_list w)),
            snd (successful_lookups iris dfn_list w))) /\
  (forall (W : Type) (iris : backend W) d w,
      match get_patient_demographics iris d w with
      | Some (Ok p, _) => dfn p = d
      | Some (Raise e, _) => kind e = QueryError
      | None => False
      end) /\
  (forall (W : Type) (iris : backend W) fuel d w,
      match _get_patient_allergies iris fuel d w with
      | Some (Raise _, _) => False
      | _ => True
      end) /\
  (forall st t cl fuel d,
      (List.length st < fuel)%nat ->
      exists l w',
        _get_patient_allergies Session.iris fuel d (Session.mkworld st t cl)
        = Some (Ok l, w')).
Proof.
  repeat split.
  - intros W iris dfn_list w. unfold get_patients_batch, Exec.try_except.
    now rewrite batch_loop_spec.
  - intros W iris d w.
    destruct (demographics_outcome iris d w) as (r & w' & E & Hr).
    rewrite E. destruct r; exact Hr.
  - intros W iris fuel d w. apply allergy_walk_no_raise.
  - intros st t cl fuel d Hf. apply allergy_walk_returns.
    pose proof (GlobalsProps.rank_le st ["^PS"; "55"; d; "AL"] ""). lia.
Qed.

Lemma batch_and_walk_swallow_errors_witness :
  exists l w',
    _get_patient_allergies Session.iris 7 "1"
      (Session.mkworld Scenario.store_1_3 0 (Some 3%nat)) = Some (Ok l, w').
Proof.
  destruct batch_and_walk_swallow_errors as (_ & _ & _ & H).
  apply H. simpl. lia.
Defined.

(** C2 fails as stated: the connection drops after the lookup of patient 1;
    the calls made for patients 2 and 3 raise [ConnectionError], patient 3 is
    on file, and the batch returns the partial list instead of propagating
    the error; the allergy walk returns the entry read before the drop. *)
Lemma batch_swallows_connection_error :
  let w3 := Session.mkworld Scenario.store_1_3 0 (Some 3%nat) in
  let w0 := Session.mkworld Scenario.store_1_3 0 (Some 0%nat) in
  sdk_isDefined Session.iris ["^DPT"; "3"; "0"] w0
  = (Raise (mkexn ConnectionError "connection lost"), w0) /\
  get_patient_demographics Session.iris "3" w0
  = Some (Raise (mkexn QueryError
                   "Failed to get patient demographics: connection lost"),
          w0) /\
  get_patients_batch Session.iris ["1"; "2"; "3"] w3
  = Some (Ok [Scenario.doe_john], w0) /\
  _get_patient_allergies Session.iris 7 "1" w3
  = Some (Ok [mkAllergy "PENICILLIN" "SEVERE" "RASH"], w0).
Proof. vm_compute. repeat split. Qed.

End LookupProps.

(** ** Name-index search *)

Module SearchProps.
Import IrisNativeAdapter LookupProps.

(** The inner walk over the DFNs of one name, on a connection that never
    drops: with fuel for the DFNs left it returns, the session as it was,
    having appended records of DFNs held under that name, within the cap. *)
Lemma dfn_walk_reliable (st : Globals.store) (t : Z) (key : string)
    (fuel : nat) :
  forall d ps c,
    (Globals.rank st ["^DPT"; "B"; key] d < fuel)%nat ->
    (c < limit)%nat ->
    exists new c',
      dfn_walk Session.iris fuel key d ps c (Session.mkworld st t None)
      = Some (Ok ((ps ++ new)%list, c'), Session.mkworld st t None) /\
      c' = (c + List.length new)%nat /\
      (c' <= limit)%nat /\
      Forall (fun p => indexed st key (dfn p)) new.
Proof.
  induction fuel as [|fuel IH]; intros d ps c Hr Hc; [lia|].
  cbn [dfn_walk]. unfold Exec.bind at 1. unfold Sdk.order. run_session.
  set (y := Globals.order st ["^DPT"; "B"; key] d) in *.
  destruct (truthy y) eqn:Ty; cbn [negb].
  2:{ exists [], c. unfold Exec.ret. rewrite app_nil_r. simpl.
      repeat split; [lia | lia | constructor]. }
  apply truthy_true in Ty.
  destruct (GlobalsProps.order_In st _ d Ty) as [Hin _].
  pose proof (GlobalsProps.rank_order_lt st _ d Ty) as Hlt.
  fold y in Hin, Hlt.
  unfold Exec.bind, Exec.attempt.
  destruct (demographics_reliable st t y) as (r & E & Hres). rewrite E.
  destruct r as [p|e].
  - destruct (limit <=? S c)%nat eqn:Hcap.
    + exists [p], (S c). unfold Exec.ret. simpl.
      apply Nat.leb_le in Hcap.
      repeat split; [lia | lia |].
      constructor; [|constructor]. unfold indexed. now rewrite Hres.
    + apply Nat.leb_gt in Hcap.
      destruct (IH y (ps ++ [p])%list (S c))
        as (new & c' & E' & Hc' & Hle & Hall); [lia | lia |].
      exists (p :: new), c'. rewrite E', <- app_assoc. simpl.
      repeat split; [lia | assumption |].
      constructor; [|assumption]. unfold indexed. now rewrite Hres.
  - rewrite Hres. apply IH; [lia | assumption].
Qed.

Lemma name_walk_reliable (st : Globals.store) (t : Z) (pattern : string)
    (inner_fuel : nat) :
  (List.length st < inner_fuel)%nat ->
  forall fuel current ps c,
    (current = "" -> (0 < fuel)%nat) ->
    (current <> "" ->
     (Globals.rank st ["^DPT"; "B"] current + 1 < fuel)%nat) ->
    at_name st pattern current ->
    (c <= limit)%nat -> List.length ps = c ->
    Forall (found st pattern) ps ->
    exists ps',
      name_walk Session.iris fuel inner_fuel pattern current ps c
        (Session.mkworld st t None)
      = Some (Ok ps', Session.mkworld st t None) /\
      (List.length ps' <= limit)%nat /\
      Forall (found st pattern) ps'.
Proof.
  intros Hinner.
  induction fuel as [|fuel IH]; intros current ps c H0 Hr Hat Hc Hl Hps.
  { destruct (String.eqb_spec current "") as [E|E];
      [apply H0 in E | apply Hr in E]; lia. }
  cbn [name_walk].
  destruct (truthy current && Py.startswith current pattern && (c <? limit)%nat)
    eqn:Hcond.
  2:{ exists ps. unfold Exec.ret. repeat split; [lia | assumption]. }
  apply andb_true_iff in Hcond as [Hcond Hlt].
  apply andb_true_iff in Hcond as [Hne Hpre].
  apply truthy_true in Hne. apply Nat.ltb_lt in Hlt.
  destruct Hat as [E|[Hin Haft]]; [contradiction|].
  unfold Exec.bind at 1.
  destruct (dfn_walk_reliable st t current inner_fuel "" ps c)
    as (new & c' & E & Hc' & Hle & Hnew); [|assumption|].
  { pose proof (GlobalsProps.rank_le st ["^DPT"; "B"; current] ""). lia. }
  rewrite E. unfold Exec.bind. unfold Sdk.order. run_session.
  cbn [fst snd].
  set (next := Globals.order st ["^DPT"; "B"] current).
  apply IH.
  - intros _. specialize (Hr Hne). lia.
  - intros Hnext.
    pose proof (GlobalsProps.rank_order_lt st _ current Hnext).
    fold next in H. specialize (Hr Hne). lia.
  - destruct (String.eqb_spec next "") as [En|En]; [now left | right].
    destruct (GlobalsProps.order_In st _ current En) as [Hin' Haft'].
    split; [assumption|].
    apply (GlobalsProps.after_trans pattern current next); assumption.
  - assumption.
  - rewrite length_app. lia.
  - apply Forall_app. split; [assumption|].
    eapply Forall_impl; [|exact Hnew].
    intros p Hp. exists current. repeat split; assumption.
Qed.

(** The search on a connection that never drops: with fuel for the nodes of
    the store it returns, the session as it was, at most 50 records, each
    found under an index key that starts with the pattern and lies after
    it. *)
Lemma search_reliable (st : Globals.store) (t : Z) (name_pattern : string)
    (fuel : nat) :
  (List.length st < fuel)%nat ->
  exists patients,
    search_patients_by_name Session.iris fuel name_pattern
      (Session.mkworld st t None)
    = Some (Ok patients, Session.mkworld st t None) /\
    (List.length patients <= limit)%nat /\
    Forall (found st (search_pattern_of name_pattern)) patients.
Proof.
  intros Hf. unfold search_patients_by_name, Exec.try_except.
  unfold Exec.bind, Sdk.order. run_session.
  set (pat := search_pattern_of name_pattern).
  set (first := Globals.order st ["^DPT"; "B"] pat).
  destruct (name_walk_reliable st t pat fuel Hf fuel first [] 0%nat)
    as (ps & E & Hlen & Hall).
  - lia.
  - intros Hne.
    pose proof (GlobalsProps.rank_order_lt st _ pat Hne) as H.
    fold first in H.
    pose proof (GlobalsProps.rank_le st ["^DPT"; "B"] pat). lia.
  - destruct (String.eqb_spec first "") as [En|En]; [now left | right].
    apply (GlobalsProps.order_In st _ pat En).
  - unfold limit. lia.
  - reflexivity.
  - constructor.
  - rewrite E. exists ps. repeat split; assumption.
Qed.

End SearchProps.

Module SearchClaims.
Import IrisNativeAdapter.

(** C7: on a connection that never drops, for every store and every
    pattern, the search returns at most 50 records, each held in the name
    index under a key that starts with the upper-cased pattern without its
    wildcards; when no index key starts with it, it returns none.  Over the
    sixty patients SMITH,01 to SMITH,60 the pattern smith* gives exactly 50
    records and JONES gives none. *)
Theorem search_patients_by_name_capped :
  (forall (st : Globals.store) (t : Z) (name_pattern : string) (fuel : nat),
      (List.length st < fuel)%nat ->
      exists patients,
        search_patients_by_name Session.iris fuel name_pattern
          (Session.mkworld st t None)
        = Some (Ok patients, Session.mkworld st t None) /\
        (List.length patients <= 50)%nat /\
        Forall (fun p =>
                  exists key,
                    Py.startswith key (search_pattern_of name_pattern) = true
                    /\ indexed st key (dfn p)) patients /\
        ((forall key, In key (Globals.children st ["^DPT"; "B"]) ->
                      Py.startswith key (search_pattern_of name_pattern)
                      = false) ->
         patients = [])) /\
  (exists patients,
      search_patients_by_name Session.iris 121 "smith*"
        (Session.reliable Scenario.smith_store)
      = Some (Ok patients, Session.reliable Scenario.smith_store) /\
      List.length patients = 50%nat) /\
  search_patients_by_name Session.iris 121 "JONES"
    (Session.reliable Scenario.smith_store)
  = Some (Ok [], Session.reliable Scenario.smith_store).
Proof.
  split; [|split].
  - intros st t name_pattern fuel Hf.
    destruct (SearchProps.search_reliable st t name_pattern fuel Hf)
      as (ps & E & Hlen & Hall).
    exists ps. split; [exact E|]. split; [exact Hlen|]. split.
    + eapply Forall_impl; [|exact Hall].
      intros p (key & _ & Hpre & _ & _ & Hidx). now exists key.
    + intros Hnone. destruct ps as [|p ps]; [reflexivity|].
      inversion Hall as [|? ? (key & _ & Hpre & _ & Hin & _) _]; subst.
      rewrite (Hnone key Hin) in Hpre. discriminate.
  - eexists. split; vm_compute; reflexivity.
  - vm_compute. reflexivity.
Qed.

Lemma search_patients_by_name_capped_witness :
  exists patients,
    search_patients_by_name Session.iris 5 "smith*"
      (Session.mkworld Scenario.store_smith_smithson 0 None)
    = Some (Ok patients, Session.mkworld Scenario.store_smith_smithson 0 None)
    /\ (List.length patients <= 50)%nat.
Proof.
  destruct search_patients_by_name_capped as [H _].
  destruct (H Scenario.store_smith_smithson 0 "smith*" 5%nat)
    as (ps & E & Hlen & _); [simpl; lia|].
  exists ps. split; assumption.
Defined.

(** C10: on a connection that never drops, every record the search returns
    was reached under an index key that starts with the pattern, lies
    strictly after it in collation order and so differs from it: a DFN held
    in the index only under the key equal to the pattern is never returned.
    With a patient named SMITH and one named SMITHSON, the search for SMITH
    returns the second only. *)
Theorem search_skips_exact_match :
  (forall (st : Globals.store) (t : Z) (name_pattern : string) (fuel : nat),
      (List.length st < fuel)%nat ->
      exists patients,
        search_patients_by_name Session.iris fuel name_pattern
          (Session.mkworld st t None)
        = Some (Ok patients, Session.mkworld st t None) /\
        Forall (fun p =>
                  exists key,
                    key <> search_pattern_of name_pattern /\
                    Globals.after (search_pattern_of name_pattern) key = true
                    /\ Py.startswith key (search_pattern_of name_pattern)
                       = true
                    /\ indexed st key (dfn p)) patients /\
        (forall d,
            (forall key, indexed st key d ->
                         key = search_pattern_of name_pattern) ->
            ~ In d (map dfn patients))) /\
  search_patients_by_name Session.iris 5 "SMITH"
    (Session.reliable Scenario.store_smith_smithson)
  = Some (Ok [Scenario.smithson],
          Session.reliable Scenario.store_smith_smithson).
Proof.
  split; [|vm_compute; reflexivity].
  intros st t name_pattern fuel Hf.
  destruct (SearchProps.search_reliable st t name_pattern fuel Hf)
    as (ps & E & _ & Hall).
  assert (Hkeys :
    Forall (fun p =>
              exists key,
                key <> search_pattern_of name_pattern /\
                Globals.after (search_pattern_of name_pattern) key = true /\
                Py.startswith key (search_pattern_of name_pattern) = true /\
                indexed st key (dfn p)) ps).
  { eapply Forall_impl; [|exact Hall].
    intros p (key & Hne & Hpre & Haft & _ & Hidx).
    exists key. repeat split; try assumption.
    now apply GlobalsProps.after_neq. }
  exists ps. split; [exact E|]. split; [exact Hkeys|].
  intros d Honly Hin. apply in_map_iff in Hin as (p & <- & Hp).
  rewrite Forall_forall in Hkeys.
  destruct (Hkeys p Hp) as (key & Hne & _ & _ & Hidx).
  apply Hne. now apply Honly.
Qed.

Lemma search_skips_exact_match_witness :
  exists patients,
    search_patients_by_name Session.iris 5 "SMITH"
      (Session.mkworld Scenario.store_smith_smithson 0 None)
    = Some (Ok patients, Session.mkworld Scenario.store_smith_smithson 0 None)
    /\ Forall (fun p =>
                 exists key,
                   key <> "SMITH" /\
                   indexed Scenario.store_smith_smithson key (dfn p))
              patients.
Proof.
  destruct search_skips_exact_match as [H _].
  destruct (H Scenario.store_smith_smithson 0 "SMITH" 5%nat)
    as (ps & E & Hkeys & _); [simpl; lia|].
  exists ps. split; [exact E|].
  eapply Forall_impl; [|exact Hkeys].
  intros p (key & Hne & _ & _ & Hidx). exists key. split; assumption.
Defined.

End SearchClaims.

(** ** DFN allocation *)

Module NextDfnProps.
Import IrisNativeAdapter LookupProps.

(** The scan of [_get_next_dfn] on a connection that never drops: with fuel
    for the subscripts left it returns, the session as it was, a subscript
    after which [order] answers the end; it is a child of [^DPT] when the
    scan started from one. *)
Lemma last_subscript_reliable (st : Globals.store) (t : Z) (fuel : nat) :
  forall last,
    (Globals.rank st ["^DPT"] last < fuel)%nat ->
    exists l,
      last_subscript Session.iris fuel last (Session.mkworld st t None)
      = Some (Ok l, Session.mkworld st t None) /\
      Globals.order st ["^DPT"] l = "" /\
      (In last (Globals.children st ["^DPT"]) ->
       In l (Globals.children st ["^DPT"])).
Proof.
  induction fuel as [|fuel IH]; intros last Hr; [lia|].
  cbn [last_subscript]. unfold Exec.bind, Sdk.order. run_session.
  destruct (truthy (Globals.order st ["^DPT"] last)) eqn:Ty; cbn [negb].
  - apply truthy_true in Ty.
    pose proof (GlobalsProps.rank_order_lt st _ last Ty) as Hlt.
    destruct (IH (Globals.order st ["^DPT"] last)) as (l & E & Hend & Hin);
      [lia|].
    exists l. split; [exact E|]. split; [exact Hend|].
    intros _. apply Hin. now apply GlobalsProps.order_In.
  - exists last. unfold Exec.ret. split; [reflexivity|].
    split; [|trivial].
    unfold truthy in Ty. apply negb_false_iff in Ty.
    now apply String.eqb_eq.
Qed.

(** Where the children are not empty strings, [order] answers the end only
    when no child lies after the subscript asked from. *)
Lemma order_end (st : Globals.store) (p : Globals.path) (x c : string) :
  (forall a, In a (Globals.children st p) -> a <> "") ->
  Globals.order st p x = "" ->
  In c (Globals.children st p) -> Globals.after x c = false.
Proof.
  intros Hne Hend Hin.
  destruct (Globals.after x c) eqn:Ha; [exfalso | reflexivity].
  assert (Hf : In c (filter (Globals.after x) (Globals.children st p)))
    by (apply filter_In; now split).
  unfold Globals.order in Hend.
  destruct (filter (Globals.after x) (Globals.children st p)) as [|h r] eqn:E;
    [contradiction|].
  pose proof (GlobalsProps.minimum_In r h) as Hm.
  rewrite Hend, <- E in Hm. apply filter_In in Hm as [Hm _].
  now apply (Hne "").
Qed.

(** C1 on the code, for every store: on a connection that never drops,
    whenever the top level of [^DPT] holds, beside DFNs in canonical decimal
    form, a subscript that is no number (the "B" of the name index that
    [create_patient] writes), the scan ends on a subscript that is not a
    digit string and [_get_next_dfn] answers 1, whatever DFNs exist. *)
Theorem get_next_dfn_with_name_index (st : Globals.store) (t : Z)
    (fuel : nat) (b : string) :
  (List.length st < fuel)%nat ->
  (forall c, In c (Globals.children st ["^DPT"]) ->
             c <> "" /\
             (Py.isdigit c = true -> Globals.canonical_numeric c <> None)) ->
  In b (Globals.children st ["^DPT"]) ->
  Globals.canonical_numeric b = None ->
  _get_next_dfn Session.iris fuel (Session.mkworld st t None)
  = Some (Ok 1, Session.mkworld st t None).
Proof.
  intros Hf Hch Hb Hbn.
  assert (Hne : forall a, In a (Globals.children st ["^DPT"]) -> a <> "")
    by (intros a Ha; apply (Hch a Ha)).
  unfold _get_next_dfn, Exec.try_except.
  unfold Exec.bind at 1. unfold Sdk.order. run_session.
  set (first := Globals.order st ["^DPT"] "").
  assert (Hfirst : first <> "").
  { intros E. pose proof (order_end st ["^DPT"] "" b Hne E Hb) as H.
    discriminate H. }
  destruct (GlobalsProps.order_In st _ "" Hfirst) as [Hin _].
  pose proof (GlobalsProps.rank_order_lt st _ "" Hfirst) as Hlt.
  pose proof (GlobalsProps.rank_le st ["^DPT"] "") as Hle.
  fold first in Hin, Hlt.
  destruct (last_subscript_reliable st t fuel first) as (l & E & Hend & Hl);
    [lia|].
  specialize (Hl Hin).
  unfold Exec.bind. rewrite E.
  assert (Hd : Py.isdigit l = false).
  { destruct (Py.isdigit l) eqn:Hd; [exfalso | reflexivity].
    destruct (Hch l Hl) as [Hl0 Hcan]. specialize (Hcan Hd).
    pose proof (order_end st ["^DPT"] l b Hne Hend Hb) as Ha.
    rewrite GlobalsProps.after_nonempty in Ha by assumption.
    unfold Globals.coll_ltb, Globals.collation_key in Ha.
    rewrite Hbn in Ha.
    destruct (Globals.canonical_numeric l);
      [discriminate Ha | now apply Hcan]. }
  rewrite Hd, andb_false_r. reflexivity.
Qed.

Lemma get_next_dfn_with_name_index_witness :
  _get_next_dfn Session.iris 5 (Session.mkworld Scenario.store_after_doe 0 None)
  = Some (Ok 1, Session.mkworld Scenario.store_after_doe 0 None).
Proof.
  apply (get_next_dfn_with_name_index Scenario.store_after_doe 0 5%nat "B").
  - simpl. lia.
  - intros c Hc. simpl in Hc.
    destruct Hc as [<-|[<-|[]]]; split;
      first [ discriminate | intros _; vm_compute; discriminate ].
  - simpl. now left.
  - reflexivity.
Defined.

(** The failing input of C1: [create_patient] files the first patient of an
    empty store under DFN 1 and writes the name index [^DPT("B", ...)]; the
    top level of [^DPT] is then 1, "B", the scan of [_get_next_dfn] ends on
    "B", which is no number, and the next DFN is 1 again, not 2: the second
    patient is filed over the first. *)
Lemma get_next_dfn_after_first_patient :
  create_patient Session.iris 5 Scenario.doe_data (Session.reliable [])
  = Some (Ok Scenario.doe_created, Session.reliable Scenario.store_after_doe)
  /\
  Globals.order_walk 3 Scenario.store_after_doe ["^DPT"] ""
  = ["1"; "B"; ""] /\
  _get_next_dfn Session.iris 5 (Session.reliable Scenario.store_after_doe)
  = Some (Ok 1, Session.reliable Scenario.store_after_doe) /\
  exists w,
    create_patient Session.iris 5 Scenario.roe_data
      (Session.reliable Scenario.store_after_doe)
    = Some (Ok Scenario.roe_created, w) /\
    Globals.get (Session.globals w) ["^DPT"; "1"; "0"]
    = Some "Roe,Jane^987654321^2801231^F^^^".
Proof.
  split; [vm_compute; reflexivity|].
  split; [vm_compute; reflexivity|].
  split; [vm_compute; reflexivity|].
  eexists. split; vm_compute; reflexivity.
Qed.

(** Without a name index the scan ends on the greatest DFN and the next DFN
    is one more. *)
Lemma get_next_dfn_no_index :
  _get_next_dfn Session.iris 5 (Session.reliable Scenario.store_no_index)
  = Some (Ok 3, Session.reliable Scenario.store_no_index).
Proof. vm_compute. reflexivity. Qed.

(** When the scan fails, here on a lost connection, the DFN is derived from
    the clock. *)
Lemma get_next_dfn_fallback :
  _get_next_dfn Session.iris 5
    (Session.mkworld Scenario.store_no_index 1234567890123 (Some 0%nat))
  = Some (Ok 890123,
          Session.mkworld Scenario.store_no_index 1234567890123 (Some 0%nat)).
Proof. vm_compute. reflexivity. Qed.

End NextDfnProps.

(** * Further properties of the sources *)

(** ** Dictionaries, continued *)

Lemma dict_get_set_other {V : Type} (k k' : string) (v : V) (d : Dict.t V) :
  k' <> k -> Dict.get k' (Dict.set k v d) = Dict.get k' d.
Proof.
  intros Hne. induction d as [|[k0 v0] d IH]; simpl.
  - destruct (String.eqb_spec k k'); [congruence | reflexivity].
  - destruct (String.eqb_spec k0 k) as [->|Hk]; simpl.
    + destruct (String.eqb_spec k k'); [congruence|].
      destruct (String.eqb_spec k k'); [congruence | reflexivity].
    + destruct (String.eqb_spec k0 k'); [reflexivity | exact IH].
Qed.

Lemma dict_pop_set {V : Type} (k : string) (v : V) (d : Dict.t V) :
  Dict.pop k (Dict.set k v d) = Dict.pop k d.
Proof.
  induction d as [|[k0 v0] d IH]; simpl.
  - now rewrite String.eqb_refl.
  - destruct (String.eqb k0 k) eqn:E; simpl.
    + now rewrite String.eqb_refl.
    + now rewrite E, IH.
Qed.

Lemma dict_pop_absent {V : Type} (k : string) (d : Dict.t V) :
  Dict.get k d = None -> Dict.pop k d = d.
Proof.
  induction d as [|[k0 v0] d IH]; simpl; [reflexivity|].
  destruct (String.eqb k0 k); [discriminate|].
  intros H. now rewrite IH.
Qed.

Lemma dict_get_pop_other {V : Type} (k k' : string) (d : Dict.t V) :
  k' <> k -> Dict.get k' (Dict.pop k d) = Dict.get k' d.
Proof.
  intros Hne. induction d as [|[k0 v0] d IH]; simpl; [reflexivity|].
  destruct (String.eqb_spec k0 k) as [->|Hk]; simpl.
  - destruct (String.eqb_spec k k'); [congruence | exact IH].
  - destruct (String.eqb_spec k0 k'); [reflexivity | exact IH].
Qed.

Lemma dict_keys_set {V : Type} (k : string) (v : V) (d : Dict.t V) :
  Dict.keys (Dict.set k v d) =
  if Dict.mem k d then Dict.keys d else (Dict.keys d ++ [k])%list.
Proof.
  unfold Dict.mem, Dict.keys.
  induction d as [|[k0 v0] d IH]; simpl; [reflexivity|].
  destruct (String.eqb_spec k0 k) as [->|Hk]; simpl; [reflexivity|].
  rewrite IH. now destruct (Dict.get k d).
Qed.

(** ** [BaseAdapter] and [MockAdapter], continued *)

Module MockProps.

(** X1: [_normalize_global_name] fails on the empty name only; otherwise
    its answer carries the sigil, is the name itself when it had the sigil
    already, and is left as it is by a second normalization. *)
Theorem normalize_global_name_idempotent (g : string) :
  (g = "" ->
   BaseAdapter._normalize_global_name g
   = Raise (mkexn ValueError "Global name cannot be empty")) /\
  (g <> "" ->
   exists n,
     BaseAdapter._normalize_global_name g = Ok n /\
     Py.startswith n "^" = true /\
     (Py.startswith g "^" = true -> n = g) /\
     BaseAdapter._normalize_global_name n = Ok n).
Proof.
  split.
  - intros ->. reflexivity.
  - intros Hne. unfold BaseAdapter._normalize_global_name.
    apply String.eqb_neq in Hne. rewrite Hne.
    destruct (Py.startswith g "^") eqn:Hs.
    + exists g. rewrite Hne, Hs. repeat split; reflexivity.
    + exists ("^" ++ g). split; [reflexivity|].
      assert (Hp : Py.startswith ("^" ++ g) "^" = true)
        by (destruct g; reflexivity).
      split; [exact Hp|]. split; [discriminate|].
      simpl. simpl in Hp. now rewrite Hp.
Qed.

Lemma normalize_global_name_idempotent_witness :
  BaseAdapter._normalize_global_name "DPT" = Ok "^DPT" /\
  BaseAdapter._normalize_global_name "^DPT" = Ok "^DPT".
Proof.
  destruct (normalize_global_name_idempotent "DPT") as [_ H].
  destruct H as (n & E & _ & _ & E'); [discriminate|].
  simpl in E. injection E as <-.
  split; [reflexivity | exact E'].
Defined.

(** X2: in the mock, after a non-empty value is written at a path, it is
    read back from that path, the path counts as defined, and every other
    key of the dictionary holds what it held. *)
Theorem mock_set_then_get (d d' : MockAdapter.data) (v g : string)
    (subs : list string) (b : bool) :
  v <> "" ->
  MockAdapter.set_global v g subs d = Ok (d', b) ->
  b = true /\
  MockAdapter.get_global d' g subs = Ok (Some v) /\
  MockAdapter.data_global d' g subs = Ok 1 /\
  forall key key',
    MockAdapter._build_key g subs = Ok key -> key' <> key ->
    Dict.get key' d' = Dict.get key' d.
Proof.
  intros Hv H. unfold MockAdapter.set_global in H.
  unfold MockAdapter.get_global, MockAdapter.data_global.
  destruct (MockAdapter._build_key g subs) as [key|e]; [|discriminate].
  apply String.eqb_neq in Hv. rewrite Hv in H. simpl in H.
  injection H as <- <-.
  unfold Dict.mem. rewrite dict_get_set.
  repeat split.
  intros k k' E Hne. injection E as <-. now apply dict_get_set_other.
Qed.

Lemma mock_set_then_get_witness :
  MockAdapter.get_global [("^G(1)", "x")] "G" ["1"] = Ok (Some "x").
Proof.
  apply (mock_set_then_get [] [("^G(1)", "x")] "x" "G" ["1"] true).
  - discriminate.
  - reflexivity.
Defined.

Lemma test_key_built (now_s : Z) :
  MockAdapter._build_key (MockAdapter.test_key now_s) ["connection"]
  = Ok (MockAdapter.test_key now_s ++ "(connection)").
Proof. reflexivity. Qed.

(** X3: the connection test of a connected mock always succeeds, and it
    leaves the dictionary without the key of its test node, every other
    entry in place: the dictionary is as before when it did not hold that
    key. *)
Theorem mock_test_connection (now_s : Z) (d : MockAdapter.data) :
  let key := MockAdapter.test_key now_s ++ "(connection)" in
  MockAdapter.test_connection true now_s d =
  (BaseAdapter.mkConnectionResult true "Connection successful" None None,
   Dict.pop key d) /\
  (Dict.get key d = None ->
   snd (MockAdapter.test_connection true now_s d) = d).
Proof.
  intros key.
  assert (E : MockAdapter.test_connection true now_s d =
              (BaseAdapter.mkConnectionResult true "Connection successful"
                 None None, Dict.pop key d)).
  { unfold MockAdapter.test_connection, MockAdapter.set_global,
      MockAdapter.get_global.
    rewrite test_key_built. cbn [negb String.eqb].
    fold key. rewrite dict_get_set, dict_pop_set. reflexivity. }
  split; [exact E|].
  intros Habs. rewrite E. simpl. now apply dict_pop_absent.
Qed.

Lemma mock_test_connection_witness :
  snd (MockAdapter.test_connection true 1700000000 [("^G(1)", "x")])
  = [("^G(1)", "x")].
Proof.
  apply (mock_test_connection 1700000000 [("^G(1)", "x")]). reflexivity.
Defined.

End MockProps.

(** ** [AdapterRegistry], continued *)

Module RegistryMoreProps.
Import AdapterRegistry.

(** X4: registration under a name makes that name answer the class just
    registered, whatever was registered under it before; the other names
    answer as before; a name that was registered keeps its place in the
    order of registration and a new one goes last. *)
Theorem register_then_get_adapter_class (name cls descr ver : string)
    (prio : Z) (auto : bool) (a : adapters) :
  let a' := register_adapter name cls descr ver prio auto a in
  get_adapter_class name a' = Some cls /\
  (forall other, other <> name ->
                 get_adapter_class other a' = get_adapter_class other a) /\
  Dict.keys a' =
  (if Dict.mem name a then Dict.keys a else Dict.keys a ++ [name])%list.
Proof.
  cbv zeta. unfold register_adapter, get_adapter_class.
  rewrite dict_get_set. split; [reflexivity|]. split.
  - intros other Hne. now rewrite dict_get_set_other.
  - apply dict_keys_set.
Qed.

(** An entry open to auto-detection whose priority is above that of every
    other entry open to it is the one auto-detection answers. *)
Lemma auto_detect_strict_maximum (before later : adapters) (name : string)
    (info : adapter_info) :
  auto_detect info = true ->
  Forall (fun ni => auto_detect (snd ni) = true ->
                    priority (snd ni) < priority info) before ->
  Forall (fun ni => auto_detect (snd ni) = true ->
                    priority (snd ni) < priority info) later ->
  _auto_detect_adapter (before ++ (name, info) :: later)%list = Ok name.
Proof.
  intros Hauto Hb Hl. unfold _auto_detect_adapter.
  set (a := (before ++ (name, info) :: later)%list).
  set (f := fun ni : string * adapter_info => auto_detect (snd ni)).
  assert (Hin : In (name, info) (filter f a)).
  { apply filter_In. split; [apply in_elt | exact Hauto]. }
  destruct (filter f a) as [|h t] eqn:Hf; [contradiction|].
  destruct (RegistryProps.sort_desc_head (h :: t)) as
    (x & r & pre & post & Hs & Hdec & Hpre & Hpost); [discriminate|].
  rewrite Hs.
  assert (Hx : In x (filter f a)).
  { rewrite Hf, Hdec. apply in_elt. }
  apply filter_In in Hx as [Hxa Hxf].
  assert (Hlow : x = (name, info) \/ priority (snd x) < priority info).
  { unfold a in Hxa. apply in_app_or in Hxa as [Hx|[Hx|Hx]].
    - right. rewrite Forall_forall in Hb. now apply Hb.
    - now left.
    - right. rewrite Forall_forall in Hl. now apply Hl. }
  destruct Hlow as [->|Hlow]; [reflexivity|].
  exfalso. rewrite Hdec in Hin.
  apply in_app_or in Hin as [Hin|[Hin|Hin]].
  - rewrite Forall_forall in Hpre. specialize (Hpre _ Hin). simpl in Hpre.
    lia.
  - subst x. simpl in Hlow. lia.
  - rewrite Forall_forall in Hpost. specialize (Hpost _ Hin).
    simpl in Hpost. lia.
Qed.

(** X5: [create_adapter] with a name other than "auto_detect" instantiates
    the class registered last under that name, and raises [ValueError] when
    the name is not registered; with "auto_detect" it raises the
    [RuntimeError] of the auto-detection when no entry is open to it. *)
Theorem create_adapter_resolution {A : Type}
    (instantiate : string -> result A) (a : adapters) (name : string) :
  name <> "auto_detect" ->
  (forall cls descr ver prio auto,
      create_adapter instantiate name
        (register_adapter name cls descr ver prio auto a)
      = instantiate cls) /\
  (Dict.get name a = None ->
   create_adapter instantiate name a =
   Raise (mkexn ValueError
            ("Unknown adapter: " ++ name ++ ". Available: " ++
             repr_names (Dict.keys a)))) /\
  (Forall (fun ni => auto_detect (snd ni) = false) a ->
   create_adapter instantiate "auto_detect" a =
   Raise (mkexn RuntimeError "No adapters available for auto-detection")).
Proof.
  intros Hne. apply String.eqb_neq in Hne.
  split; [|split].
  - intros cls descr ver prio auto.
    unfold create_adapter, get_adapter_class, register_adapter.
    now rewrite Hne, dict_get_set.
  - intros Habs. unfold create_adapter, get_adapter_class.
    now rewrite Hne, Habs.
  - intros Hnone. unfold create_adapter, _auto_detect_adapter.
    cbn [String.eqb Ascii.eqb Bool.eqb].
    assert (E : filter (fun ni => auto_detect (snd ni)) a = []).
    { induction Hnone as [|x l Hx _ IH]; simpl; [reflexivity|].
      now rewrite Hx. }
    now rewrite E.
Qed.

Lemma create_adapter_resolution_witness :
  create_adapter (fun cls => Ok cls) "iris_native"
    Scenario.registry_imported = Ok "IRISNativeAdapter".
Proof.
  destruct (create_adapter_resolution (fun cls => Ok cls)
              (register_adapter "mock" "MockAdapter"
                 "Mock adapter for testing" "1.0.0" 1000 true [])
              "iris_native") as [H _]; [discriminate|].
  apply H.
Defined.

(** X6: with the registrations the modules make when they are imported,
    the mock at priority 1000 and after it adapters open to auto-detection
    at lower priorities, auto-detection answers the mock. *)
Theorem auto_detect_answers_mock (later : adapters) :
  Forall (fun ni => auto_detect (snd ni) = true ->
                    priority (snd ni) < 1000) later ->
  _auto_detect_adapter
    (("mock", mkinfo "MockAdapter" "Mock adapter for testing" "1.0.0" 1000
                true) :: later) = Ok "mock" /\
  _auto_detect_adapter Scenario.registry_imported = Ok "mock".
Proof.
  intros H. split; [|reflexivity].
  apply (auto_detect_strict_maximum [] later); [reflexivity | constructor |].
  exact H.
Qed.

Lemma auto_detect_answers_mock_witness :
  _auto_detect_adapter
    [("mock", mkinfo "MockAdapter" "Mock adapter for testing" "1.0.0" 1000
                true);
     ("iris_native", mkinfo "IRISNativeAdapter" "" "1.0.0" 100 true)]
  = Ok "mock".
Proof.
  apply (auto_detect_answers_mock
           [("iris_native", mkinfo "IRISNativeAdapter" "" "1.0.0" 100 true)]).
  constructor; [simpl; lia | constructor].
Defined.

End RegistryMoreProps.

(** ** [IRISNativeAdapter], continued *)

Module NativeAdapterProps.
Import IRISNativeAdapter.

Lemma globals_get_set_other (v : string) (p q : Globals.path)
    (st : Globals.store) :
  q <> p -> Globals.get (Globals.set v p st) q = Globals.get st q.
Proof.
  intros Hne. unfold Globals.set. simpl.
  unfold Globals.path_eqb at 1.
  destruct (list_eq_dec string_dec p q) as [E|_]; [congruence|].
  unfold Globals.remove.
  induction st as [|[k x] st IH]; simpl; [reflexivity|].
  unfold Globals.path_eqb at 1.
  destruct (list_eq_dec string_dec k p) as [->|Hk]; simpl.
  - unfold Globals.path_eqb at 2.
    destruct (list_eq_dec string_dec p q); [congruence | exact IH].
  - now rewrite IH.
Qed.

(** X7: through a connected adapter, [set_global] never raises, whatever
    the SDK does (a failure is answered [False]); on a connection that
    never drops, a non-empty value written is the value [get_global] reads
    back. *)
Theorem native_set_then_get :
  (forall (S : Type) (b : backend S) v g subs s,
      exists r s',
        set_global b Scenario.connected_adapter v g subs s
        = Some (Ok r, s')) /\
  (forall (st : Globals.store) (t : Z) v g subs w',
      v <> "" ->
      set_global Session.iris Scenario.connected_adapter v g subs
        (Session.mkworld st t None) = Some (Ok true, w') ->
      get_global Session.iris Scenario.connected_adapter g subs w'
      = Some (Ok (Some v), w')).
Proof.
  split.
  - intros S b v g subs s. unfold set_global.
    cbn [Scenario.connected_adapter connected has_iris_native negb orb].
    unfold_exec.
    repeat break_inner; eexists; eexists; reflexivity.
  - intros st t v g subs w' Hv H.
    unfold set_global, get_global in *.
    cbn [Scenario.connected_adapter connected has_iris_native negb orb] in *.
    unfold_exec. unfold BaseAdapter._validate_subscripts in *.
    destruct (BaseAdapter._normalize_global_name g) as [n|e];
      [|discriminate].
    cbn in H. injection H as <-.
    cbn. rewrite EmptyValueProps.path_eqb_refl.
    apply String.eqb_neq in Hv. now rewrite Hv.
Qed.

Lemma native_set_then_get_witness :
  get_global Session.iris Scenario.connected_adapter "G" ["1"]
    (Session.mkworld [(["^G"; "1"], "x")] 0 None)
  = Some (Ok (Some "x"), Session.mkworld [(["^G"; "1"], "x")] 0 None).
Proof.
  destruct native_set_then_get as [_ H].
  apply (H [] 0 "x" "G" ["1"]); [discriminate | reflexivity].
Defined.

(** X8: through a connected adapter, [order_global] never raises: an
    exception of the SDK is answered as absent, like the end of the level.
    On a connection that never drops it answers the next subscript of the
    level in collation order, absent at the end; on a lost connection it
    answers absent. *)
Theorem native_order_global :
  (forall (S : Type) (b : backend S) g subs s,
      exists r s',
        order_global b Scenario.connected_adapter g subs s
        = Some (Ok r, s')) /\
  (forall (st : Globals.store) (t : Z) g n parent x,
      BaseAdapter._normalize_global_name g = Ok n ->
      order_global Session.iris Scenario.connected_adapter g
        (parent ++ [x])%list (Session.mkworld st t None)
      = Some (Ok (if (Globals.order st (n :: parent) x =? "")%string
                  then None
                  else Some (Globals.order st (n :: parent) x)),
              Session.mkworld st t None)) /\
  (forall (st : Globals.store) (t : Z) g subs,
      order_global Session.iris Scenario.connected_adapter g subs
        (Session.mkworld st t (Some 0%nat))
      = Some (Ok None, Session.mkworld st t (Some 0%nat))).
Proof.
  split; [|split].
  - intros S b g subs s. unfold order_global.
    cbn [Scenario.connected_adapter connected has_iris_native negb orb].
    unfold_exec.
    repeat break_inner; eexists; eexists; reflexivity.
  - intros st t g n parent x Hn. unfold order_global.
    cbn [Scenario.connected_adapter connected has_iris_native negb orb].
    unfold_exec. unfold BaseAdapter._validate_subscripts. rewrite Hn.
    rewrite app_comm_cons, removelast_last, last_last.
    reflexivity.
  - intros st t g subs. unfold order_global.
    cbn [Scenario.connected_adapter connected has_iris_native negb orb].
    unfold_exec.
    destruct (BaseAdapter._normalize_global_name g); reflexivity.
Qed.

Lemma native_order_global_witness :
  order_global Session.iris Scenario.connected_adapter "G" ["2"]
    (Session.mkworld Scenario.store_1_2_10_A 0 None)
  = Some (Ok (Some "10"), Session.mkworld Scenario.store_1_2_10_A 0 None).
Proof.
  destruct native_order_global as (_ & H & _).
  apply (H Scenario.store_1_2_10_A 0 "G" "^G" [] "2"). reflexivity.
Defined.

End NativeAdapterProps.

(** ** Computations that end, computations that never raise *)

Module OutcomeProps.
Import Outcome.

Lemma total_ret {S A : Type} (a : A) : total (@Exec.ret S A a).
Proof. intros s. now exists (Ok a), s. Qed.

Lemma total_raise {S A : Type} (k : exn_kind) (m : string) :
  total (@Exec.raise S A k m).
Proof. intros s. now exists (Raise (mkexn k m)), s. Qed.

Lemma total_lift {S A : Type} (r : result A) : total (@Exec.lift S A r).
Proof. intros s. now exists r, s. Qed.

Lemma total_bind {S A B : Type} (c : Exec.M S A) (k : A -> Exec.M S B) :
  total c -> (forall a, total (k a)) -> total (Exec.bind c k).
Proof.
  intros Hc Hk s. unfold Exec.bind.
  destruct (Hc s) as ([a|e] & s' & E); rewrite E.
  - apply Hk.
  - now exists (Raise e), s'.
Qed.

Lemma total_try {S A : Type} (c : Exec.M S A) (h : exn -> Exec.M S A) :
  total c -> (forall e, total (h e)) -> total (Exec.try_except c h).
Proof.
  intros Hc Hh s. unfold Exec.try_except.
  destruct (Hc s) as ([a|e] & s' & E); rewrite E.
  - now exists (Ok a), s'.
  - apply Hh.
Qed.

Lemma total_attempt {S A : Type} (c : Exec.M S A) :
  total c -> Outcome.safe (Exec.attempt c).
Proof.
  intros Hc s. unfold Exec.attempt.
  destruct (Hc s) as (r & s' & E). rewrite E. now exists r, s'.
Qed.

Lemma safe_ret {S A : Type} (a : A) : safe (@Exec.ret S A a).
Proof. intros s. now exists a, s. Qed.

Lemma safe_total {S A : Type} (c : Exec.M S A) : safe c -> total c.
Proof. intros H s. destruct (H s) as (a & s' & E). now exists (Ok a), s'. Qed.

Lemma safe_bind {S A B : Type} (c : Exec.M S A) (k : A -> Exec.M S B) :
  safe c -> (forall a, safe (k a)) -> safe (Exec.bind c k).
Proof.
  intros Hc Hk s. unfold Exec.bind.
  destruct (Hc s) as (a & s' & E). rewrite E. apply Hk.
Qed.

(** A [try] whose handler never raises never raises. *)
Lemma safe_try {S A : Type} (c : Exec.M S A) (h : exn -> Exec.M S A) :
  total c -> (forall e, safe (h e)) -> safe (Exec.try_except c h).
Proof.
  intros Hc Hh s. unfold Exec.try_except.
  destruct (Hc s) as ([a|e] & s' & E); rewrite E.
  - now exists a, s'.
  - apply Hh.
Qed.

Lemma total_sdk {S : Type} (b : backend S) :
  (forall p, total (Sdk.isDefined b p)) /\
  (forall p, total (Sdk.get b p)) /\
  (forall p x, total (Sdk.order b p x)) /\
  (forall v p, total (Sdk.set b v p)).
Proof.
  repeat split; intros; intros s;
    unfold Sdk.isDefined, Sdk.get, Sdk.order, Sdk.set;
    match goal with
    | |- context [Some ?x] => destruct x as [r s']
    end; now exists r, s'.
Qed.

Lemma safe_time {S : Type} (b : backend S) : safe (Sdk.time_ms b).
Proof. intros s. now exists (clock_ms b s), s. Qed.

(** A [try] whose handler raises [QueryError] with a message that starts
    with [prefix] raises nothing else. *)
Lemma try_raises_only_query {S A : Type} (prefix : string)
    (c : Exec.M S A) (h : exn -> Exec.M S A) :
  (forall e s, exists m,
      h e s = Some (Raise (mkexn QueryError m), s) /\
      Py.startswith m prefix = true) ->
  raises_only_query prefix (Exec.try_except c h).
Proof.
  intros Hh s e s' H. unfold Exec.try_except in H.
  destruct (c s) as [[[a|e0] s0]|]; try discriminate.
  destruct (Hh e0 s0) as (m & E & Hm). rewrite E in H.
  injection H as <- <-. now split.
Qed.

End OutcomeProps.

Ltac totality :=
  repeat first
    [ apply OutcomeProps.total_ret | apply OutcomeProps.total_raise
    | apply OutcomeProps.total_lift | apply OutcomeProps.total_sdk
    | apply OutcomeProps.safe_total, OutcomeProps.safe_time
    | apply OutcomeProps.total_try; [|intros ?]
    | apply OutcomeProps.total_bind; [|intros ?] ].

Module NativeTestProps.
Import IRISNativeAdapter Outcome OutcomeProps.

Lemma total_set_global {S : Type} (b : backend S) self v g subs :
  total (set_global b self v g subs).
Proof. unfold set_global. destruct (_ || _); totality. Qed.

Lemma total_get_global {S : Type} (b : backend S) self g subs :
  total (get_global b self g subs).
Proof. unfold get_global. destruct (_ || _); totality. Qed.

(** X9: [test_connection] never raises, connected or not, whatever the SDK
    does.  On a connection that never drops it succeeds, and its cleanup
    write leaves the test node in the store, holding the empty string,
    every other node as it was. *)
Theorem native_test_connection :
  (forall (S : Type) (b : backend S) self, safe (test_connection b self)) /\
  (forall (st : Globals.store) (t : Z),
      let node := ["^FILEBOT_TEST_" ++ Py.str (t / 1000); "connection"] in
      exists r st',
        test_connection Session.iris Scenario.connected_adapter
          (Session.mkworld st t None)
        = Some (Ok r, Session.mkworld st' t None) /\
        BaseAdapter.success r = true /\
        Globals.get st' node = Some "" /\
        forall p, p <> node -> Globals.get st' p = Globals.get st p).
Proof.
  split.
  - intros S b self. unfold test_connection.
    assert (Hf : forall m,
               safe (now <- Sdk.time_ms b;;
                     Exec.ret (BaseAdapter.mkConnectionResult false m None
                                 (Some now)))%exec)
      by (intros m; apply safe_bind;
          [apply safe_time | intros; apply safe_ret]).
    destruct (negb (connected self)); [apply Hf|].
    apply safe_try; [|intros e; apply Hf].
    apply total_bind; [apply safe_total, safe_time | intros now].
    apply total_bind; [apply safe_total, safe_time | intros start].
    apply total_bind; [apply total_set_global | intros _].
    apply total_bind; [apply total_get_global | intros result].
    apply total_bind; [apply total_set_global | intros _].
    apply total_bind; [apply safe_total, safe_time | intros end_time].
    apply safe_total.
    destruct result as [r|]; [|apply Hf].
    repeat match goal with
           | |- context [match ?x with _ => _ end] =>
               is_var x; destruct x; try apply Hf
           end.
    apply safe_ret.
  - intros st t node.
    set (g := "^FILEBOT_TEST_" ++ Py.str (t / 1000)) in *.
    assert (Hn : BaseAdapter._normalize_global_name g = Ok g)
      by reflexivity.
    unfold test_connection, set_global, get_global.
    cbn [Scenario.connected_adapter connected has_iris_native negb orb].
    unfold_exec. unfold BaseAdapter._validate_subscripts.
    run_session.
    change ("^FILEBOT_TEST_" ++ Py.str (t / 1000)) with g.
    rewrite Hn. run_session. fold node.
    rewrite EmptyValueProps.globals_get_set.
    cbn [String.eqb Ascii.eqb Bool.eqb].
    eexists. eexists. split; [reflexivity|].
    split; [reflexivity|]. split.
    + apply EmptyValueProps.globals_get_set.
    + intros p Hp.
      now rewrite !NativeAdapterProps.globals_get_set_other.
Qed.

Lemma native_test_connection_witness :
  exists r st',
    test_connection Session.iris Scenario.connected_adapter
      (Session.mkworld [] 1700000000123 None)
    = Some (Ok r, Session.mkworld st' 1700000000123 None) /\
    Globals.get st' ["^FILEBOT_TEST_1700000000"; "connection"] = Some "".
Proof.
  destruct native_test_connection as [_ H].
  destruct (H [] 1700000000123) as (r & st' & E & _ & Hg & _).
  exists r, st'. split; [exact E | exact Hg].
Defined.

(** X10: [validate_config] answers no error exactly when username and
    password are present, the port, when given, is an integer from 1 to
    65535, and the namespace, when given, is a string that is alphanumeric
    once its underscores and hyphens are removed; it never answers more
    than four errors. *)
Theorem validate_config_empty_iff (config : Dict.t pyval) :
  (validate_config config = [] <->
   (Dict.mem "username" config = true /\
    Dict.mem "password" config = true /\
    (forall port, Dict.get "port" config = Some port ->
                  port_ok port = true) /\
    (forall ns, Dict.get "namespace" config = Some ns ->
                namespace_ok ns = true))) /\
  (List.length (validate_config config) <= 4)%nat.
Proof.
  unfold validate_config. cbn [fold_left].
  destruct (Dict.mem "username" config);
    destruct (Dict.mem "password" config);
    destruct (Dict.get "port" config) as [port|];
    try destruct (port_ok port) eqn:Hport;
    destruct (Dict.get "namespace" config) as [ns|];
    try destruct (namespace_ok ns) eqn:Hns;
    cbn [negb app List.length];
    (split; [|lia]);
    (split;
     [ intros H; try discriminate H;
       repeat split; try reflexivity;
       intros v Hv; try discriminate Hv; injection Hv as <-; assumption
     | intros (Hu & Hp & Hport' & Hns');
       try discriminate Hu; try discriminate Hp;
       try (specialize (Hport' _ eq_refl); congruence);
       try (specialize (Hns' _ eq_refl); congruence);
       reflexivity ]).
Qed.

End NativeTestProps.

(** ** Pieces of a caret-delimited node *)

Module PieceProps.

Lemma prefix_empty (s : string) : prefix "" s = true.
Proof. destruct s; reflexivity. Qed.

Lemma prefix_append (p m : string) : prefix p (p ++ m) = true.
Proof.
  induction p as [|c p IH]; simpl; [apply prefix_empty|].
  destruct (ascii_dec c c) as [_|Hc]; [exact IH | contradiction].
Qed.

Lemma contains_append_r (sub a s : string) :
  Py.contains sub s = true -> Py.contains sub (a ++ s) = true.
Proof.
  intros H. induction a as [|c a IH]; simpl; [exact H|].
  rewrite IH. apply orb_true_r.
Qed.

Lemma split_on_nonempty (sep : ascii) (s : string) : Py.split_on sep s <> [].
Proof.
  induction s as [|c s IH]; simpl; [discriminate|].
  destruct (Ascii.eqb c sep); [discriminate|].
  destruct (Py.split_on sep s); discriminate.
Qed.

(** A string without the separator is a single piece. *)
Lemma split_on_no_sep (sep : ascii) (s : string) :
  Py.has_char sep s = false -> Py.split_on sep s = [s].
Proof.
  induction s as [|c s IH]; simpl; [reflexivity|].
  intros H. apply orb_false_iff in H as [Hc Hs].
  rewrite Hc, (IH Hs). reflexivity.
Qed.

Lemma split_on_append (sep : ascii) (a b : string) :
  Py.has_char sep a = false ->
  Py.split_on sep (a ++ String sep b) = a :: Py.split_on sep b.
Proof.
  induction a as [|c a IH]; simpl.
  - intros _. now rewrite Ascii.eqb_refl.
  - intros H. apply orb_false_iff in H as [Hc Hs].
    rewrite Hc, (IH Hs). reflexivity.
Qed.

(** Splitting what [join] made of pieces without the separator gives the
    pieces back. *)
Lemma split_on_join (sep : ascii) (l : list string) :
  l <> [] ->
  Forall (fun p => Py.has_char sep p = false) l ->
  Py.split_on sep (Py.join (String sep "") l) = l.
Proof.
  intros Hne Hall. induction Hall as [|p l Hp Hl IH]; [contradiction|].
  destruct l as [|q l].
  - simpl. now apply split_on_no_sep.
  - change (Py.join (String sep "") (p :: q :: l))
      with (p ++ String sep "" ++ Py.join (String sep "") (q :: l)).
    change (String sep "" ++ Py.join (String sep "") (q :: l))
      with (String sep (Py.join (String sep "") (q :: l))).
    rewrite split_on_append by assumption.
    now rewrite IH.
Qed.

(** A node holds the separator exactly when it has a second piece. *)
Lemma contains_sep_split (sep : ascii) (s : string) :
  Py.contains (String sep "") s
  = (1 <? List.length (Py.split_on sep s))%nat.
Proof.
  induction s as [|c s IH]; [reflexivity|].
  cbn [Py.contains Py.split_on prefix].
  destruct (ascii_dec sep c) as [<-|Hne].
  - rewrite prefix_empty, Ascii.eqb_refl. simpl.
    destruct (Py.split_on sep s) eqn:E; [|reflexivity].
    now apply split_on_nonempty in E.
  - assert (Hc : Ascii.eqb c sep = false)
      by (apply Ascii.eqb_neq; congruence).
    rewrite Hc, IH. cbn [orb].
    destruct (Py.split_on sep s) eqn:E; [|reflexivity].
    now apply split_on_nonempty in E.
Qed.

End PieceProps.

(** ** Patient records *)

Module PatientProps.
Import IrisNativeAdapter LookupProps.

Lemma or_empty (a : string) : (if truthy a then a else "") = a.
Proof.
  destruct (truthy a) eqn:E; [reflexivity|].
  unfold truthy in E. apply negb_false_iff in E.
  symmetry. now apply String.eqb_eq.
Qed.

Lemma isDefined_value (st : Globals.store) (p : Globals.path) (v : string) :
  Globals.get st p = Some v -> (Globals.isDefined st p =? 0) = false.
Proof.
  intros H. unfold Globals.isDefined. rewrite H.
  destruct (Globals.children st p); reflexivity.
Qed.

Lemma not_found_message (d : string) :
  Py.contains "not found" ("Patient " ++ d ++ " not found") = true.
Proof.
  apply (PieceProps.contains_append_r "not found" "Patient ").
  apply PieceProps.contains_append_r. reflexivity.
Qed.

Lemma lookup_decodes (st : Globals.store) (t : Z) (d node : string) :
  Globals.get st ["^DPT"; d; "0"] = Some node ->
  truthy node = true ->
  get_patient_demographics Session.iris d (Session.mkworld st t None)
  = Some (Ok (decode_patient d node (Globals.get st ["^DPT"; d; ".11"])),
          Session.mkworld st t None).
Proof.
  intros Hg Ht. unfold get_patient_demographics. unfold_exec. run_session.
  rewrite (isDefined_value _ _ _ Hg). run_session. rewrite Hg, Ht.
  run_session. unfold decode_patient.
  destruct (Globals.get st ["^DPT"; d; ".11"]) as [a|];
    cbn [value_or_empty]; [rewrite or_empty|]; reflexivity.
Qed.

(** X11: on a connection that never drops, the lookup of a DFN returns a
    record exactly when the demographic node holds a non-empty value, and
    the record is then the decoding of that node and of the address node;
    otherwise it raises [QueryError], with the message that the patient was
    not found when nothing at all is stored for the DFN. *)
Theorem lookup_reliable (st : Globals.store) (t : Z) (d : string) :
  let w := Session.mkworld st t None in
  match Globals.get st ["^DPT"; d; "0"] with
  | Some node =>
      if truthy node then
        get_patient_demographics Session.iris d w
        = Some (Ok (decode_patient d node
                      (Globals.get st ["^DPT"; d; ".11"])), w)
      else
        exists m,
          get_patient_demographics Session.iris d w
          = Some (Raise (mkexn QueryError m), w)
  | None =>
      exists m,
        get_patient_demographics Session.iris d w
        = Some (Raise (mkexn QueryError m), w) /\
        (Globals.children st ["^DPT"; d; "0"] = [] ->
         m = "Patient " ++ d ++ " not found")
  end.
Proof.
  intros w. unfold w, get_patient_demographics. unfold_exec. run_session.
  destruct (Globals.get st ["^DPT"; d; "0"]) as [node|] eqn:Hg.
  - destruct (truthy node) eqn:Ht.
    + fold (get_patient_demographics Session.iris d).
      change (get_patient_demographics Session.iris d
                (Session.mkworld st t None) =
              Some (Ok (decode_patient d node
                          (Globals.get st ["^DPT"; d; ".11"])),
                    Session.mkworld st t None)).
      now apply lookup_decodes.
    + rewrite (isDefined_value _ _ _ Hg). run_session. rewrite Hg, Ht.
      cbn [msg]. break_inner; eexists; reflexivity.
  - destruct (Globals.isDefined st ["^DPT"; d; "0"] =? 0) eqn:Hd.
    + cbn [msg]. rewrite not_found_message. eexists. split; [reflexivity|]. reflexivity.
    + run_session. rewrite Hg.
      unfold Globals.isDefined in Hd. rewrite Hg in Hd.
      cbn [msg].
      break_inner; eexists; (split; [reflexivity|]);
        intros Hc; rewrite Hc in Hd; discriminate.
Qed.

Lemma has_char_append (c : ascii) (a b : string) :
  Py.has_char c (a ++ b) = Py.has_char c a || Py.has_char c b.
Proof.
  induction a as [|x a IH]; simpl; [reflexivity|].
  now rewrite IH, orb_assoc.
Qed.

Lemma all_digits_no_caret (s : string) :
  Py.all_digits s = true -> Py.has_char "^" s = false.
Proof.
  induction s as [|c s IH]; simpl; [reflexivity|].
  intros H. apply andb_true_iff in H as [Hc Hs]. rewrite (IH Hs).
  destruct (Ascii.eqb_spec c "^") as [->|_]; [discriminate Hc | reflexivity].
Qed.

Lemma fromisoformat_valid (s : string) (dt : FileManDate.date) :
  FileManDate.fromisoformat s = Some dt -> FileManDate.valid_date dt.
Proof.
  unfold FileManDate.fromisoformat. intros H.
  repeat match type of H with
         | context [match ?x with _ => _ end] => destruct x eqn:?; try discriminate
         end.
  injection H as <-. assumption.
Qed.

Lemma year_offset_no_caret (y : Z) :
  0 <= y <= 9999 -> Py.has_char "^" (Py.format_d 3 (y - 1700)) = false.
Proof.
  intros H.
  apply negb_true_iff.
  apply (forallb_below
           (fun y => negb (Py.has_char "^" (Py.format_d 3 (y - 1700))))
           10000); [vm_compute; reflexivity | lia].
Qed.

Lemma format_fileman_date_no_caret (s : string) :
  Py.has_char "^" (FileManDate._format_fileman_date s) = false.
Proof.
  unfold FileManDate._format_fileman_date.
  destruct (s =? "")%string; [reflexivity|].
  destruct (FileManDate.fromisoformat _) as [dt|] eqn:E; [|reflexivity].
  apply fromisoformat_valid in E.
  destruct (FileManDateProps.valid_date_bounds dt E) as (Hy & Hm & Hd).
  rewrite !has_char_append, year_offset_no_caret by lia.
  rewrite !all_digits_no_caret; [reflexivity | |].
  - apply (format_d_2 (FileManDate.day dt)); lia.
  - apply (format_d_2 (FileManDate.month dt)); lia.
Qed.

Lemma get_next_dfn_reliable (st : Globals.store) (t : Z) (fuel : nat) :
  (List.length st < fuel)%nat ->
  exists n,
    _get_next_dfn Session.iris fuel (Session.mkworld st t None)
    = Some (Ok n, Session.mkworld st t None).
Proof.
  intros Hf. unfold _get_next_dfn, Exec.try_except.
  unfold Exec.bind at 1. unfold Sdk.order. run_session.
  set (first := Globals.order st ["^DPT"] "").
  assert (Hr : (Globals.rank st ["^DPT"] first < fuel)%nat).
  { pose proof (GlobalsProps.rank_le st ["^DPT"] first). lia. }
  destruct (NextDfnProps.last_subscript_reliable st t fuel first Hr)
    as (l & E & _ & _).
  unfold Exec.bind. rewrite E.
  destruct (truthy l && Py.isdigit l) eqn:Hd; [|eexists; reflexivity].
  apply andb_true_iff in Hd as [Ht Hd].
  unfold Py.isdigit in Hd. apply andb_true_iff in Hd as [Hne Hall].
  destruct (int_all_digits l Hall) as [z Hz].
  { apply truthy_true. exact Ht. }
  rewrite Hz. eexists. reflexivity.
Qed.

Lemma truthy_append_char (a b : string) (c : ascii) :
  truthy (a ++ String c b) = true.
Proof. destruct a; reflexivity. Qed.

Lemma create_patient_reliable (st : Globals.store) (t : Z) (fuel : nat)
    (data : Dict.t string) :
  (List.length st < fuel)%nat ->
  exists n st',
    create_patient Session.iris fuel data (Session.mkworld st t None)
    = Some (Ok (decode_patient (Py.str n) (patient_node_of data)
                  (Globals.get st' ["^DPT"; Py.str n; ".11"])),
            Session.mkworld st' t None) /\
    Globals.get st' ["^DPT"; Py.str n; "0"] = Some (patient_node_of data) /\
    (address_given data = true ->
     Globals.get st' ["^DPT"; Py.str n; ".11"]
     = Some (address_node_of data)) /\
    (address_given data = false ->
     Globals.get st' ["^DPT"; Py.str n; ".11"]
     = Globals.get st ["^DPT"; Py.str n; ".11"]).
Proof.
  intros Hf.
  destruct (get_next_dfn_reliable st t fuel Hf) as [n En].
  exists n.
  unfold create_patient, Exec.try_except.
  unfold Exec.bind at 1. rewrite En.
  fold (patient_node_of data). fold (address_node_of data).
  fold (address_given data).
  set (node := patient_node_of data).
  set (d := Py.str n).
  set (P0 := ["^DPT"; d; "0"]).
  set (PA := ["^DPT"; d; ".11"]).
  assert (Hnode : truthy node = true) by apply truthy_append_char.
  assert (H0A : P0 <> PA) by (intros H; inversion H).
  assert (HA0 : PA <> P0) by (intros H; inversion H).
  unfold Exec.bind, Sdk.set, Exec.ret. run_session.
  fold P0.
  destruct (truthy (Py.upper (data_get data "name"))) eqn:Hname;
    destruct (address_given data) eqn:Haddr; try run_session; fold P0 PA;
    eexists;
    (rewrite (lookup_decodes _ t d node);
     [ | repeat (rewrite NativeAdapterProps.globals_get_set_other
                   by (intros H; inversion H));
         apply EmptyValueProps.globals_get_set
       | exact Hnode ]);
    (split; [reflexivity|]);
    (split;
     [ repeat (rewrite NativeAdapterProps.globals_get_set_other
                 by (intros H; inversion H));
       apply EmptyValueProps.globals_get_set |]);
    (split; intros Hx; try discriminate Hx);
    first
      [ apply EmptyValueProps.globals_get_set
      | now rewrite ?NativeAdapterProps.globals_get_set_other
          by (intros H; inversion H) ].
Qed.

(** X12: on a connection that never drops, [create_patient] always
    returns: it files the node built from the data under the DFN it
    allocated and answers the record read back from the store, whose name,
    social-security identifier and sex are those given, when they hold no
    caret, whose date of birth is the decoding of the encoded date, and
    whose address is the one given, when one is given without carets. *)
Theorem create_patient_returns_data (st : Globals.store) (t : Z)
    (fuel : nat) (data : Dict.t string) :
  (List.length st < fuel)%nat ->
  Forall (caret_free data) ["name"; "ssn"; "sex"] ->
  exists p st',
    create_patient Session.iris fuel data (Session.mkworld st t None)
    = Some (Ok p, Session.mkworld st' t None) /\
    Globals.get st' ["^DPT"; dfn p; "0"] = Some (patient_node_of data) /\
    name p = data_get data "name" /\
    ssn p = data_get data "ssn" /\
    sex p = data_get data "sex" /\
    dob p = FileManDate._parse_fileman_date
              (FileManDate._format_fileman_date (data_get data "dob")) /\
    (address_given data = true ->
     Forall (caret_free data) ["street"; "city"; "state"; "zip_code"] ->
     street p = data_get data "street" /\
     city p = data_get data "city" /\
     state p = data_get data "state" /\
     zip_code p = data_get data "zip_code").
Proof.
  intros Hf Hfree.
  destruct (create_patient_reliable st t fuel data Hf)
    as (n & st' & E & Hg & Ha & _).
  eexists. exists st'. split; [exact E|].
  split; [exact Hg|].
  assert (Hsplit : Py.split_on "^" (patient_node_of data) =
                   [ data_get data "name"; data_get data "ssn";
                     FileManDate._format_fileman_date (data_get data "dob");
                     data_get data "sex"; ""; ""; "" ]).
  { apply (PieceProps.split_on_join "^"); [discriminate|].
    inversion Hfree as [|? ? Hn H1]; subst.
    inversion H1 as [|? ? Hs H2]; subst.
    inversion H2 as [|? ? Hx _]; subst.
    repeat constructor; try assumption.
    apply format_fileman_date_no_caret. }
  unfold decode_patient. cbn [name ssn sex dob street city state zip_code].
  rewrite Hsplit.
  repeat (split; [reflexivity|]).
  intros Hgiven Hafree. rewrite (Ha Hgiven). cbn [value_or_empty].
  assert (Hasplit : Py.split_on "^" (address_node_of data) =
                    [ data_get data "street"; data_get data "city";
                      data_get data "state"; data_get data "zip_code" ]).
  { apply (PieceProps.split_on_join "^"); [discriminate|].
    inversion Hafree as [|? ? H1 T1]; subst.
    inversion T1 as [|? ? H2 T2]; subst.
    inversion T2 as [|? ? H3 T3]; subst.
    inversion T3 as [|? ? H4 _]; subst.
    repeat constructor; assumption. }
  rewrite Hasplit. repeat split.
Qed.

Lemma create_patient_returns_data_witness :
  exists p st',
    create_patient Session.iris 1 Scenario.doe_data (Session.mkworld [] 0 None)
    = Some (Ok p, Session.mkworld st' 0 None) /\
    name p = "Doe,John".
Proof.
  destruct (create_patient_returns_data [] 0 1%nat Scenario.doe_data)
    as (p & st' & E & _ & Hn & _).
  - simpl. lia.
  - repeat constructor.
  - exists p, st'. split; [exact E | exact Hn].
Defined.

End PatientProps.

(** ** Error wrapping and DFN allocation, continued *)

Module AllocationProps.
Import IrisNativeAdapter LookupProps Outcome.

Lemma raise_prefixed {W A : Type} (prefix : string) (e : exn) (s : W) :
  exists m,
    @Exec.raise W A QueryError (prefix ++ msg e) s
    = Some (Raise (mkexn QueryError m), s) /\
    Py.startswith m prefix = true.
Proof.
  exists (prefix ++ msg e). split; [reflexivity|].
  apply PieceProps.prefix_append.
Qed.

(** X13: whatever the SDK does, the search, the creation, the batch
    lookup, the clinical summary and the medication workflow raise nothing
    but [QueryError], with a message that starts with the name of the
    failing operation. *)
Theorem operations_raise_only_query_error {W : Type} (iris : backend W) :
  (forall fuel pattern,
      raises_only_query "Failed to search patients: "
        (search_patients_by_name iris fuel pattern)) /\
  (forall fuel data,
      raises_only_query "Failed to create patient: "
        (create_patient iris fuel data)) /\
  (forall dfn_list,
      raises_only_query "Failed to get patients batch: "
        (get_patients_batch iris dfn_list)) /\
  (forall fuel d,
      raises_only_query "Failed to get clinical summary: "
        (get_patient_clinical_summary iris fuel d)) /\
  (forall fuel d,
      raises_only_query "Medication workflow failed: "
        (medication_ordering_workflow iris fuel d)).
Proof.
  split; [|split; [|split; [|split]]]; intros;
    apply OutcomeProps.try_raises_only_query; intros e s;
    apply raise_prefixed.
Qed.

Lemma try_safe_handler {S A : Type} (c : Exec.M S A)
    (h : exn -> Exec.M S A) :
  (forall e, safe (h e)) ->
  forall s,
    match Exec.try_except c h s with
    | Some (Raise _, _) => False
    | _ => True
    end.
Proof.
  intros Hh s. unfold Exec.try_except.
  destruct (c s) as [[[a|e] s']|]; try exact I.
  destruct (Hh e s') as (a & s'' & E). now rewrite E.
Qed.

(** X14: whatever the SDK does, [_get_next_dfn] never raises; on a lost
    connection its answer is the clock in milliseconds modulo one
    million. *)
Theorem get_next_dfn_never_raises :
  (forall (W : Type) (iris : backend W) fuel s,
      match _get_next_dfn iris fuel s with
      | Some (Raise _, _) => False
      | _ => True
      end) /\
  (forall st t fuel,
      _get_next_dfn Session.iris fuel (Session.mkworld st t (Some 0%nat))
      = Some (Ok (t mod 1000000), Session.mkworld st t (Some 0%nat))).
Proof.
  split.
  - intros W iris fuel s. unfold _get_next_dfn.
    apply try_safe_handler. intros e.
    apply OutcomeProps.safe_bind;
      [apply OutcomeProps.safe_time | intros; apply OutcomeProps.safe_ret].
  - intros st t fuel. reflexivity.
Qed.

Lemma split_point_digits (s : string) :
  Py.all_digits s = true -> Globals.split_point s = (s, None).
Proof.
  induction s as [|c s IH]; simpl; [reflexivity|].
  intros H. apply andb_true_iff in H as [Hc Hs].
  destruct (Ascii.eqb_spec c ".") as [->|_]; [discriminate Hc|].
  now rewrite (IH Hs).
Qed.

(** The collation value of a digit string that is canonical is the number
    [int] reads. *)
Lemma canonical_digits (s : string) :
  Py.isdigit s = true -> Globals.canonical_numeric s <> None ->
  exists m, Py.int s = Some m /\ Globals.canonical_numeric s = Some (m # 1).
Proof.
  intros Hd Hc. pose proof Hd as Hd'. unfold Py.isdigit in Hd'.
  apply andb_true_iff in Hd' as [Hne Hall].
  assert (Hu : Globals.canonical_numeric s = Globals.unsigned_value true s).
  { destruct s as [|c s]; [reflexivity|]. simpl in Hall.
    apply andb_true_iff in Hall as [Hc0 _].
    unfold Globals.canonical_numeric.
    destruct c as [[] [] [] [] [] [] [] []]; try reflexivity.
    discriminate Hc0. }
  rewrite Hu in *. unfold Globals.unsigned_value in *.
  rewrite (split_point_digits s Hall) in *. rewrite Hd in *.
  cbn [andb] in *.
  destruct (negb (Py.startswith s "0") || (s =? "0")%string);
    [|contradiction].
  unfold Py.int, Globals.digits_value.
  apply negb_true_iff in Hne. rewrite Hne.
  destruct (int_acc_all_digits s Hall 0%N) as [k Hk]. rewrite Hk.
  simpl. eexists. split; reflexivity.
Qed.

(** X15: on a connection that never drops, when the top level of [^DPT]
    holds nothing [_get_next_dfn] answers 1, and when it holds only DFNs in
    canonical decimal form (no name index, no other global data) it answers
    one more than the greatest of them. *)
Theorem get_next_dfn_is_max_plus_one (st : Globals.store) (t : Z)
    (fuel : nat) :
  (List.length st < fuel)%nat ->
  (Globals.children st ["^DPT"] = [] ->
   _get_next_dfn Session.iris fuel (Session.mkworld st t None)
   = Some (Ok 1, Session.mkworld st t None)) /\
  (Globals.children st ["^DPT"] <> [] ->
   (forall c, In c (Globals.children st ["^DPT"]) ->
              Py.isdigit c = true /\ Globals.canonical_numeric c <> None) ->
   exists l m,
     In l (Globals.children st ["^DPT"]) /\
     Py.int l = Some m /\
     _get_next_dfn Session.iris fuel (Session.mkworld st t None)
     = Some (Ok (m + 1), Session.mkworld st t None) /\
     forall c k,
       In c (Globals.children st ["^DPT"]) -> Py.int c = Some k -> k <= m).
Proof.
  intros Hf. split.
  - intros Hnil.
    assert (Ho : forall x, Globals.order st ["^DPT"] x = "").
    { intros x. unfold Globals.order. now rewrite Hnil. }
    destruct fuel as [|fuel]; [lia|].
    unfold _get_next_dfn, Exec.try_except, Exec.bind, Sdk.order.
    run_session. cbn [last_subscript]. unfold Exec.bind, Sdk.order.
    run_session. rewrite !Ho. reflexivity.
  - intros Hnonempty Hch.
    assert (Hne : forall a, In a (Globals.children st ["^DPT"]) -> a <> "").
    { intros a Ha ->. destruct (Hch "" Ha) as [Hd _]. discriminate Hd. }
    set (first := Globals.order st ["^DPT"] "").
    assert (Hfirst : first <> "").
    { intros E.
      assert (Hex : exists c, In c (Globals.children st ["^DPT"])).
      { destruct (Globals.children st ["^DPT"]) as [|c cs];
          [contradiction | exists c; now left]. }
      destruct Hex as [c Hc].
      pose proof (NextDfnProps.order_end st ["^DPT"] "" c Hne E Hc) as H.
      discriminate H. }
    destruct (GlobalsProps.order_In st _ "" Hfirst) as [Hin _].
    pose proof (GlobalsProps.rank_order_lt st _ "" Hfirst) as Hlt.
    pose proof (GlobalsProps.rank_le st ["^DPT"] "") as Hle.
    fold first in Hin, Hlt.
    destruct (NextDfnProps.last_subscript_reliable st t fuel first)
      as (l & E & Hend & Hl); [lia|].
    specialize (Hl Hin).
    destruct (Hch l Hl) as [Hld Hlc].
    destruct (canonical_digits l Hld Hlc) as (m & Hm & Hkm).
    exists l, m. split; [exact Hl|]. split; [exact Hm|]. split.
    + unfold _get_next_dfn, Exec.try_except.
      unfold Exec.bind at 1. unfold Sdk.order. run_session. fold first.
      unfold Exec.bind. rewrite E, Hld, Hm.
      assert (Ht : truthy l = true).
      { unfold truthy. apply negb_true_iff. apply String.eqb_neq.
        now apply Hne. }
      rewrite Ht. reflexivity.
    + intros c k Hc Hk.
      destruct (Hch c Hc) as [Hcd Hcc].
      destruct (canonical_digits c Hcd Hcc) as (k' & Hk' & Hkc).
      rewrite Hk in Hk'. injection Hk' as <-.
      pose proof (NextDfnProps.order_end st ["^DPT"] l c Hne Hend Hc) as Ha.
      rewrite GlobalsProps.after_nonempty in Ha by (now apply Hne).
      unfold Globals.coll_ltb, Globals.collation_key in Ha.
      rewrite Hkm, Hkc in Ha. cbn [Globals.ckey_ltb] in Ha.
      unfold Qcompare in Ha. cbn [Qnum Qden] in Ha.
      rewrite !Z.mul_1_r in Ha.
      destruct (Z.compare_spec m k); [lia | discriminate Ha | lia].
Qed.

Lemma get_next_dfn_is_max_plus_one_witness :
  exists m,
    _get_next_dfn Session.iris 3
      (Session.mkworld Scenario.store_no_index 0 None)
    = Some (Ok (m + 1), Session.mkworld Scenario.store_no_index 0 None) /\
    2 <= m.
Proof.
  destruct (get_next_dfn_is_max_plus_one Scenario.store_no_index 0 3%nat)
    as [_ H]; [simpl; lia|].
  destruct H as (l & m & _ & _ & E & Hmax).
  - discriminate.
  - intros c Hc. simpl in Hc.
    destruct Hc as [<-|[<-|[]]]; split;
      first [ reflexivity | vm_compute; discriminate ].
  - exists m. split; [exact E|].
    apply (Hmax "2"); [simpl; auto | reflexivity].
Defined.

End AllocationProps.

(** ** The clinical walks, the summary and the workflow *)

Module WalkProps.
Import IrisNativeAdapter LookupProps Outcome.

Lemma field_0 (s d0 : string) :
  field 0 (Py.split_on "^" s) d0 = nth 0 (Py.split_on "^" s) "".
Proof.
  unfold field. destruct (Py.split_on "^" s) eqn:E; [|reflexivity].
  now apply PieceProps.split_on_nonempty in E.
Qed.

Lemma field_1 (s d0 : string) :
  field 1 (Py.split_on "^" s) d0
  = if Py.contains "^" s then nth 1 (Py.split_on "^" s) "" else d0.
Proof.
  unfold field. now rewrite (PieceProps.contains_sep_split "^" s).
Qed.

(** On a connection that never drops, the allergy loop of the workflow
    collects the name and the severity of what the allergy walk collects. *)
Lemma allergy_walk_agrees (st : Globals.store) (t : Z) (d : string)
    (fuel : nat) :
  forall ptr acc,
    (Globals.rank st ["^PS"; "55"; d; "AL"] ptr < fuel)%nat ->
    exists l,
      allergy_walk Session.iris fuel d ptr acc (Session.mkworld st t None)
      = Some (Ok l, Session.mkworld st t None) /\
      workflow_walk Session.iris fuel ["^PS"; "55"; d; "AL"] "Unknown" ptr
        (map allergy_pair acc) (Session.mkworld st t None)
      = Some (Ok (map allergy_pair l), Session.mkworld st t None).
Proof.
  induction fuel as [|fuel IH]; intros ptr acc Hr; [lia|].
  cbn [allergy_walk workflow_walk]. unfold_exec. run_session.
  cbn [app].
  set (y := Globals.order st ["^PS"; "55"; d; "AL"] ptr) in *.
  destruct (truthy y) eqn:Ty; cbn [negb]; [|eexists; split; reflexivity].
  apply truthy_true in Ty.
  pose proof (GlobalsProps.rank_order_lt st _ ptr Ty) as Hlt. fold y in Hlt.
  run_session.
  destruct (Globals.get st ["^PS"; "55"; d; "AL"; y; "0"]) as [v|];
    cbn [truthy_value value_or_empty].
  - destruct (truthy v).
    + destruct (IH y (acc ++ [mkAllergy (field 0 (Py.split_on "^" v) "")
                                (field 1 (Py.split_on "^" v) "Unknown")
                                (field 2 (Py.split_on "^" v) "")])%list)
        as (l & E1 & E2); [lia|].
      exists l. split; [exact E1|].
      rewrite map_app in E2. cbn [map allergy_pair allergy_name severity] in E2.
      rewrite field_0, field_1 in E2. exact E2.
    + apply IH. lia.
  - apply IH. lia.
Qed.

Lemma medication_walk_agrees (st : Globals.store) (t : Z) (d : string)
    (fuel : nat) :
  forall ptr acc,
    (Globals.rank st ["^PS"; "55"; d; "P"] ptr < fuel)%nat ->
    exists l,
      medication_walk Session.iris fuel d ptr acc (Session.mkworld st t None)
      = Some (Ok l, Session.mkworld st t None) /\
      workflow_walk Session.iris fuel ["^PS"; "55"; d; "P"] "" ptr
        (map medication_pair acc) (Session.mkworld st t None)
      = Some (Ok (map medication_pair l), Session.mkworld st t None).
Proof.
  induction fuel as [|fuel IH]; intros ptr acc Hr; [lia|].
  cbn [medication_walk workflow_walk]. unfold_exec. run_session.
  cbn [app].
  set (y := Globals.order st ["^PS"; "55"; d; "P"] ptr) in *.
  destruct (truthy y) eqn:Ty; cbn [negb]; [|eexists; split; reflexivity].
  apply truthy_true in Ty.
  pose proof (GlobalsProps.rank_order_lt st _ ptr Ty) as Hlt. fold y in Hlt.
  run_session.
  destruct (truthy_value (Globals.get st ["^PS"; "55"; d; "P"; y; "0"])).
  - set (v := value_or_empty
                (Globals.get st ["^PS"; "55"; d; "P"; y; "0"])) in *.
    destruct (IH y (acc ++ [mkMedication (field 0 (Py.split_on "^" v) "")
                              (field 1 (Py.split_on "^" v) "")
                              (field 2 (Py.split_on "^" v) "")])%list)
      as (l & E1 & E2); [lia|].
    exists l. split; [exact E1|].
    rewrite map_app in E2.
    cbn [map medication_pair medication_name dosage] in E2.
    rewrite field_0, field_1 in E2. exact E2.
  - apply IH. lia.
Qed.

(** The lab walk, whatever the SDK does: it never raises and keeps within
    the cap, every entry holding a result that is not empty. *)
Lemma lab_walk_capped {W : Type} (iris : backend W) (fuel : nat) :
  forall d ptr acc s,
    (List.length acc < lab_limit)%nat ->
    Forall lab_entry_ok acc ->
    match lab_walk iris fuel d ptr acc s with
    | Some (Raise _, _) => False
    | Some (Ok l, _) =>
        (List.length l <= lab_limit)%nat /\
        Forall lab_entry_ok l
    | None => True
    end.
Proof.
  induction fuel as [|fuel IH]; intros d ptr acc s Hl Hall; [exact I|].
  cbn [lab_walk]. unfold_exec.
  destruct (sdk_order iris _ ptr s) as [[y|e] s1]; [|split; [lia | exact Hall]].
  destruct (negb (truthy y)); [split; [lia | exact Hall]|].
  destruct (sdk_get iris _ s1) as [[data|e] s2]; [|split; [lia | exact Hall]].
  destruct (truthy_value data) eqn:Hv.
  - assert (Hall' : Forall lab_entry_ok
                      (acc ++ [mkLabResult y (value_or_empty data)
                                 (if Py.isdigit y
                                  then FileManDate._parse_fileman_date y
                                  else "")])%list).
    { apply Forall_app. split; [exact Hall|].
      constructor; [|constructor]. split; [|reflexivity]. cbn [lab_value].
      destruct data as [v|]; [|discriminate Hv].
      cbn [truthy_value value_or_empty] in *. now apply truthy_true. }
    destruct (lab_limit <=? _)%nat eqn:Hcap.
    + split; [|exact Hall']. rewrite length_app. simpl. lia.
    + apply IH; [|exact Hall']. now apply Nat.leb_gt in Hcap.
  - destruct (lab_limit <=? _)%nat eqn:Hcap.
    + split; [lia | exact Hall].
    + apply IH; assumption.
Qed.

(** Over a session, dropped or not, the lab walk ends. *)
Lemma lab_walk_returns (st : Globals.store) (t : Z) (d : string)
    (fuel : nat) :
  forall ptr acc cl,
    (Globals.rank st ["^LR"; d] ptr < fuel)%nat ->
    exists l cl',
      lab_walk Session.iris fuel d ptr acc (Session.mkworld st t cl)
      = Some (Ok l, Session.mkworld st t cl').
Proof.
  induction fuel as [|fuel IH]; intros ptr acc cl Hr; [lia|].
  cbn [lab_walk]. unfold_exec.
  assert (Hstep : truthy (Globals.order st ["^LR"; d] ptr) = true ->
                  (Globals.rank st ["^LR"; d]
                     (Globals.order st ["^LR"; d] ptr) < fuel)%nat).
  { intros Ht. apply truthy_true in Ht.
    pose proof (GlobalsProps.rank_order_lt st _ ptr Ht). lia. }
  destruct cl as [[|n]|]; try run_session; eauto;
    destruct (truthy (Globals.order st ["^LR"; d] ptr));
    cbn [negb]; eauto; try run_session.
  - destruct n as [|n]; try run_session; eauto.
    destruct (lab_limit <=? _)%nat; eauto.
  - destruct (lab_limit <=? _)%nat; eauto.
Qed.

Lemma lab_walk_reliable (st : Globals.store) (t : Z) (d : string)
    (fuel : nat) :
  forall ptr acc,
    (Globals.rank st ["^LR"; d] ptr < fuel)%nat ->
    exists l,
      lab_walk Session.iris fuel d ptr acc (Session.mkworld st t None)
      = Some (Ok l, Session.mkworld st t None).
Proof.
  induction fuel as [|fuel IH]; intros ptr acc Hr; [lia|].
  cbn [lab_walk]. unfold_exec. run_session.
  destruct (truthy (Globals.order st ["^LR"; d] ptr)) eqn:Ht;
    cbn [negb]; eauto.
  apply truthy_true in Ht.
  pose proof (GlobalsProps.rank_order_lt st _ ptr Ht).
  run_session.
  match goal with
  | |- context [(lab_limit <=? ?n)%nat] => destruct (lab_limit <=? n)%nat
  end; eauto.
  apply IH. lia.
Qed.

Lemma medication_walk_no_raise {W : Type} (iris : backend W) (fuel : nat) :
  forall d ptr acc s,
    match medication_walk iris fuel d ptr acc s with
    | Some (Raise _, _) => False
    | _ => True
    end.
Proof.
  induction fuel as [|fuel IH]; intros d ptr acc s; simpl; [exact I|].
  unfold_exec.
  destruct (sdk_order iris _ ptr s) as [[ptr'|e] s1]; [|exact I].
  destruct (negb (truthy ptr')); [exact I|].
  destruct (sdk_get iris _ s1) as [[data|e] s2]; [|exact I].
  apply IH.
Qed.

(** Over a session, dropped or not, the medication walk ends. *)
Lemma medication_walk_returns (st : Globals.store) (t : Z) (d : string)
    (fuel : nat) :
  forall ptr acc cl,
    (Globals.rank st ["^PS"; "55"; d; "P"] ptr < fuel)%nat ->
    exists l cl',
      medication_walk Session.iris fuel d ptr acc (Session.mkworld st t cl)
      = Some (Ok l, Session.mkworld st t cl').
Proof.
  induction fuel as [|fuel IH]; intros ptr acc cl Hr; [lia|].
  cbn [medication_walk]. unfold_exec.
  assert (Hstep :
    truthy (Globals.order st ["^PS"; "55"; d; "P"] ptr) = true ->
    (Globals.rank st ["^PS"; "55"; d; "P"]
       (Globals.order st ["^PS"; "55"; d; "P"] ptr) < fuel)%nat).
  { intros Ht. apply truthy_true in Ht.
    pose proof (GlobalsProps.rank_order_lt st _ ptr Ht). lia. }
  destruct cl as [[|n]|]; try run_session; eauto;
    destruct (truthy (Globals.order st ["^PS"; "55"; d; "P"] ptr));
    cbn [negb]; eauto; try run_session; eauto.
  destruct n as [|n]; try run_session; eauto.
Qed.

(** On a connection that never drops the three walks and the two loops of
    the workflow end and leave the session as it was. *)
Lemma walks_reliable (st : Globals.store) (t : Z) (d : string) (fuel : nat) :
  (List.length st < fuel)%nat ->
  let w := Session.mkworld st t None in
  exists la lm ll,
    _get_patient_allergies Session.iris fuel d w = Some (Ok la, w) /\
    _get_patient_medications Session.iris fuel d w = Some (Ok lm, w) /\
    _get_patient_lab_results Session.iris fuel d w = Some (Ok ll, w) /\
    workflow_walk Session.iris fuel ["^PS"; "55"; d; "AL"] "Unknown" "" [] w
    = Some (Ok (map allergy_pair la), w) /\
    workflow_walk Session.iris fuel ["^PS"; "55"; d; "P"] "" "" [] w
    = Some (Ok (map medication_pair lm), w).
Proof.
  intros Hf w. subst w.
  destruct (allergy_walk_agrees st t d fuel "" [])
    as (la & Ha & Hwa);
    [pose proof (GlobalsProps.rank_le st ["^PS"; "55"; d; "AL"] ""); lia|].
  destruct (medication_walk_agrees st t d fuel "" [])
    as (lm & Hm & Hwm);
    [pose proof (GlobalsProps.rank_le st ["^PS"; "55"; d; "P"] ""); lia|].
  destruct (lab_walk_reliable st t d fuel "" [])
    as (ll & Hl);
    [pose proof (GlobalsProps.rank_le st ["^LR"; d] ""); lia|].
  exists la, lm, ll. repeat split; assumption.
Qed.

Lemma lookup_fails (st : Globals.store) (t : Z) (d : string) :
  stored_patient st d = None ->
  exists m,
    get_patient_demographics Session.iris d (Session.mkworld st t None)
    = Some (Raise (mkexn QueryError m), Session.mkworld st t None).
Proof.
  unfold stored_patient, get_patient_demographics. unfold_exec. run_session.
  destruct (Globals.get st ["^DPT"; d; "0"]) as [node|] eqn:Hg.
  - destruct (truthy node) eqn:Ht; [discriminate|]. intros _.
    rewrite (PatientProps.isDefined_value _ _ _ Hg). run_session.
    rewrite Hg, Ht. cbn [msg]. break_inner; eexists; reflexivity.
  - intros _.
    destruct (Globals.isDefined st ["^DPT"; d; "0"] =? 0) eqn:Hd.
    + cbn [msg]. rewrite PatientProps.not_found_message. eexists.
      reflexivity.
    + run_session. rewrite Hg. cbn [msg]. break_inner; eexists; reflexivity.
Qed.

Lemma lookup_stored (st : Globals.store) (t : Z) (d : string) (p : Patient) :
  stored_patient st d = Some p ->
  get_patient_demographics Session.iris d (Session.mkworld st t None)
  = Some (Ok p, Session.mkworld st t None).
Proof.
  unfold stored_patient.
  destruct (Globals.get st ["^DPT"; d; "0"]) as [node|] eqn:Hg;
    [|discriminate].
  destruct (truthy node) eqn:Ht; [|discriminate].
  intros E. injection E as <-. now apply PatientProps.lookup_decodes.
Qed.

(** X16: whatever the SDK does, [_get_patient_lab_results] never raises
    and answers at most 10 entries, each with a result that is not empty and
    with the date decoded from its subscript when the subscript is a digit
    string, no date otherwise; over a session, dropped or not, it ends
    within as many steps as the store has nodes. *)
Theorem lab_results_capped :
  (forall (W : Type) (iris : backend W) fuel d s,
      match _get_patient_lab_results iris fuel d s with
      | Some (Raise _, _) => False
      | Some (Ok l, _) =>
          (List.length l <= 10)%nat /\ Forall lab_entry_ok l
      | None => True
      end) /\
  (forall st t cl fuel d,
      (List.length st < fuel)%nat ->
      exists l cl',
        _get_patient_lab_results Session.iris fuel d
          (Session.mkworld st t cl)
        = Some (Ok l, Session.mkworld st t cl')).
Proof.
  split.
  - intros W iris fuel d s.
    apply (lab_walk_capped iris fuel d "" [] s);
      [unfold lab_limit; cbn; lia | constructor].
  - intros st t cl fuel d Hf. apply lab_walk_returns.
    pose proof (GlobalsProps.rank_le st ["^LR"; d] ""). lia.
Qed.

Lemma lab_results_capped_witness :
  exists l cl',
    _get_patient_lab_results Session.iris 13 "1"
      (Session.mkworld Scenario.store_labs 0 None)
    = Some (Ok l, Session.mkworld Scenario.store_labs 0 cl').
Proof.
  destruct lab_results_capped as [_ H].
  apply (H Scenario.store_labs 0 None 13%nat "1").
  vm_compute. lia.
Defined.

(** Of the twelve results on file the walk answers the first ten. *)
Lemma lab_results_of_twelve :
  exists l,
    _get_patient_lab_results Session.iris 13 "1"
      (Session.mkworld Scenario.store_labs 0 None)
    = Some (Ok l, Session.mkworld Scenario.store_labs 0 None) /\
    List.length l = 10%nat /\
    map test l = map (fun i => "29501" ++ Py.format_d 2 (Z.of_nat i))
                   (seq 1 10) /\
    map lab_date l = map (fun i => "1995-01-" ++ Py.format_d 2 (Z.of_nat i))
                       (seq 1 10).
Proof. eexists. vm_compute. repeat split. Qed.

(** X17: whatever the SDK does, [_get_patient_medications] never raises;
    over a session, dropped or not, it ends within as many steps as the
    store has nodes; on a connection lost from the start it answers the
    empty list. *)
Theorem medications_never_raise :
  (forall (W : Type) (iris : backend W) fuel d s,
      match _get_patient_medications iris fuel d s with
      | Some (Raise _, _) => False
      | _ => True
      end) /\
  (forall st t cl fuel d,
      (List.length st < fuel)%nat ->
      exists l cl',
        _get_patient_medications Session.iris fuel d
          (Session.mkworld st t cl)
        = Some (Ok l, Session.mkworld st t cl')) /\
  (forall st t fuel d,
      _get_patient_medications Session.iris (S fuel) d
        (Session.mkworld st t (Some 0%nat))
      = Some (Ok [], Session.mkworld st t (Some 0%nat))).
Proof.
  split; [|split].
  - intros W iris fuel d s. apply medication_walk_no_raise.
  - intros st t cl fuel d Hf. apply medication_walk_returns.
    pose proof (GlobalsProps.rank_le st ["^PS"; "55"; d; "P"] ""). lia.
  - reflexivity.
Qed.

Lemma medications_never_raise_witness :
  exists l cl',
    _get_patient_medications Session.iris 7 "1"
      (Session.mkworld Scenario.store_1_3 0 (Some 2%nat))
    = Some (Ok l, Session.mkworld Scenario.store_1_3 0 cl').
Proof.
  destruct medications_never_raise as (_ & H & _).
  apply (H Scenario.store_1_3 0 (Some 2%nat) 7%nat "1").
  simpl. lia.
Defined.

(** X18: on a connection that never drops, the workflow answers, for the
    allergies and for the medications, the names with the severities and
    the names with the dosages of the lists that [_get_patient_allergies]
    and [_get_patient_medications] answer, in the same order, with the
    status "ready_for_ordering"; the session is left as it was. *)
Theorem workflow_agrees_with_walks (st : Globals.store) (t : Z) (d : string)
    (fuel : nat) :
  (List.length st < fuel)%nat ->
  let w := Session.mkworld st t None in
  exists la lm,
    _get_patient_allergies Session.iris fuel d w = Some (Ok la, w) /\
    _get_patient_medications Session.iris fuel d w = Some (Ok lm, w) /\
    medication_ordering_workflow Session.iris fuel d w
    = Some (Ok (mkWorkflow d "medication_ordering"
                  (map allergy_pair la) (map medication_pair lm)
                  "ready_for_ordering" "native_sdk"), w).
Proof.
  intros Hf w. subst w.
  destruct (walks_reliable st t d fuel Hf)
    as (la & lm & ll & Ha & Hm & _ & Hwa & Hwm).
  cbv zeta in *.
  exists la, lm. split; [exact Ha|]. split; [exact Hm|].
  unfold medication_ordering_workflow, Exec.try_except, Exec.bind.
  rewrite Hwa, Hwm. reflexivity.
Qed.

Lemma workflow_agrees_with_walks_witness :
  exists la lm,
    _get_patient_allergies Session.iris 7 "1"
      (Session.mkworld Scenario.store_1_3 0 None)
    = Some (Ok la, Session.mkworld Scenario.store_1_3 0 None) /\
    _get_patient_medications Session.iris 7 "1"
      (Session.mkworld Scenario.store_1_3 0 None)
    = Some (Ok lm, Session.mkworld Scenario.store_1_3 0 None) /\
    medication_ordering_workflow Session.iris 7 "1"
      (Session.mkworld Scenario.store_1_3 0 None)
    = Some (Ok (mkWorkflow "1" "medication_ordering"
                  (map allergy_pair la) (map medication_pair lm)
                  "ready_for_ordering" "native_sdk"),
            Session.mkworld Scenario.store_1_3 0 None).
Proof.
  apply (workflow_agrees_with_walks Scenario.store_1_3 0 "1" 7%nat).
  simpl. lia.
Defined.

(** The workflow over the two allergies on file for patient 1: the second
    node holds no caret and its severity is "Unknown". *)
Lemma workflow_of_patient_1 :
  medication_ordering_workflow Session.iris 7 "1"
    (Session.mkworld Scenario.store_1_3 0 None)
  = Some (Ok (mkWorkflow "1" "medication_ordering"
                [("PENICILLIN", "SEVERE"); ("LATEX", "Unknown")] []
                "ready_for_ordering" "native_sdk"),
          Session.mkworld Scenario.store_1_3 0 None).
Proof. vm_compute. reflexivity. Qed.

(** X19: on a connection that never drops, the clinical summary of a DFN
    is answered exactly when the store holds a record for it: the summary
    then carries that record, the lists the three walks answer and the time
    of the clock, and the session is left as it was; otherwise it raises
    [QueryError] with the message of the failed lookup after the words
    "Failed to get clinical summary: ". *)
Theorem clinical_summary_reliable (st : Globals.store) (t : Z) (d : string)
    (fuel : nat) :
  (List.length st < fuel)%nat ->
  let w := Session.mkworld st t None in
  match stored_patient st d with
  | Some p =>
      exists la lm ll,
        _get_patient_allergies Session.iris fuel d w = Some (Ok la, w) /\
        _get_patient_medications Session.iris fuel d w = Some (Ok lm, w) /\
        _get_patient_lab_results Session.iris fuel d w = Some (Ok ll, w) /\
        get_patient_clinical_summary Session.iris fuel d w
        = Some (Ok (mkClinicalSummary p la lm ll t), w)
  | None =>
      exists m,
        get_patient_demographics Session.iris d w
        = Some (Raise (mkexn QueryError m), w) /\
        get_patient_clinical_summary Session.iris fuel d w
        = Some (Raise (mkexn QueryError
                         ("Failed to get clinical summary: " ++ m)), w)
  end.
Proof.
  intros Hf w. subst w.
  destruct (walks_reliable st t d fuel Hf)
    as (la & lm & ll & Ha & Hm & Hl & _ & _).
  cbv zeta in *.
  unfold stored_patient.
  destruct (Globals.get st ["^DPT"; d; "0"]) as [node|] eqn:Hg.
  - destruct (truthy node) eqn:Ht.
    + exists la, lm, ll. repeat (split; [assumption|]).
      unfold get_patient_clinical_summary, Exec.try_except, Exec.bind.
      rewrite (PatientProps.lookup_decodes st t d node Hg Ht), Ha, Hm, Hl.
      reflexivity.
    + unfold get_patient_clinical_summary, Exec.try_except.
      unfold Exec.bind at 1.
      destruct (lookup_fails st t d) as (m & E).
      { unfold stored_patient. now rewrite Hg, Ht. }
      rewrite E. exists m. split; reflexivity.
  - unfold get_patient_clinical_summary, Exec.try_except.
    unfold Exec.bind at 1.
    destruct (lookup_fails st t d) as (m & E).
    { unfold stored_patient. now rewrite Hg. }
    rewrite E. exists m. split; reflexivity.
Qed.

Lemma clinical_summary_reliable_witness :
  exists la lm ll,
    get_patient_clinical_summary Session.iris 7 "1"
      (Session.mkworld Scenario.store_1_3 5 None)
    = Some (Ok (mkClinicalSummary Scenario.doe_john la lm ll 5),
            Session.mkworld Scenario.store_1_3 5 None).
Proof.
  assert (Hf : (List.length Scenario.store_1_3 < 7)%nat) by (simpl; lia).
  pose proof (clinical_summary_reliable Scenario.store_1_3 5 "1" 7%nat Hf)
    as H.
  cbv zeta in H.
  change (stored_patient Scenario.store_1_3 "1")
    with (Some Scenario.doe_john) in H.
  destruct H as (la & lm & ll & _ & _ & _ & H).
  exists la, lm, ll. exact H.
Defined.

(** X20: when the first call of the allergy level raises, whatever the
    exception, [_get_patient_allergies] answers the empty list while
    [medication_ordering_workflow], whose loops are not guarded, raises
    [QueryError] with the message of the exception after the words
    "Medication workflow failed: ". *)
Theorem workflow_propagates_walks_swallow {W : Type} (iris : backend W)
    (fuel : nat) (d : string) (s s' : W) (e : exn) :
  sdk_order iris ["^PS"; "55"; d; "AL"] "" s = (Raise e, s') ->
  _get_patient_allergies iris (S fuel) d s = Some (Ok [], s') /\
  medication_ordering_workflow iris (S fuel) d s
  = Some (Raise (mkexn QueryError
                   ("Medication workflow failed: " ++ msg e)), s').
Proof.
  intros H. split.
  - unfold _get_patient_allergies. cbn [allergy_walk]. unfold_exec.
    now rewrite H.
  - unfold medication_ordering_workflow. cbn [workflow_walk]. unfold_exec.
    now rewrite H.
Qed.

Lemma workflow_propagates_walks_swallow_witness :
  _get_patient_allergies Session.iris 1 "1"
    (Session.mkworld Scenario.store_1_3 0 (Some 0%nat))
  = Some (Ok [], Session.mkworld Scenario.store_1_3 0 (Some 0%nat)) /\
  medication_ordering_workflow Session.iris 1 "1"
    (Session.mkworld Scenario.store_1_3 0 (Some 0%nat))
  = Some (Raise (mkexn QueryError
                   "Medication workflow failed: connection lost"),
          Session.mkworld Scenario.store_1_3 0 (Some 0%nat)).
Proof.
  apply (workflow_propagates_walks_swallow Session.iris 0 "1"
           (Session.mkworld Scenario.store_1_3 0 (Some 0%nat))
           (Session.mkworld Scenario.store_1_3 0 (Some 0%nat))
           (mkexn ConnectionError "connection lost")).
  reflexivity.
Defined.

End WalkProps.

(** ** The batch lookup and the filing of a patient *)

Module FilingProps.
Import IrisNativeAdapter LookupProps PatientProps WalkProps.

Lemma successful_lookups_reliable (st : Globals.store) (t : Z)
    (dfn_list : list string) :
  successful_lookups Session.iris dfn_list (Session.mkworld st t None)
  = (flat_map (on_file st) dfn_list, Session.mkworld st t None).
Proof.
  induction dfn_list as [|d rest IH]; [reflexivity|].
  cbn [successful_lookups flat_map]. unfold on_file at 1.
  destruct (stored_patient st d) as [p|] eqn:E.
  - rewrite (lookup_stored st t d p E), IH. reflexivity.
  - destruct (lookup_fails st t d E) as (m & Hm). rewrite Hm. exact IH.
Qed.

(** X21: on a connection that never drops, the batch lookup answers the
    records the store holds for the DFNs asked, in the order asked, a DFN
    asked twice answered twice and a DFN without record left out: never
    more records than DFNs, each one the stored record of a DFN asked; the
    session is left as it was. *)
Theorem batch_reliable (st : Globals.store) (t : Z) (dfn_list : list string) :
  get_patients_batch Session.iris dfn_list (Session.mkworld st t None)
  = Some (Ok (flat_map (on_file st) dfn_list), Session.mkworld st t None) /\
  (List.length (flat_map (on_file st) dfn_list) <= List.length dfn_list)%nat /\
  Forall (fun p => In (dfn p) dfn_list /\ stored_patient st (dfn p) = Some p)
    (flat_map (on_file st) dfn_list).
Proof.
  split; [|split].
  - unfold get_patients_batch, Exec.try_except.
    rewrite batch_loop_spec, successful_lookups_reliable. reflexivity.
  - induction dfn_list as [|d rest IH]; [cbn; lia|].
    cbn [flat_map]. rewrite length_app. unfold on_file at 1.
    destruct (stored_patient st d); cbn [List.length]; lia.
  - apply Forall_forall. intros p Hp. apply in_flat_map in Hp.
    destruct Hp as (d & Hd & Hp). unfold on_file in Hp.
    destruct (stored_patient st d) as [q|] eqn:E; [|contradiction].
    destruct Hp as [<-|[]].
    assert (Hq : dfn q = d).
    { unfold stored_patient in E.
      destruct (Globals.get st ["^DPT"; d; "0"]) as [node|]; [|discriminate].
      destruct (truthy node); [|discriminate].
      injection E as <-. reflexivity. }
    rewrite Hq. split; assumption.
Qed.

Lemma child_of_last (parent : Globals.path) (x : string) :
  Globals.child_of parent (parent ++ [x])%list = Some x.
Proof.
  induction parent as [|p ps IH]; [reflexivity|].
  cbn [app Globals.child_of]. now rewrite String.eqb_refl.
Qed.

Lemma children_set_here (v : string) (parent : Globals.path) (x : string)
    (st : Globals.store) :
  In x (Globals.children (Globals.set v (parent ++ [x])%list st) parent).
Proof.
  unfold Globals.set, Globals.children. cbn [flat_map fst].
  rewrite child_of_last. now left.
Qed.

Lemma children_set_mono (v : string) (q parent : Globals.path) (c : string)
    (st : Globals.store) :
  In c (Globals.children st parent) ->
  In c (Globals.children (Globals.set v q st) parent).
Proof.
  unfold Globals.children. intros H. apply in_flat_map in H.
  destruct H as ([k x] & Hin & Hc). cbn [fst] in Hc.
  apply in_flat_map.
  destruct (list_eq_dec string_dec k q) as [->|Hne].
  - exists (q, v). split; [now left | exact Hc].
  - exists (k, x). split; [|exact Hc].
    right. unfold Globals.remove. apply filter_In. split; [exact Hin|].
    cbn [fst]. unfold Globals.path_eqb.
    destruct (list_eq_dec string_dec k q); [contradiction | reflexivity].
Qed.

Lemma truthy_upper (s : string) : truthy (Py.upper s) = truthy s.
Proof. destruct s; reflexivity. Qed.

(** On a connection that never drops, the record [create_patient] answers
    is the record the store then holds for its DFN, and a name that is not
    empty is in the name index, upper-cased, with that DFN below it. *)
Lemma create_patient_indexed (st : Globals.store) (t : Z) (fuel : nat)
    (data : Dict.t string) :
  (List.length st < fuel)%nat ->
  exists p st',
    create_patient Session.iris fuel data (Session.mkworld st t None)
    = Some (Ok p, Session.mkworld st' t None) /\
    stored_patient st' (dfn p) = Some p /\
    (data_get data "name" <> "" ->
     indexed st' (Py.upper (data_get data "name")) (dfn p)).
Proof.
  intros Hf.
  destruct (get_next_dfn_reliable st t fuel Hf) as [n En].
  unfold create_patient, Exec.try_except.
  unfold Exec.bind at 1. rewrite En.
  fold (patient_node_of data). fold (address_node_of data).
  fold (address_given data).
  set (node := patient_node_of data).
  set (d := Py.str n).
  assert (Hnode : truthy node = true) by apply truthy_append_char.
  unfold Exec.bind, Sdk.set, Exec.ret. run_session.
  rewrite truthy_upper.
  destruct (truthy (data_get data "name")) eqn:Hname;
    destruct (address_given data) eqn:Haddr; try run_session;
    eexists; eexists;
    (rewrite (lookup_decodes _ t d node);
     [ | repeat (rewrite NativeAdapterProps.globals_get_set_other
                   by (intros H; inversion H));
         apply EmptyValueProps.globals_get_set
       | exact Hnode ]);
    (split; [reflexivity|]);
    (split;
     [ unfold stored_patient; cbn [dfn];
       repeat (rewrite (NativeAdapterProps.globals_get_set_other _
                          _ ["^DPT"; d; "0"])
                 by (intros H; inversion H));
       rewrite EmptyValueProps.globals_get_set, Hnode; reflexivity |]);
    intros Hne; cbn [dfn]; unfold indexed.
  - apply children_set_mono.
    apply (children_set_here "" ["^DPT"; "B"; _] d).
  - apply (children_set_here "" ["^DPT"; "B"; _] d).
  - exfalso. apply Hne. unfold truthy in Hname.
    apply negb_false_iff in Hname. now apply String.eqb_eq.
  - exfalso. apply Hne. unfold truthy in Hname.
    apply negb_false_iff in Hname. now apply String.eqb_eq.
Qed.

(** X22: on a connection that never drops, the patient [create_patient]
    answers is on file afterwards: the lookup of its DFN and the batch
    lookup of its DFN alone answer the same record, and when the name given
    is not empty the name index holds the DFN under the upper-cased name. *)
Theorem create_then_lookup (st : Globals.store) (t : Z) (fuel : nat)
    (data : Dict.t string) :
  (List.length st < fuel)%nat ->
  exists p st',
    create_patient Session.iris fuel data (Session.mkworld st t None)
    = Some (Ok p, Session.mkworld st' t None) /\
    get_patient_demographics Session.iris (dfn p) (Session.mkworld st' t None)
    = Some (Ok p, Session.mkworld st' t None) /\
    get_patients_batch Session.iris [dfn p] (Session.mkworld st' t None)
    = Some (Ok [p], Session.mkworld st' t None) /\
    (data_get data "name" <> "" ->
     indexed st' (Py.upper (data_get data "name")) (dfn p)).
Proof.
  intros Hf.
  destruct (create_patient_indexed st t fuel data Hf)
    as (p & st' & E & Hs & Hi).
  exists p, st'. split; [exact E|]. split; [now apply lookup_stored|].
  split; [|exact Hi].
  unfold get_patients_batch, Exec.try_except.
  rewrite batch_loop_spec, successful_lookups_reliable.
  cbn [flat_map]. unfold on_file. rewrite Hs. reflexivity.
Qed.

Lemma create_then_lookup_witness :
  exists p st',
    create_patient Session.iris 1 Scenario.doe_data (Session.mkworld [] 0 None)
    = Some (Ok p, Session.mkworld st' 0 None) /\
    get_patient_demographics Session.iris (dfn p) (Session.mkworld st' 0 None)
    = Some (Ok p, Session.mkworld st' 0 None) /\
    indexed st' "DOE,JOHN" (dfn p).
Proof.
  destruct (create_then_lookup [] 0 1%nat Scenario.doe_data)
    as (p & st' & E & Hl & _ & Hi).
  - simpl. lia.
  - exists p, st'. split; [exact E|]. split; [exact Hl|].
    apply Hi. discriminate.
Defined.

End FilingProps.

(** ** [DatabaseAdapterFactory] *)

Module FactoryProps.
Import DatabaseAdapterFactory.

(** The head of the stable ascending sort: the first pair of least tier. *)
Lemma sort_asc_head (l : list (string * Z)) :
  l <> [] ->
  exists x r pre post,
    sort_asc l = x :: r /\ l = (pre ++ x :: post)%list /\
    Forall (fun y => snd x < snd y) pre /\
    Forall (fun y => snd x <= snd y) post.
Proof.
  induction l as [|y l IH]; [contradiction|]. intros _.
  destruct l as [|z l'].
  - exists y, [], [], []. simpl. repeat split; constructor.
  - destruct IH as (x & r & pre & post & Hs & Hl & Hpre & Hpost);
      [discriminate|].
    change (sort_asc (y :: z :: l'))
      with (insert_asc y (sort_asc (z :: l'))).
    rewrite Hs. simpl.
    destruct (snd x <? snd y) eqn:E.
    + apply Z.ltb_lt in E.
      exists x, (insert_asc y r), (y :: pre), post.
      rewrite Hl. repeat split; [|assumption].
      constructor; assumption.
    + apply Z.ltb_ge in E.
      exists y, (x :: r), [], (z :: l').
      repeat split; [constructor|].
      rewrite Hl. apply Forall_app. split.
      * eapply Forall_impl; [|exact Hpre]. intros a Ha.
        simpl in Ha. lia.
      * constructor; [exact E|].
        eapply Forall_impl; [|exact Hpost]. intros a Ha.
        simpl in Ha. lia.
Qed.

Lemma available_pairs (adapters : Dict.t adapter_entry) :
  flat_map (fun ti => if available (snd ti)
                      then [(fst ti, performance_tier (snd ti))]
                      else []) adapters
  = map (fun ti => (fst ti, performance_tier (snd ti)))
      (filter (fun ti => available (snd ti)) adapters).
Proof.
  induction adapters as [|a l IH]; [reflexivity|].
  cbn [flat_map filter]. destruct (available (snd a)); cbn; now rewrite IH.
Qed.

(** What the auto-detection of the factory answers, for every table. *)
Lemma auto_detect_outcome (adapters : Dict.t adapter_entry) :
  match _auto_detect_best_adapter adapters with
  | Ok name =>
      exists entry before later,
        adapters = (before ++ (name, entry) :: later)%list /\
        available entry = true /\
        Forall (fun ne => available (snd ne) = true ->
                          performance_tier entry
                          < performance_tier (snd ne)) before /\
        Forall (fun ne => available (snd ne) = true ->
                          performance_tier entry
                          <= performance_tier (snd ne)) later
  | Raise e =>
      e = mkexn FileBotException
            ("No database adapters available. " ++
             "Please install required dependencies.") /\
      Forall (fun ne => available (snd ne) = false) adapters
  end.
Proof.
  unfold _auto_detect_best_adapter. rewrite available_pairs.
  set (f := fun ti : string * adapter_entry => available (snd ti)).
  set (g := fun ti : string * adapter_entry =>
              (fst ti, performance_tier (snd ti))).
  destruct (filter f adapters) as [|h t] eqn:Hf.
  - cbn [map]. split; [reflexivity|].
    apply Forall_forall. intros x Hx.
    destruct (available (snd x)) eqn:Ex; [|reflexivity].
    assert (Hin : In x (filter f adapters))
      by (apply filter_In; split; assumption).
    rewrite Hf in Hin. contradiction.
  - cbn [map].
    destruct (sort_asc_head (g h :: map g t))
      as (x & r & pre & post & Hs & Hl & Hpre & Hpost); [discriminate|].
    rewrite Hs. destruct x as [name tier].
    change (g h :: map g t) with (map g (h :: t)) in Hl.
    rewrite <- Hf in Hl.
    apply map_eq_app in Hl.
    destruct Hl as (fpre & frest & Hsplit & Hmpre & Hmrest).
    destruct frest as [|y fpost]; [discriminate|].
    destruct y as [yn ye].
    cbn [map] in Hmrest. unfold g at 1 in Hmrest. cbn [fst snd] in Hmrest.
    injection Hmrest as -> <- Hmpost.
    destruct (RegistryProps.filter_split f adapters fpre fpost (name, ye)
                Hsplit) as (before & later & Ha & Hb & Hc).
    exists ye, before, later. split; [exact Ha|]. split.
    + assert (Hin : In (name, ye) (filter f adapters)).
      { rewrite Hsplit. apply in_or_app. right. now left. }
      apply filter_In in Hin. exact (proj2 Hin).
    + split.
      * apply (RegistryProps.Forall_filter_elim f). rewrite Hb.
        subst pre. rewrite Forall_map in Hpre. exact Hpre.
      * apply (RegistryProps.Forall_filter_elim f). rewrite Hc.
        subst post. rewrite Forall_map in Hpost. exact Hpost.
Qed.

(** X23: the auto-detection of the factory answers the type of the
    available entry of least performance tier, the first of the table among
    those of that tier, and raises [FileBotException] exactly when no entry
    is available; over the table of the module it answers iris_native when
    that SDK was imported, else yottadb, else gtm, whichever of the three
    are available. *)
Theorem factory_auto_detect :
  (forall adapters,
      match _auto_detect_best_adapter adapters with
      | Ok name =>
          exists entry before later,
            adapters = (before ++ (name, entry) :: later)%list /\
            available entry = true /\
            Forall (fun ne => available (snd ne) = true ->
                              performance_tier entry
                              < performance_tier (snd ne)) before /\
            Forall (fun ne => available (snd ne) = true ->
                              performance_tier entry
                              <= performance_tier (snd ne)) later
      | Raise e =>
          e = mkexn FileBotException
                ("No database adapters available. " ++
                 "Please install required dependencies.") /\
          Forall (fun ne => available (snd ne) = false) adapters
      end) /\
  (forall i y g,
      _auto_detect_best_adapter (_ADAPTERS i y g)
      = if i then Ok "iris_native"
        else if y then Ok "yottadb"
        else if g then Ok "gtm"
        else Raise (mkexn FileBotException
                      ("No database adapters available. " ++
                       "Please install required dependencies."))).
Proof.
  split; [exact auto_detect_outcome|].
  intros [] [] []; reflexivity.
Qed.

(** X24: whatever the constructor does, the factory's [create_adapter]
    raises nothing but [FileBotException].  For a type other than
    "auto_detect": a type that is not in the table is refused with the list
    of the available ones, a type whose entry is not available is refused
    with its requirements, and for an available one of the three types the
    answer is the adapter constructed, an exception of the constructor
    being wrapped with its message. *)
Theorem factory_create_adapter {A : Type} (construct : string -> result A)
    (adapters : Dict.t adapter_entry) (adapter_type : string) :
  (forall e, create_adapter construct adapter_type adapters = Raise e ->
             kind e = FileBotException) /\
  (adapter_type <> "auto_detect" ->
   (Dict.get adapter_type adapters = None ->
    create_adapter construct adapter_type adapters
    = Raise (mkexn FileBotException
               ("Unknown adapter type '" ++ adapter_type ++ "'. " ++
                "Available: " ++
                Py.join ", " (get_available_adapters adapters)))) /\
   (forall entry,
       Dict.get adapter_type adapters = Some entry ->
       available entry = false ->
       create_adapter construct adapter_type adapters
       = Raise (mkexn FileBotException
                  ("Adapter '" ++ adapter_type ++ "' not available. " ++
                   "Missing requirements: " ++
                   Py.join ", " (requirements entry)))) /\
   (forall entry,
       Dict.get adapter_type adapters = Some entry ->
       available entry = true ->
       In adapter_type ["iris_native"; "yottadb"; "gtm"] ->
       create_adapter construct adapter_type adapters
       = match construct adapter_type with
         | Ok adapter => Ok adapter
         | Raise e =>
             Raise (mkexn FileBotException
                      ("Failed to create " ++ adapter_type ++
                       " adapter: " ++ msg e))
         end)).
Proof.
  split.
  - intros e. unfold create_adapter.
    destruct (adapter_type =? "auto_detect")%string.
    + pose proof (auto_detect_outcome adapters) as Hd.
      destruct (_auto_detect_best_adapter adapters) as [name|e0].
      * destruct (Dict.get name adapters) as [entry|];
          [|intros H; injection H as <-; reflexivity].
        destruct (negb (available entry));
          [intros H; injection H as <-; reflexivity|].
        destruct ((name =? "iris_native")%string || (name =? "yottadb")%string
                  || (name =? "gtm")%string);
          [destruct (construct name)|];
          intros H; try discriminate; injection H as <-; reflexivity.
      * destruct Hd as [-> _]. intros H. injection H as <-. reflexivity.
    + destruct (Dict.get adapter_type adapters) as [entry|];
        [|intros H; injection H as <-; reflexivity].
      destruct (negb (available entry));
        [intros H; injection H as <-; reflexivity|].
      destruct ((adapter_type =? "iris_native")%string
                || (adapter_type =? "yottadb")%string
                || (adapter_type =? "gtm")%string);
        [destruct (construct adapter_type)|];
        intros H; try discriminate; injection H as <-; reflexivity.
  - intros Hne. apply String.eqb_neq in Hne.
    unfold create_adapter. rewrite Hne. split; [|split].
    + intros ->. reflexivity.
    + intros entry -> ->. reflexivity.
    + intros entry -> -> Hin. cbn [negb].
      destruct Hin as [<-|[<-|[<-|[]]]]; reflexivity.
Qed.

Lemma factory_create_adapter_witness :
  create_adapter (fun t => Raise (mkexn RuntimeError "no server")
                           : result unit)
    "yottadb" (_ADAPTERS false true false)
  = Raise (mkexn FileBotException
             "Failed to create yottadb adapter: no server").
Proof.
  destruct (factory_create_adapter
              (fun t => Raise (mkexn RuntimeError "no server") : result unit)
              (_ADAPTERS false true false) "yottadb") as (_ & H).
  destruct H as (_ & _ & H); [discriminate|].
  apply (H (mkentry "YottaDBAdapter" true 2
              "YottaDB via native Python bindings"
              ["yottadb"; "YottaDB installation"]));
    [reflexivity | reflexivity | right; left; reflexivity].
Defined.

End FactoryProps.

(** ** [IRISNativeAdapter.data_global] *)

Module DataProps.
Import IRISNativeAdapter.

(** X25: through a connected adapter, [data_global] never raises: an
    exception of the SDK is answered 0, like a node that is not defined.
    On a connection that never drops it answers the status of the node,
    which after a successful [set_global] at that node is 1 or 11, also
    when the value written is the empty string; on a lost connection it
    answers 0. *)
Theorem native_data_global :
  (forall (S : Type) (b : backend S) g subs s,
      exists r s',
        data_global b Scenario.connected_adapter g subs s
        = Some (Ok r, s')) /\
  (forall (st : Globals.store) (t : Z) g n subs,
      BaseAdapter._normalize_global_name g = Ok n ->
      data_global Session.iris Scenario.connected_adapter g subs
        (Session.mkworld st t None)
      = Some (Ok (Globals.isDefined st (n :: subs)),
              Session.mkworld st t None)) /\
  (forall (st : Globals.store) (t : Z) v g subs w',
      set_global Session.iris Scenario.connected_adapter v g subs
        (Session.mkworld st t None) = Some (Ok true, w') ->
      exists z,
        data_global Session.iris Scenario.connected_adapter g subs w'
        = Some (Ok z, w') /\ (z = 1 \/ z = 11)) /\
  (forall (st : Globals.store) (t : Z) g subs,
      data_global Session.iris Scenario.connected_adapter g subs
        (Session.mkworld st t (Some 0%nat))
      = Some (Ok 0, Session.mkworld st t (Some 0%nat))).
Proof.
  split; [|split; [|split]].
  - intros S b g subs s. unfold data_global.
    cbn [Scenario.connected_adapter connected has_iris_native negb orb].
    unfold_exec.
    repeat break_inner; eexists; eexists; reflexivity.
  - intros st t g n subs Hn. unfold data_global.
    cbn [Scenario.connected_adapter connected has_iris_native negb orb].
    unfold_exec. unfold BaseAdapter._validate_subscripts. rewrite Hn.
    reflexivity.
  - intros st t v g subs w'. unfold set_global, data_global.
    cbn [Scenario.connected_adapter connected has_iris_native negb orb].
    unfold_exec. unfold BaseAdapter._validate_subscripts.
    destruct (BaseAdapter._normalize_global_name g) as [n|e];
      [|discriminate].
    run_session. intros H. injection H as <-. run_session.
    unfold Globals.isDefined.
    rewrite EmptyValueProps.globals_get_set.
    destruct (Globals.children _ _); eexists; split; eauto.
  - intros st t g subs. unfold data_global.
    cbn [Scenario.connected_adapter connected has_iris_native negb orb].
    unfold_exec.
    destruct (BaseAdapter._normalize_global_name g); reflexivity.
Qed.

Lemma native_data_global_witness :
  exists z,
    data_global Session.iris Scenario.connected_adapter "G" ["1"]
      (Session.mkworld [(["^G"; "1"], "")] 0 None)
    = Some (Ok z, Session.mkworld [(["^G"; "1"], "")] 0 None) /\
    (z = 1 \/ z = 11).
Proof.
  destruct native_data_global as (_ & _ & H & _).
  apply (H [] 0 "" "G" ["1"]). reflexivity.
Defined.

End DataProps.

(** ** FileMan dates: decoding, then encoding *)

Module FileManInverseProps.
Import FileManDate FileManDateProps.

Lemma digit_cases (c : ascii) :
  Py.is_digit c = true ->
  In c ["0"; "1"; "2"; "3"; "4"; "5"; "6"; "7"; "8"; "9"]%char.
Proof.
  destruct c as [[] [] [] [] [] [] [] []]; vm_compute; intros H;
    try discriminate H; tauto.
Qed.

(** Two digits read as a number are what the number is formatted to. *)
Lemma format_int_2 (a b : ascii) :
  Py.is_digit a = true -> Py.is_digit b = true ->
  exists n, Py.int (String a (String b "")) = Some n /\
            0 <= n <= 99 /\
            Py.format_d 2 n = String a (String b "").
Proof.
  intros Ha Hb.
  assert (H : forallb (fun x => forallb (fun y =>
                match Py.int (String x (String y "")) with
                | Some n => (0 <=? n) && (n <=? 99) &&
                            (Py.format_d 2 n =? String x (String y ""))%string
                | None => false
                end) ["0"; "1"; "2"; "3"; "4"; "5"; "6"; "7"; "8"; "9"]%char)
              ["0"; "1"; "2"; "3"; "4"; "5"; "6"; "7"; "8"; "9"]%char = true)
    by (vm_compute; reflexivity).
  rewrite forallb_forall in H. specialize (H a (digit_cases a Ha)).
  rewrite forallb_forall in H. specialize (H b (digit_cases b Hb)).
  destruct (Py.int (String a (String b ""))) as [n|]; [|discriminate].
  apply andb_true_iff in H as [H E]. apply andb_true_iff in H as [L U].
  exists n. split; [reflexivity|]. split; [lia|]. now apply String.eqb_eq.
Qed.

Lemma format_int_3 (a b c : ascii) :
  Py.is_digit a = true -> Py.is_digit b = true -> Py.is_digit c = true ->
  exists n, Py.int (String a (String b (String c ""))) = Some n /\
            0 <= n <= 999 /\
            Py.format_d 3 n = String a (String b (String c "")).
Proof.
  intros Ha Hb Hc.
  assert (H : forallb (fun x => forallb (fun y => forallb (fun z =>
                match Py.int (String x (String y (String z ""))) with
                | Some n => (0 <=? n) && (n <=? 999) &&
                            (Py.format_d 3 n
                             =? String x (String y (String z "")))%string
                | None => false
                end) ["0"; "1"; "2"; "3"; "4"; "5"; "6"; "7"; "8"; "9"]%char)
              ["0"; "1"; "2"; "3"; "4"; "5"; "6"; "7"; "8"; "9"]%char)
              ["0"; "1"; "2"; "3"; "4"; "5"; "6"; "7"; "8"; "9"]%char = true)
    by (vm_compute; reflexivity).
  rewrite forallb_forall in H. specialize (H a (digit_cases a Ha)).
  rewrite forallb_forall in H. specialize (H b (digit_cases b Hb)).
  rewrite forallb_forall in H. specialize (H c (digit_cases c Hc)).
  destruct (Py.int (String a (String b (String c "")))) as [n|];
    [|discriminate].
  apply andb_true_iff in H as [H E]. apply andb_true_iff in H as [L U].
  exists n. split; [reflexivity|]. split; [lia|]. now apply String.eqb_eq.
Qed.

(** [fromisoformat] reads back what [isoformat] wrote, and accepts it when
    it is a date of the calendar. *)
Lemma fromisoformat_isoformat_any (d : date) :
  0 <= year d <= 9999 -> 0 <= month d <= 99 -> 0 <= day d <= 99 ->
  fromisoformat (Py.replace_char "Z" "+00:00" (isoformat d))
  = if valid_dateb d then Some d else None.
Proof.
  intros Hy Hm Hd.
  pose proof (format_d_4 (year d) ltac:(lia)) as Dy.
  pose proof (format_d_2 (month d) ltac:(lia)) as Dm.
  pose proof (format_d_2 (day d) ltac:(lia)) as Dd.
  unfold isoformat.
  rewrite !replace_char_append.
  rewrite (all_digits_no_Z _ (Py.format_d 4 (year d))) by apply Dy.
  rewrite (all_digits_no_Z _ (Py.format_d 2 (month d))) by apply Dm.
  rewrite (all_digits_no_Z _ (Py.format_d 2 (day d))) by apply Dd.
  cbn [Py.replace_char Ascii.eqb Bool.eqb].
  explode_digits Dy Ay Iy. explode_digits Dm Am Im. explode_digits Dd Ad Id.
  unfold fromisoformat. run_slices.
  rewrite Ay, Am, Ad, Iy, Im, Id. cbn [andb].
  destruct d as [y m dd]; reflexivity.
Qed.

Lemma substring_0_0 (s : string) : substring 0 0 s = "".
Proof. destruct s; reflexivity. Qed.

(** X26: for a digit string of at least 7 characters, encoding what the
    decoder answers gives back its first seven characters when the 3/2/2
    split is a date of the calendar in the year 1700 plus the first three
    digits, and the empty string when it is not (a month 13, a day 0, a 30th
    of February). *)
Theorem format_parse_fileman_date (s : string) :
  Py.isdigit s = true -> (7 <= String.length s)%nat ->
  exists y m d,
    Py.int (Py.slice 0 3 s) = Some y /\
    Py.int (Py.slice 3 5 s) = Some m /\
    Py.int (Py.slice 5 7 s) = Some d /\
    _format_fileman_date (_parse_fileman_date s)
    = if valid_dateb (mkdate (1700 + y) m d) then Py.slice 0 7 s else "".
Proof.
  intros Hd Hl. pose proof Hd as Hs.
  destruct s as [|c1 [|c2 [|c3 [|c4 [|c5 [|c6 [|c7 r]]]]]]];
    cbn [String.length] in Hl; try lia.
  unfold Py.isdigit in Hd. apply andb_true_iff in Hd as [_ Hd].
  cbn [Py.all_digits] in Hd.
  repeat (apply andb_true_iff in Hd as [? Hd]).
  destruct (format_int_3 c1 c2 c3) as (y & Ey & Hy & Fy); try assumption.
  destruct (format_int_2 c4 c5) as (m & Em & Hm & Fm); try assumption.
  destruct (format_int_2 c6 c7) as (d & Ed & Hdd & Fd); try assumption.
  exists y, m, d.
  assert (P : _parse_fileman_date
                (String c1 (String c2 (String c3 (String c4 (String c5
                   (String c6 (String c7 r)))))))
              = isoformat (mkdate (1700 + y) m d)).
  { unfold _parse_fileman_date. rewrite Hs.
    cbn [String.eqb negb orb String.length Nat.leb].
    run_slices. rewrite substring_0_0, Ey, Em, Ed. reflexivity. }
  run_slices. rewrite !substring_0_0. split; [exact Ey|]. split; [exact Em|]. split; [exact Ed|].
  rewrite P. unfold _format_fileman_date.
  rewrite isoformat_nonempty.
  rewrite fromisoformat_isoformat_any by (cbn [year month day]; lia).
  destruct (valid_dateb (mkdate (1700 + y) m d)); [|reflexivity].
  cbn [year month day].
  replace (1700 + y - 1700) with y by lia.
  rewrite Fy, Fm, Fd. reflexivity.
Qed.

Lemma format_parse_fileman_date_witness :
  exists y m d,
    Py.int (Py.slice 0 3 "2950115") = Some y /\
    Py.int (Py.slice 3 5 "2950115") = Some m /\
    Py.int (Py.slice 5 7 "2950115") = Some d /\
    _format_fileman_date (_parse_fileman_date "2950115")
    = if valid_dateb (mkdate (1700 + y) m d)
      then Py.slice 0 7 "2950115" else "".
Proof.
  apply (format_parse_fileman_date "2950115"); [reflexivity|].
  cbn [String.length]. lia.
Defined.

(** A date with the time of day behind it gives back the date; a month 13
    gives the empty string. *)
Lemma format_parse_fileman_date_examples :
  _format_fileman_date (_parse_fileman_date "29501151230") = "2950115" /\
  _format_fileman_date (_parse_fileman_date "2951399") = "".
Proof. split; reflexivity. Qed.

End FileManInverseProps.

(** ** The keys of the mock *)

Module MockKeyProps.

Lemma join_first_two (a b : string) (rest : list string) :
  Py.join "," (a :: b :: rest) = Py.join "," ((a ++ "," ++ b) :: rest).
Proof.
  destruct rest as [|c rest]; [reflexivity|].
  cbn [Py.join]. now rewrite !string_append_assoc.
Qed.

(** X27: the mock files a node under the global name and the subscripts
    joined by commas, so that two subscripts and the single subscript made
    of them with a comma between name the same node: a value written at one
    of the two paths is read at the other. *)
Theorem mock_keys_join_subscripts (g a b : string) (rest : list string) :
  MockAdapter._build_key g (a :: b :: rest)
  = MockAdapter._build_key g ((a ++ "," ++ b) :: rest) /\
  (forall (d d' : MockAdapter.data) (v : string) (r : bool),
      v <> "" ->
      MockAdapter.set_global v g (a :: b :: rest) d = Ok (d', r) ->
      MockAdapter.get_global d' g ((a ++ "," ++ b) :: rest) = Ok (Some v)).
Proof.
  assert (K : MockAdapter._build_key g (a :: b :: rest)
              = MockAdapter._build_key g ((a ++ "," ++ b) :: rest)).
  { unfold MockAdapter._build_key.
    destruct (BaseAdapter._normalize_global_name g); [|reflexivity].
    now rewrite join_first_two. }
  split; [exact K|].
  intros d d' v r Hv. unfold MockAdapter.set_global, MockAdapter.get_global.
  rewrite <- K.
  destruct (MockAdapter._build_key g (a :: b :: rest)) as [key|e];
    [|discriminate].
  apply String.eqb_neq in Hv. rewrite Hv. cbn [negb].
  intros H. injection H as <- _. now rewrite dict_get_set.
Qed.

Lemma mock_keys_join_subscripts_witness :
  MockAdapter.get_global [("^G(1,2)", "x")] "^G" ["1,2"] = Ok (Some "x").
Proof.
  destruct (mock_keys_join_subscripts "^G" "1" "2" []) as [_ H].
  apply (H [] [("^G(1,2)", "x")] "x" true); [discriminate | reflexivity].
Defined.

End MockKeyProps.
